(** * progressor: the style-rendering engine of [progress.py]

    A shallow embedding of [get_progress_drawer] and [MultiProgress]
    (src/progressor/progress.py) and the properties of its specification.

    - Python [str] values are sequences of Unicode code points.
    - Python [float] values are IEEE 754 binary64 numbers, taken from the
      executable reference semantics of [SpecFloat] (precision 53,
      infinity exponent 1024).
    - Python exceptions are the left summand of an error monad.
    - The closure state of a drawer (frame cursor, speed tracker) is an
      explicit record threaded through [draw]; [time.time()] is an input. *)

From Stdlib Require Import String Ascii DecimalString.
From Stdlib Require Import ZArith Lia Bool SpecFloat List FinFun.
Import ListNotations.
Local Open Scope Z_scope.

(** ** Exceptions *)

Module Exn.

Inductive exn : Type :=
| ValueError (msg : list N)
| IndexError (msg : list N)
| OverflowError
| ZeroDivisionError.

Definition result (A : Type) : Type := (exn + A)%type.

Definition ok {A} (a : A) : result A := inr a.
Definition raise {A} (e : exn) : result A := inl e.

Definition bind {A B} (c : result A) (k : A -> result B) : result B :=
  match c with
  | inl e => inl e
  | inr a => k a
  end.

End Exn.
Import Exn.

Notation "x <- c ;; k" := (bind c (fun x => k))
  (at level 61, c at next level, right associativity).
Notation "' pat <- c ;; k" := (bind c (fun x => match x with pat => k end))
  (at level 61, pat pattern, c at next level, right associativity).

(** ** Python strings *)

Module PyStr.

(** A character is a Unicode code point; [len] counts code points. *)
Definition char : Type := N.
Definition str : Type := list char.

(** An ASCII literal of the source. *)
Definition lit (s : string) : str :=
  map N_of_ascii (list_ascii_of_string s).

Definition len {A} (s : list A) : Z := Z.of_nat (List.length s).

(** [s * n]: repetition; a count below one gives the empty string. *)
Definition mul (s : str) (n : Z) : str :=
  concat (repeat s (Z.to_nat n)).

(** [xs[i]] on a sequence: negative indices count from the end, and an
    index outside the sequence raises [IndexError]. *)
Definition index {A} (xs : list A) (i : Z) : result A :=
  let n := len xs in
  let j := if i <? 0 then i + n else i in
  if (0 <=? j) && (j <? n) then
    match nth_error xs (Z.to_nat j) with
    | Some a => ok a
    | None => raise (IndexError (lit "index out of range"))
    end
  else raise (IndexError (lit "index out of range")).

(** Indexing a [str] yields a one-character [str]. *)
Definition char_at (s : str) (i : Z) : result str :=
  c <- index s i ;; ok [c].

(** [sep.join(parts)] *)
Fixpoint join (sep : str) (parts : list str) : str :=
  match parts with
  | [] => []
  | [p] => p
  | p :: rest => p ++ sep ++ join sep rest
  end.

Definition eqb (a b : str) : bool :=
  if list_eq_dec N.eq_dec a b then true else false.

(** Number of occurrences of a character. *)
Definition count (c : char) (s : str) : Z :=
  len (filter (N.eqb c) s).

Definition NL : char := 10%N.
Definition CR : char := 13%N.

(** Decimal digits of a non-negative integer. *)
Definition of_nonneg (n : Z) : str :=
  lit (NilZero.string_of_uint (N.to_uint (Z.to_N n))).

End PyStr.
Import PyStr.

(** ** Python numbers *)

Module F64.

(** binary64 *)
Definition prec : Z := 53.
Definition emax : Z := 1024.

Definition float : Type := spec_float.

Definition mul : float -> float -> float := SFmul prec emax.
Definition div : float -> float -> float := SFdiv prec emax.
Definition sub : float -> float -> float := SFsub prec emax.
Definition compare : float -> float -> option comparison := SFcompare.
Definition valid : float -> bool := valid_binary prec emax.

(** The nearest float of an integer (ties to even); [None] when the
    integer is beyond the largest finite float, where CPython raises
    [OverflowError: int too large to convert to float]. *)
Definition of_Z (n : Z) : option float :=
  match binary_normalize prec emax n 0 false with
  | S754_infinity _ => None
  | f => Some f
  end.

Definition of_int (n : Z) : result float :=
  match of_Z n with
  | Some f => ok f
  | None => raise OverflowError
  end.

(** Small integer constants of the source, which convert exactly. *)
Definition small (n : Z) : float := binary_normalize prec emax n 0 false.

(** A decimal literal [n/d] of the source: the nearest float of the
    quotient, which is what a correctly rounded division returns. *)
Definition dec (n d : Z) : float := div (small n) (small d).

(** The integer part of a finite float, towards zero. *)
Definition trunc (f : float) : option Z :=
  match f with
  | S754_zero _ => Some 0
  | S754_finite s m e => Some (cond_Zopp s (Z.shiftl (Zpos m) e))
  | S754_infinity _ => None
  | S754_nan => None
  end.

(** [int(f)]: a NaN raises [ValueError], an infinity [OverflowError]. *)
Definition to_int (f : float) : result Z :=
  match f with
  | S754_nan => raise (ValueError (lit "cannot convert float NaN to integer"))
  | S754_infinity _ => raise OverflowError
  | _ => match trunc f with Some z => ok z | None => raise OverflowError end
  end.

(** Exact comparison of an integer with a float, as CPython compares
    an [int] with a [float]; [None] on NaN. *)
Definition Zcompare (z : Z) (f : float) : option comparison :=
  match f with
  | S754_nan => None
  | S754_infinity s => Some (if s then Gt else Lt)
  | S754_zero _ => Some (z ?= 0)
  | S754_finite s m e =>
      let v := cond_Zopp s (Zpos m) in
      if 0 <=? e then Some (z ?= v * 2 ^ e)
      else Some (z * 2 ^ (- e) ?= v)
  end.

End F64.

Module Num.
Import F64.

(** A Python number of the source: an [int] or a [float]. *)
Inductive num : Type :=
| PyInt (z : Z)
| PyFloat (f : float).

Definition compare (a b : num) : option comparison :=
  match a, b with
  | PyInt x, PyInt y => Some (x ?= y)
  | PyFloat x, PyFloat y => F64.compare x y
  | PyInt x, PyFloat y => F64.Zcompare x y
  | PyFloat x, PyInt y => option_map CompOpp (F64.Zcompare y x)
  end.

Definition ltb (a b : num) : bool :=
  match compare a b with Some Lt => true | _ => false end.
Definition leb (a b : num) : bool :=
  match compare a b with Some (Lt | Eq) => true | _ => false end.
Definition gtb (a b : num) : bool := ltb b a.
Definition geb (a b : num) : bool := leb b a.

(** [min(a, b)] and [max(a, b)] keep the first argument unless the
    second is strictly smaller (resp. larger). *)
Definition min (a b : num) : num := if ltb b a then b else a.
Definition max (a b : num) : num := if gtb b a then b else a.

Definition to_float (a : num) : result float :=
  match a with
  | PyInt z => of_int z
  | PyFloat f => ok f
  end.

(** [a * n] for an [int] [n]. *)
Definition mul_int (a : num) (n : Z) : result num :=
  match a with
  | PyInt z => ok (PyInt (z * n))
  | PyFloat f => fn <- of_int n ;; ok (PyFloat (mul f fn))
  end.

(** [int(a)] *)
Definition to_int (a : num) : result Z :=
  match a with
  | PyInt z => ok z
  | PyFloat f => F64.to_int f
  end.

End Num.
Import Num.

(** ** Number formatting *)

Module Fmt.
Import F64.

(** Nearest integer of [n / 2^k], ties to even, for [n >= 0]. *)
Definition round_half_even_shift (n : Z) (k : Z) : Z :=
  let d := 2 ^ k in
  let q := n / d in
  let r := n mod d in
  match 2 * r ?= d with
  | Lt => q
  | Gt => q + 1
  | Eq => if Z.even q then q else q + 1
  end.

(** The magnitude of a finite float in tenths, correctly rounded. *)
Definition tenths (m : positive) (e : Z) : Z :=
  if 0 <=? e then Zpos m * 2 ^ e * 10
  else round_half_even_shift (Zpos m * 10) (- e).

Definition sign_str (s : bool) : str := if s then lit "-" else [].

Definition fixed1 (t : Z) : str :=
  of_nonneg (t / 10) ++ lit "." ++ of_nonneg (t mod 10).

(** [format(f, ".1f")] *)
Definition f1 (f : float) : str :=
  match f with
  | S754_nan => lit "nan"
  | S754_infinity s => sign_str s ++ lit "inf"
  | S754_zero s => sign_str s ++ lit "0.0"
  | S754_finite s m e => sign_str s ++ fixed1 (tenths m e)
  end.

(** Right-justification in a field of [w] characters. *)
Definition rjust (w : Z) (s : str) : str :=
  PyStr.mul (lit " ") (w - len s) ++ s.

(** [format(p, "5.1%")]: the value times 100 as a float, one decimal,
    a percent sign, right-justified to five characters. *)
Definition percent (p : num) : result str :=
  f <- Num.to_float p ;;
  ok (rjust 5 (f1 (mul f (small 100)) ++ lit "%")).

(** Groups of three digits from the right, separated by commas. *)
Fixpoint chunk3 (rs : str) : list str :=
  match rs with
  | a :: b :: c :: (_ :: _) as rest => [a; b; c] :: chunk3 rest
  | _ => [rs]
  end.

Definition grouped (digits : str) : str :=
  rev (join (lit ",") (chunk3 (rev digits))).

(** [str(n)] *)
Definition int_str (n : Z) : str :=
  sign_str (n <? 0) ++ of_nonneg (Z.abs n).

(** [format(n, ",")] *)
Definition thousands (n : Z) : str :=
  sign_str (n <? 0) ++ grouped (of_nonneg (Z.abs n)).

End Fmt.

(** ** The rendering engine *)

Module Progress.
Import F64.

(** *** What the module imports

    [str.lower] and [repr] are Python's own; [UnicodeBlocks] and
    [GeometricSymbols] (themes.py) and [ColorTheme] (colors.py) are
    imported by [progress.py]. They are parameters of the development. *)

Record Builtins : Type := {
  lower : str -> str;
  repr : str -> str
}.

(** The glyph sequences are indexed by position; each item is a [str]. *)
Record Themes : Type := {
  VERTICAL : list str;
  CIRCLES_filled : list str;
  SQUARES : list str
}.

(** A color handler maps [(filled, empty, progress)] to a pair. *)
Definition color_fn : Type := str -> str -> num -> str * str.

Record ColorThemes : Type := {
  default : color_fn;
  green_red : color_fn;
  blue_yellow : color_fn;
  gradient : color_fn;
  rainbow : color_fn;
  monochrome : color_fn;
  terminal : color_fn
}.

(** *** Arguments of the factory *)

Inductive style_arg : Type :=
| StyleName (s : str)
| StyleList (l : list str).

Inductive color_arg : Type :=
| ColorNone
| ColorCallable (f : color_fn)
| ColorName (s : str).

Record options : Type := {
  width : Z;
  show_percentage : bool;
  show_counter : bool;
  show_eta : bool;
  show_speed : bool;
  spinner_only : bool;
  color_theme : color_arg;
  custom_chars : option (str * str)
}.

Definition defaults : options := {|
  width := 30;
  show_percentage := true;
  show_counter := false;
  show_eta := false;
  show_speed := false;
  spinner_only := false;
  color_theme := ColorNone;
  custom_chars := None
|}.

(** *** class ProgressStyle

    The keys of [ProgressStyle.__dict__] in definition order, with the
    names the class machinery adds, and the value of each constant. *)
Definition ProgressStyle : list (str * str) :=
  [ (lit "__module__", lit "progressor.progress");
    (lit "__doc__", lit "Predefined progress bar styles (expanded)");
    (lit "BLOCK", lit "block");
    (lit "CLASSIC", lit "classic");
    (lit "BRAILLE", lit "braille");
    (lit "ARROW", lit "arrow");
    (lit "EQUAL", lit "equal");
    (lit "DOT", lit "dot");
    (lit "SPIN_SIMPLE", lit "spin_simple");
    (lit "SPIN_DOTS", lit "spin_dots");
    (lit "SPIN_ARROW", lit "spin_arrow");
    (lit "VERTICAL", lit "vertical");
    (lit "CIRCLE", lit "circle");
    (lit "SQUARE", lit "square");
    (lit "GRADIENT", lit "gradient");
    (lit "HASH", lit "hash");
    (lit "STAR", lit "star");
    (lit "TRIANGLE", lit "triangle");
    (lit "BOUNCE", lit "bounce");
    (lit "__dict__", []);
    (lit "__weakref__", []) ].

(** [k.startswith('_')] *)
Definition startswith_underscore (k : str) : bool :=
  match k with
  | c :: _ => N.eqb c 95
  | [] => false
  end.

(** [[k for k in ProgressStyle.__dict__.keys() if not k.startswith('_')]] *)
Definition available : list str :=
  filter (fun k => negb (startswith_underscore k)) (map fst ProgressStyle).

(** *** Glyphs *)

Definition SP : str := lit " ".

(** [" ▏▎▍▋▊▉"] *)
Definition block_chars : str :=
  [0x20; 0x258f; 0x258e; 0x258d; 0x258b; 0x258a; 0x2589]%N.

(** [" ⡀⡄⡆⡇⡏⡟⡿⣿"] *)
Definition braille_chars : str :=
  [0x20; 0x2840; 0x2844; 0x2846; 0x2847; 0x284f; 0x285f; 0x287f; 0x28ff]%N.

Definition BLACK_SQUARE : str := [0x25a0%N].        (* ■ *)
Definition WHITE_SQUARE : str := [0x25a1%N].        (* □ *)
Definition BULLET : str := [0x2022%N].              (* • *)
Definition LIGHT_SHADE : str := [0x2591%N].         (* ░ *)
Definition MEDIUM_SHADE : str := [0x2592%N].        (* ▒ *)
Definition DARK_SHADE : str := [0x2593%N].          (* ▓ *)
Definition BLACK_STAR : str := [0x2605%N].          (* ★ *)
Definition WHITE_STAR : str := [0x2606%N].          (* ☆ *)
Definition UP_TRIANGLE : str := [0x25b2%N].         (* ▲ *)
Definition DOWN_TRIANGLE : str := [0x25bd%N].       (* ▽ *)

(** The nine frames of [bounce]: ["(→    )"], ["( →   )"], ["(  →  )"],
    ["(   → )"], ["(    →)"], ["(   ← )"], ["(  ←  )"], ["( ←   )"],
    ["(←    )"]. *)
Definition bounce_frames : list str :=
  [ [0x28; 0x2192; 0x20; 0x20; 0x20; 0x20; 0x29];
    [0x28; 0x20; 0x2192; 0x20; 0x20; 0x20; 0x29];
    [0x28; 0x20; 0x20; 0x2192; 0x20; 0x20; 0x29];
    [0x28; 0x20; 0x20; 0x20; 0x2192; 0x20; 0x29];
    [0x28; 0x20; 0x20; 0x20; 0x20; 0x2192; 0x29];
    [0x28; 0x20; 0x20; 0x20; 0x2190; 0x20; 0x29];
    [0x28; 0x20; 0x20; 0x2190; 0x20; 0x20; 0x29];
    [0x28; 0x20; 0x2190; 0x20; 0x20; 0x20; 0x29];
    [0x28; 0x2190; 0x20; 0x20; 0x20; 0x20; 0x29] ]%N.

(** [["←", "↖", "↑", "↗", "→", "↘", "↓", "↙"]] *)
Definition spin_arrow_frames : list str :=
  [ [0x2190]; [0x2196]; [0x2191]; [0x2197];
    [0x2192]; [0x2198]; [0x2193]; [0x2199] ]%N.

(** A [str] used as a sequence of frames: its one-character strings. *)
Definition frames_of (s : str) : list str := map (fun c => [c]) s.

(** [r"\|/-"] *)
Definition spin_simple_frames : list str :=
  frames_of [0x5c; 0x7c; 0x2f; 0x2d]%N.

(** ["⠋⠙⠹⠸⠼⠴⠦⠧⠇⠏"] *)
Definition spin_dots_frames : list str :=
  frames_of [0x280b; 0x2819; 0x2839; 0x2838; 0x283c;
             0x2834; 0x2826; 0x2827; 0x2807; 0x280f]%N.

(** [" │ "] *)
Definition SEPARATOR : str := [0x20; 0x2502; 0x20]%N.

(** *** Loops *)

(** [range(n)] *)
Definition range (n : Z) : list Z := map Z.of_nat (seq 0 (Z.to_nat n)).

(** [for x in xs: acc = body(x, acc)], stopping at the first exception. *)
Fixpoint for_each {A S} (xs : list A) (body : A -> S -> result S) (acc : S)
  : result S :=
  match xs with
  | [] => ok acc
  | x :: rest => acc' <- body x acc ;; for_each rest body acc'
  end.

(** *** The drawing functions

    [get_progress_drawer] selects one closure [draw_func]; a [renderer]
    names the selected closure together with what it captures. *)

Inductive renderer : Type :=
| Block | Classic | Braille | Arrow | Equal | Dot
| Vertical | Circle | Square | Gradient
| Hash | Star | Triangle
| Bounce
| SpinArrow
| Spin (frames : list str)
| Custom (filled_char empty_char : str)
| CustomList (chars : list str).

Section DrawFunc.

Variable themes : Themes.
Variable width : Z.
Variable spinner_only : bool.

(** [int(p * width)] *)
Definition filled_count (p : num) : result Z :=
  x <- mul_int p width ;; Num.to_int x.

(** classic, arrow, equal, dot, hash, star, triangle and custom *)
Definition threshold (filled_char empty_char : str) (p : num)
  : result (str * str) :=
  filled <- filled_count p ;;
  ok (PyStr.mul filled_char filled, PyStr.mul empty_char (width - filled)).

Definition block (p : num) : result (str * str) :=
  let chars := block_chars in
  x <- mul_int p (width * len chars - 1) ;;
  filled <- Num.to_int x ;;
  let full := filled / (len chars - 1) in
  let part := filled mod (len chars - 1) in
  last <- char_at chars (-1) ;;
  partial <- (if part =? 0 then ok [] else char_at chars part) ;;
  let bar := PyStr.mul last full ++ partial in
  let bar := bar ++ PyStr.mul SP (width - len bar) in
  ok (bar, PyStr.mul SP width).

Definition braille (p : num) : result (str * str) :=
  let braille := braille_chars in
  x <- mul_int p width ;;
  y <- mul_int x 4 ;;
  filled <- Num.to_int y ;;
  let full := filled / 4 in
  let part := filled mod 4 in
  seventh <- char_at braille 7 ;;
  partial <- (if part =? 0 then ok [] else char_at braille part) ;;
  let bar := PyStr.mul seventh full ++ partial in
  let bar := bar ++ PyStr.mul SP (width - len bar) in
  ok (bar, PyStr.mul SP width).

(** [min(int(p * len(chars)), len(chars)-1)] then [chars[idx]] *)
Definition glyph_by_progress (chars : list str) (p : num) : result str :=
  x <- mul_int p (len chars) ;;
  n <- Num.to_int x ;;
  index chars (Z.min n (len chars - 1)).

Definition vertical (p : num) : result (str * str) :=
  let vertical_chars := VERTICAL themes in
  filled <- filled_count p ;;
  bar <- for_each (range width)
           (fun i bar =>
              if i <? filled then
                g <- glyph_by_progress vertical_chars p ;; ok (bar ++ g)
              else ok (bar ++ SP))
           [] ;;
  ok (bar, PyStr.mul SP width).

(** circle, square and custom_list *)
Definition progressive (chars : list str) (p : num) : result (str * str) :=
  filled <- filled_count p ;;
  filled_part <- for_each (range filled)
           (fun _ filled_part =>
              g <- glyph_by_progress chars p ;; ok (filled_part ++ g))
           [] ;;
  first <- index chars 0 ;;
  ok (filled_part, PyStr.mul first (width - filled)).

Definition shade (p : num) : str :=
  if Num.ltb p (PyFloat (dec 33 100)) then LIGHT_SHADE
  else if Num.ltb p (PyFloat (dec 66 100)) then MEDIUM_SHADE
  else DARK_SHADE.

Definition gradient_bar (p : num) : result (str * str) :=
  filled <- filled_count p ;;
  bar <- for_each (range width)
           (fun i bar =>
              if i <? filled then ok (bar ++ shade p) else ok (bar ++ SP))
           [] ;;
  ok (bar, PyStr.mul SP width).

(** The closure [bounce]; [i] is its captured cursor. *)
Definition bounce (i : Z) (p : num) : result (str * str * Z) :=
  let frames := bounce_frames in
  x <- mul_int p (len frames - 1) ;;
  frame_idx <- Num.to_int x ;;
  s <- index frames frame_idx ;;
  let i := (i + 1) mod len frames in
  ok (s, [], i).

(** The closure [spin]; the progress argument is not used. *)
Definition spin (frames : list str) (i : Z) (_ : num)
  : result (str * str * Z) :=
  s <- index frames (i mod len frames) ;;
  let i := (i + 1) mod len frames in
  ok (if spinner_only then PyStr.mul s (width / 3) else s, [], i).

Definition stateless (r : result (str * str)) (i : Z)
  : result (str * str * Z) :=
  '(a, b) <- r ;; ok (a, b, i).

(** One call of the selected closure: the two segments and the cursor
    after the call. *)
Definition draw_func (r : renderer) (i : Z) (p : num)
  : result (str * str * Z) :=
  match r with
  | Block => stateless (block p) i
  | Classic => stateless (threshold BLACK_SQUARE WHITE_SQUARE p) i
  | Braille => stateless (braille p) i
  | Arrow => stateless (threshold (lit ">") (lit "-") p) i
  | Equal => stateless (threshold (lit "=") (lit "-") p) i
  | Dot => stateless (threshold BULLET (lit ".") p) i
  | Vertical => stateless (vertical p) i
  | Circle => stateless (progressive (CIRCLES_filled themes) p) i
  | Square => stateless (progressive (SQUARES themes) p) i
  | Gradient => stateless (gradient_bar p) i
  | Hash => stateless (threshold (lit "#") (lit ".") p) i
  | Star => stateless (threshold BLACK_STAR WHITE_STAR p) i
  | Triangle => stateless (threshold UP_TRIANGLE DOWN_TRIANGLE p) i
  | Bounce => bounce i p
  | SpinArrow => spin spin_arrow_frames i p
  | Spin frames => spin frames i p
  | Custom filled_char empty_char =>
      stateless (threshold filled_char empty_char p) i
  | CustomList chars => stateless (progressive chars p) i
  end.

End DrawFunc.

(** *** get_progress_drawer *)

(** What the closure [draw] captures and never changes. *)
Record drawer : Type := {
  d_renderer : renderer;
  d_options : options;
  d_color_handler : color_fn
}.

(** The [nonlocal] variables: the frame cursor of an animated style and
    the speed tracker. *)
Record dstate : Type := {
  cursor : Z;
  last_update : float;
  last_value : Z
}.

Section Factory.

Variable py : Builtins.
Variable themes : Themes.
Variable ColorTheme : ColorThemes.

Definition repr_style (style : style_arg) : str :=
  match style with
  | StyleName s => repr py s
  | StyleList l => lit "[" ++ join (lit ", ") (map (repr py) l) ++ lit "]"
  end.

Definition unknown_style_message (style : style_arg) : str :=
  lit "Unknown style: " ++ repr_style style ++ lit ". Available: "
    ++ join (lit ", ") available.

(** Lines 71-89: the style name and what the custom inputs provide. *)
Definition resolve_name (style : style_arg) (custom_chars : option (str * str))
  : result (str * str * str * list str) :=
  match custom_chars with
  | Some (filled_char, empty_char) =>
      ok (lit "custom", filled_char, empty_char, [])
  | None =>
      match style with
      | StyleList chars =>
          if len chars <? 1 then
            raise (ValueError
                     (lit "Character list must have at least one character"))
          else ok (lit "custom_list", [], [], chars)
      | StyleName s => ok (lower py s, [], [], [])
      end
  end.

(** Lines 91-269: the cascade over [style_name]. *)
Definition select (style : style_arg) (style_name filled_char empty_char : str)
           (chars : list str) : result renderer :=
  let named := PyStr.eqb style_name in
  if named (lit "block") then ok Block
  else if named (lit "classic") then ok Classic
  else if named (lit "braille") then ok Braille
  else if named (lit "arrow") then ok Arrow
  else if named (lit "equal") then ok Equal
  else if named (lit "dot") then ok Dot
  else if named (lit "vertical") then ok Vertical
  else if named (lit "circle") then ok Circle
  else if named (lit "square") then ok Square
  else if named (lit "gradient") then ok Gradient
  else if named (lit "hash") then ok Hash
  else if named (lit "star") then ok Star
  else if named (lit "triangle") then ok Triangle
  else if named (lit "bounce") then ok Bounce
  else if named (lit "spin_arrow") then ok SpinArrow
  else if named (lit "spin_simple") || named (lit "spin_dots") then
    if named (lit "spin_simple") then ok (Spin spin_simple_frames)
    else ok (Spin spin_dots_frames)
  else if named (lit "custom") then ok (Custom filled_char empty_char)
  else if named (lit "custom_list") then
    if len chars =? 0 then
      raise (ValueError (lit "Character list cannot be empty"))
    else ok (CustomList chars)
  else raise (ValueError (unknown_style_message style)).

(** Lines 271-289 *)
Definition select_color (color_theme : color_arg) : color_fn :=
  match color_theme with
  | ColorNone => default ColorTheme
  | ColorCallable f => f
  | ColorName s =>
      if PyStr.eqb s (lit "green_red") then green_red ColorTheme
      else if PyStr.eqb s (lit "blue_yellow") then blue_yellow ColorTheme
      else if PyStr.eqb s (lit "gradient") then gradient ColorTheme
      else if PyStr.eqb s (lit "rainbow") then rainbow ColorTheme
      else if PyStr.eqb s (lit "monochrome") then monochrome ColorTheme
      else if PyStr.eqb s (lit "terminal") then terminal ColorTheme
      else default ColorTheme
  end.

(** The factory: [start_time] is the reading of [time.time()]. *)
Definition get_progress_drawer (style : style_arg) (o : options)
           (start_time : float) : result (drawer * dstate) :=
  '(style_name, filled_char, empty_char, chars) <-
     resolve_name style (custom_chars o) ;;
  r <- select style style_name filled_char empty_char chars ;;
  ok ({| d_renderer := r;
         d_options := o;
         d_color_handler := select_color (color_theme o) |},
      {| cursor := 0; last_update := start_time; last_value := 0 |}).

(** *** draw *)

(** Lines 309-310 *)
Definition clamp (progress : float) : num :=
  let p := PyFloat progress in
  if Num.leb (PyInt 0) p && Num.leb p (PyInt 1) then p
  else Num.max (PyInt 0) (Num.min (PyInt 1) p).

(** [a / b] on floats: a zero divisor raises. *)
Definition truediv (a b : float) : result float :=
  match b with
  | S754_zero _ => raise ZeroDivisionError
  | _ => ok (div a b)
  end.

(** Lines 312-319: the computed speed and the tracker after it. *)
Definition compute_speed (show_speed : bool) (st : dstate) (now : float)
           (current : option Z) (speed : option float)
  : result (option float * dstate) :=
  match show_speed, speed, current with
  | true, None, Some current =>
      if Num.gtb (PyFloat now) (PyFloat (last_update st)) then
        delta <- of_int (current - last_value st) ;;
        computed_speed <- truediv delta (sub now (last_update st)) ;;
        ok (Some computed_speed,
            {| cursor := cursor st;
               last_update := now;
               last_value := current |})
      else ok (None, st)
  | _, _, _ => ok (None, st)
  end.

Definition float_lt_int (f : float) (n : Z) : bool :=
  Num.ltb (PyFloat f) (PyInt n).

(** Lines 339-345 *)
Definition eta_part (show_eta : bool) (eta : option float)
  : result (list str) :=
  match show_eta, eta with
  | true, Some eta =>
      if Num.gtb (PyFloat eta) (PyInt 0) then
        if float_lt_int eta 60 then
          ok [lit "ETA " ++ Fmt.f1 eta ++ lit "s"]
        else if float_lt_int eta 3600 then
          m <- truediv eta (small 60) ;;
          ok [lit "ETA " ++ Fmt.f1 m ++ lit "m"]
        else
          h <- truediv eta (small 3600) ;;
          ok [lit "ETA " ++ Fmt.f1 h ++ lit "h"]
      else ok []
  | _, _ => ok []
  end.

(** Lines 347-355 *)
Definition speed_part (show_speed : bool) (speed computed_speed : option float)
  : result (list str) :=
  if show_speed then
    let speed_to_show :=
      match speed with Some s => Some s | None => computed_speed end in
    match speed_to_show with
    | Some v =>
        if float_lt_int v 1000 then ok [Fmt.f1 v ++ lit "/s"]
        else if float_lt_int v 1000000 then
          k <- truediv v (small 1000) ;;
          ok [Fmt.f1 k ++ lit "K/s"]
        else
          m <- truediv v (small 1000000) ;;
          ok [Fmt.f1 m ++ lit "M/s"]
    | None => ok []
    end
  else ok [].

Definition percentage_part (show : bool) (progress : num)
  : result (list str) :=
  if show then s <- Fmt.percent progress ;; ok [s] else ok [].

Definition counter_part (show : bool) (current : option Z) : list str :=
  match show, current with
  | true, Some current => [Fmt.thousands current]
  | _, _ => []
  end.

(** Line 357 *)
Definition extra (parts : list str) : str :=
  match parts with
  | [] => []
  | _ => SEPARATOR ++ join (lit "  ") parts
  end.

(** One call of [draw]: the state after it and the strings passed to
    [sys.stdout.write], in order. [now] is what [time.time()] returns
    if the call reads the clock. *)
Definition draw (d : drawer) (st : dstate) (now : float)
           (progress : float) (current : option Z)
           (eta speed : option float) : result (dstate * list str) :=
  let o := d_options d in
  let progress := clamp progress in
  '(computed_speed, st) <-
     compute_speed (show_speed o) st now current speed ;;
  '(filled_part, empty_part, i) <-
     draw_func themes (width o) (spinner_only o) (d_renderer d)
               (cursor st) progress ;;
  let st := {| cursor := i;
               last_update := last_update st;
               last_value := last_value st |} in
  (* [if color_handler:] holds: a function is true *)
  let '(filled_part, empty_part) :=
    d_color_handler d filled_part empty_part progress in
  let bar := filled_part ++ empty_part in
  pct <- percentage_part (show_percentage o) progress ;;
  let cnt := counter_part (show_counter o) current in
  etas <- eta_part (show_eta o) eta ;;
  spd <- speed_part (show_speed o) speed computed_speed ;;
  let parts := pct ++ cnt ++ etas ++ spd in
  let line := [CR] ++ bar ++ extra parts in
  if Num.geb progress (PyInt 1) then ok (st, [line; [NL]])
  else ok (st, [line]).

End Factory.

(** *** class MultiProgress *)

Record multi : Type := {
  count : Z;
  drawers : list (drawer * dstate);
  lines_written : Z
}.

(** [xs[i] = a] for an index in range *)
Fixpoint set_nth {A} (xs : list A) (i : nat) (a : A) : list A :=
  match xs, i with
  | [], _ => []
  | _ :: rest, O => a :: rest
  | x :: rest, S j => x :: set_nth rest j a
  end.

Section Multi.

Variable py : Builtins.
Variable themes : Themes.
Variable ColorTheme : ColorThemes.

(** [__init__]: [clock k] is the reading of [time.time()] when the
    [k]-th drawer is made. *)
Definition init (n : Z) (style : style_arg) (w : Z) (clock : Z -> float)
  : result multi :=
  let o := {| width := w;
              show_percentage := false;
              show_counter := show_counter defaults;
              show_eta := show_eta defaults;
              show_speed := show_speed defaults;
              spinner_only := spinner_only defaults;
              color_theme := color_theme defaults;
              custom_chars := custom_chars defaults |} in
  ds <- for_each (range n)
          (fun k acc =>
             d <- get_progress_drawer py ColorTheme style o (clock k) ;;
             ok (acc ++ [d]))
          [] ;;
  ok {| count := n; drawers := ds; lines_written := 0 |}.

Definition out_of_range_message (index n : Z) : str :=
  lit "Index " ++ Fmt.int_str index ++ lit " out of range (0-"
    ++ Fmt.int_str (n - 1) ++ lit ")".

(** ["\033[{n}A"] *)
Definition cursor_up (n : Z) : str :=
  [27%N] ++ lit "[" ++ Fmt.int_str n ++ lit "A".

Definition prefix_of (label : str) (i : Z) : str :=
  match label with
  | [] => lit "Bar " ++ Fmt.int_str (i + 1) ++ lit ": "
  | _ => label ++ lit ": "
  end.

(** [update]: the object after the call and the strings written. *)
Definition update (m : multi) (now : float) (index : Z) (progress : float)
           (label : str) : result (multi * list str) :=
  if (index <? 0) || (count m <=? index) then
    raise (IndexError (out_of_range_message index (count m)))
  else
    let up :=
      if lines_written m =? 0 then []
      else [cursor_up (lines_written m)] in
    '(ds, out) <-
      for_each (range (count m))
        (fun i '(ds, out) =>
           if i =? index then
             '(d, st) <- PyStr.index ds i ;;
             '(st', written) <-
                draw themes d st now progress None None None ;;
             ok (set_nth ds (Z.to_nat i) (d, st'),
                 out ++ [prefix_of label i] ++ written ++ [[NL]])
           else ok (ds, out ++ [[NL]]))
        (drawers m, up) ;;
    ok ({| count := count m; drawers := ds; lines_written := count m |},
        out).

(** [complete] *)
Definition complete (m : multi) : list str :=
  [PyStr.mul [NL] (lines_written m)].

End Multi.

(** The text on the terminal after a sequence of writes. *)
Definition written (out : list str) : str := concat out.

(** The number of line terminators in what was written. *)
Definition lines_of (out : list str) : Z := PyStr.count NL (written out).

End Progress.

(** ** The value of a float

    What the theorems below say about [F64.mul], [F64.sub] and the
    conversions is stated on exact integers: a finite float is counted in
    units of [2^-1074], the smallest positive binary64 number. *)

Module F64Spec.
Import F64.

(** Nearest integer of [X / 2^n], ties to even. *)
Definition rne : Z -> Z -> Z := Fmt.round_half_even_shift.

(** The location of the remainder [r] of a division by [2^n]. *)
Definition loc_of_rem (r n : Z) : location :=
  if r =? 0 then loc_Exact else loc_Inexact (2 * r ?= 2 ^ n).

(** [mrs] is [M] shifted right by [n] bits, with its round and sticky
    bits. *)
Definition shifted (M n : Z) (mrs : shr_record) : Prop :=
  shr_m mrs = M / 2 ^ n /\
  loc_of_shr_record mrs = loc_of_rem (M mod 2 ^ n) n.

(** [fexp] of binary64 *)
Definition fexp64 (e : Z) : Z := Z.max (e - 53) (-1074).

(** The float of a mantissa and an exponent, behind the overflow test of
    [binary_round_aux]. *)
Definition pack (s : bool) (m e : Z) : float :=
  match m with
  | Z0 => S754_zero s
  | Zpos p =>
      if e <=? emax - prec then S754_finite s p e else S754_infinity s
  | Zneg _ => S754_nan
  end.

(** The value of a non-negative finite float in units of [2^-1074]. *)
Definition units (f : float) : option Z :=
  match f with
  | S754_zero _ => Some 0
  | S754_finite false m e =>
      if -1074 <=? e then Some (Zpos m * 2 ^ (e + 1074)) else None
  | _ => None
  end.

(** Rounding to nearest even of a non-negative [X] counted in units of
    [2^-K]; the result is in units of [2^-1074]. *)
Definition rnd (K X : Z) : Z :=
  let t := Z.max (Zdigits2 X - 53) (K - 1074) in
  rne X t * 2 ^ (t - (K - 1074)).

(** The signed value of a finite float in units of [2^-1074]. *)
Definition sval (f : float) : Z :=
  match f with
  | S754_finite s m e => cond_Zopp s (Zpos m * 2 ^ (e + 1074))
  | _ => 0
  end.

Definition finite (f : float) : bool :=
  match f with
  | S754_zero _ | S754_finite _ _ _ => true
  | _ => false
  end.

Definition nonzero (f : float) : Prop :=
  match f with S754_zero _ => False | _ => True end.

End F64Spec.

(** ** Vocabulary of the properties *)

Module ProgressSpec.
Import F64 F64Spec Progress.

(** [u] is the value of the number [x] in units of [2^-1074]. *)
Definition num_units (x : num) (u : Z) : Prop :=
  match x with
  | PyInt z => u = z * 2 ^ 1074
  | PyFloat f => units f = Some u
  end.

(** A float of the interval [[0, 1]]. *)
Definition in_unit (f : float) : Prop :=
  valid f = true /\
  Num.leb (PyInt 0) (PyFloat f) = true /\
  Num.leb (PyFloat f) (PyInt 1) = true.

(** The progress values [draw] passes on: a float of [[0, 1]], or the
    [int] 0 or 1 that clamping returns. *)
Inductive progress_ok : num -> Prop :=
| progress_int0 : progress_ok (PyInt 0)
| progress_int1 : progress_ok (PyInt 1)
| progress_float f : in_unit f -> progress_ok (PyFloat f).

(** The value of a progress in units of [2^-1074]. *)
Definition progress_units (p : num) : Z :=
  match p with
  | PyInt z => z * 2 ^ 1074
  | PyFloat f => match units f with Some u => u | None => 0 end
  end.

(** [int(p * n)] for a value of [u] units: the product is rounded to the
    nearest float, then truncated. *)
Definition scale (u n : Z) : Z := rnd 2148 (u * (n * 2 ^ 1074)) / 2 ^ 1074.

Definition filled_of (p : num) (n : Z) : Z := scale (progress_units p) n.

Definition width_ok (w : Z) : Prop := 0 < w < 2 ^ 50.

Definition glyphs_ok (chars : list str) : Prop := 0 < len chars < 2 ^ 53.

Definition themes_ok (th : Themes) : Prop :=
  glyphs_ok (VERTICAL th) /\ glyphs_ok (CIRCLES_filled th) /\
  glyphs_ok (SQUARES th).

(** What a drawing function needs of what it captures. *)
Definition renderer_ok (th : Themes) (r : renderer) : Prop :=
  match r with
  | Vertical => glyphs_ok (VERTICAL th)
  | Circle => glyphs_ok (CIRCLES_filled th)
  | Square => glyphs_ok (SQUARES th)
  | Spin frames => 0 < len frames
  | CustomList chars => glyphs_ok chars
  | _ => True
  end.

(** [int(p * width * 4)] of braille: two rounded products. *)
Definition braille_count (p : num) (w : Z) : Z :=
  scale (rnd 2148 (progress_units p * (w * 2 ^ 1074))) 4.

(** The cell [i] of a bar of [k] filled cells. *)
Definition cell (g : str) (k i : Z) : str := if i <? k then g else SP.

Definition cells (g : str) (k w : Z) : str :=
  concat (map (cell g k) (range w)).

(** A glyph list given as [style] has a length a float holds exactly. *)
Definition style_ok (style : style_arg) : Prop :=
  match style with
  | StyleList l => len l < 2 ^ 53
  | StyleName _ => True
  end.

(** What the speed computation needs of the clock readings and the
    counts: floats of binary64, and a difference of counts that converts
    to a float. *)
Definition tracker_ok (st : dstate) (now : float) (current : option Z) : Prop :=
  valid now = true /\ valid (last_update st) = true /\
  forall c, current = Some c -> of_Z (c - last_value st) <> None.

(** [floor(n * p)] for a non-negative finite float [p], exactly. *)
Definition floor_mul (p : float) (n : Z) : Z :=
  match units p with
  | Some u => (n * u) / 2 ^ 1074
  | None => 0
  end.

(** *** The style classes of the specification *)

(** Threshold-fill: the filled and the empty glyph. *)
Definition threshold_glyphs (r : renderer) : option (str * str) :=
  match r with
  | Classic => Some (BLACK_SQUARE, WHITE_SQUARE)
  | Arrow => Some (lit ">", lit "-")
  | Equal => Some (lit "=", lit "-")
  | Dot => Some (BULLET, lit ".")
  | Hash => Some (lit "#", lit ".")
  | Star => Some (BLACK_STAR, WHITE_STAR)
  | Triangle => Some (UP_TRIANGLE, DOWN_TRIANGLE)
  | Custom filled_char empty_char => Some (filled_char, empty_char)
  | _ => None
  end.

Definition animated (r : renderer) : bool :=
  match r with
  | Bounce | SpinArrow | Spin _ => true
  | _ => false
  end.

Definition first_of (chars : list str) : str := nth 0 chars [].

Definition last_of (chars : list str) : str :=
  nth (Z.to_nat (len chars - 1)) chars [].

(** The glyph a style repeats in a full bar. *)
Definition full_glyph (th : Themes) (r : renderer) : str :=
  match r with
  | Block => [0x2589%N]
  | Braille => [0x287f%N]
  | Vertical => last_of (VERTICAL th)
  | Circle => last_of (CIRCLES_filled th)
  | Square => last_of (SQUARES th)
  | Gradient => DARK_SHADE
  | CustomList chars => last_of chars
  | _ => match threshold_glyphs r with Some (f, _) => f | None => [] end
  end.

(** The glyph a style repeats in an empty bar. *)
Definition empty_glyph (th : Themes) (r : renderer) : str :=
  match r with
  | Block | Braille | Vertical | Gradient => SP
  | Circle => first_of (CIRCLES_filled th)
  | Square => first_of (SQUARES th)
  | CustomList chars => first_of chars
  | _ => match threshold_glyphs r with Some (_, e) => e | None => [] end
  end.

(** The styles whose empty segment is [width] spaces at every progress;
    their filled segment is itself [width] long. *)
Definition padded (r : renderer) : bool :=
  match r with
  | Block | Braille | Vertical | Gradient => true
  | _ => false
  end.

(** Progress 0, as [draw] can pass it. *)
Definition zero_progress (p : num) : Prop :=
  p = PyInt 0 \/ exists s, p = PyFloat (S754_zero s).

(** Progress 1, as [draw] can pass it. *)
Definition one_progress (p : num) : Prop :=
  p = PyInt 1 \/ p = PyFloat (small 1).

(** Section 4.1 of the specification, sub-glyph interpolation, in its own
    words: [totalUnits = floor(progress * width * (k-1))],
    [fullGlyphs = totalUnits div (k-1)], [remainder = totalUnits mod (k-1)],
    the full glyph [ramp[k-1]] repeated, then [ramp[remainder]] if the
    remainder is positive, then spaces up to [width]. *)
Definition sub_glyph_spec (ramp : str) (width : Z) (progress : num)
  : result (str * str) :=
  let k := len ramp in
  x <- mul_int progress width ;;
  y <- mul_int x (k - 1) ;;
  totalUnits <- Num.to_int y ;;
  let fullGlyphs := totalUnits / (k - 1) in
  let remainder := totalUnits mod (k - 1) in
  full <- char_at ramp (k - 1) ;;
  partial <- (if 0 <? remainder then char_at ramp remainder else ok []) ;;
  let bar := PyStr.mul full fullGlyphs ++ partial in
  ok (bar ++ PyStr.mul SP (width - len bar), PyStr.mul SP width).

(** The frames of a style that cycles through them. *)
Definition cycling_frames (r : renderer) : option (list str) :=
  match r with
  | SpinArrow => Some spin_arrow_frames
  | Spin frames => Some frames
  | _ => None
  end.

(** The style names the factory tells apart. *)
Definition known_names : list str :=
  map lit
      [ "block"; "classic"; "braille"; "arrow"; "equal"; "dot"; "vertical";
        "circle"; "square"; "gradient"; "hash"; "star"; "triangle";
        "bounce"; "spin_arrow"; "spin_simple"; "spin_dots"; "custom";
        "custom_list" ]%string.

(** The speed part of the suffix for a speed [v]. *)
Definition speed_text (v : float) : str :=
  if Num.ltb (PyFloat v) (PyInt 1000) then Fmt.f1 v ++ lit "/s"
  else if Num.ltb (PyFloat v) (PyInt 1000000) then
    Fmt.f1 (div v (small 1000)) ++ lit "K/s"
  else Fmt.f1 (div v (small 1000000)) ++ lit "M/s".

(** A drawer as [MultiProgress] makes them: no part of the suffix is
    shown. *)
Definition plain_drawer (th : Themes) (d : drawer) : Prop :=
  renderer_ok th (d_renderer d) /\ width_ok (width (d_options d)) /\
  show_percentage (d_options d) = false /\
  show_counter (d_options d) = false /\
  show_eta (d_options d) = false /\
  show_speed (d_options d) = false.

(** The invariant of a [MultiProgress] object: one plain drawer per row. *)
Definition multi_ok (th : Themes) (m : multi) : Prop :=
  len (drawers m) = Z.max 0 (count m) /\
  Forall (fun ds => plain_drawer th (fst ds)) (drawers m).

(** The bar [draw] writes: the two segments after the color handler. *)
Definition colored_bar (d : drawer) (filled_part empty_part : str)
           (progress : num) : str :=
  let '(a, b) := d_color_handler d filled_part empty_part progress in a ++ b.

(** One turn of the loop of [update], on the drawers and what was written
    so far. *)
Definition row (th : Themes) (now progress : float) (label : str)
           (index : Z) (i : Z) (acc : list (drawer * dstate) * list str)
  : result (list (drawer * dstate) * list str) :=
  let '(ds, out) := acc in
  if i =? index then
    '(d, st) <- PyStr.index ds i ;;
    '(st', written) <- draw th d st now progress None None None ;;
    ok (set_nth ds (Z.to_nat i) (d, st'),
        out ++ [prefix_of label i] ++ written ++ [[NL]])
  else ok (ds, out ++ [[NL]]).

(** *** Instances for the examples

    The glyph sequences shown in the comments of [class ProgressStyle],
    the lower-casing of ASCII letters, the [repr] of a string of printable
    ASCII characters without quotes, and color handlers that change
    nothing. *)

Definition sample_themes : Themes := {|
  VERTICAL := frames_of [0x2581; 0x2582; 0x2583; 0x2584;
                         0x2585; 0x2586; 0x2587; 0x2588]%N;
  CIRCLES_filled := frames_of [0x25cb; 0x25d4; 0x25d1; 0x25d5; 0x25cf]%N;
  SQUARES := frames_of [0x25a1; 0x25f1; 0x25f2; 0x25a0]%N
|}.

Definition ascii_lower (s : str) : str :=
  map (fun c => if (65 <=? c) && (c <=? 90) then c + 32 else c)%N s.

Definition sample_py : Builtins := {|
  lower := ascii_lower;
  repr := fun s => lit "'" ++ s ++ lit "'"
|}.

Definition no_color : color_fn := fun filled empty _ => (filled, empty).

Definition sample_colors : ColorThemes := {|
  default := no_color;
  green_red := no_color;
  blue_yellow := no_color;
  gradient := no_color;
  rainbow := no_color;
  monochrome := no_color;
  terminal := no_color
|}.

(** Custom characters [("@", ".")] on a bar of width 10. *)
Definition at_dot : options := {|
  width := 10;
  show_percentage := false;
  show_counter := false;
  show_eta := false;
  show_speed := false;
  spinner_only := false;
  color_theme := ColorNone;
  custom_chars := Some (lit "@", lit ".")
|}.

(** The tracker holding a time and a count. *)
Definition tracker (i : Z) (t : float) (n : Z) : dstate :=
  {| cursor := i; last_update := t; last_value := n |}.

(** Only the speed is shown, on an arrow bar of width 4. *)
Definition speed_only : options := {|
  width := 4;
  show_percentage := false;
  show_counter := false;
  show_eta := false;
  show_speed := true;
  spinner_only := false;
  color_theme := ColorNone;
  custom_chars := None
|}.

(** [draw(0.5, current=100)] at time 0, then [draw(0.5, current=150)] at
    time 1, on a drawer made at time [start]: what the second call
    writes. *)
Definition two_draws (start : float) : result (list str) :=
  '(d, st) <- get_progress_drawer sample_py sample_colors
                (StyleName (lit "arrow")) speed_only start ;;
  '(st, _) <- draw sample_themes d st (small 0) (dec 1 2) (Some 100)
                   None None ;;
  '(_, out) <- draw sample_themes d st (small 1) (dec 1 2) (Some 150)
                    None None ;;
  ok out.

(** [MultiProgress(3, "block", 30)], made at time 0. *)
Definition three_bars : result multi :=
  init sample_py sample_colors 3 (StyleName (lit "block")) 30
       (fun _ => small 0).

(** [update(index, progress)] on a fresh [three_bars]: the number of line
    terminators written and [lines_written] after the call. *)
Definition lines_after_update (index : Z) (progress : float)
  : result (Z * Z) :=
  m <- three_bars ;;
  '(m', out) <- update sample_themes m (small 0) index progress [] ;;
  ok (lines_of out, lines_written m').

End ProgressSpec.

(** ** Vocabulary of the properties of whole bars and of runs of calls *)

Module ProgressRuns.
Import F64 F64Spec Progress ProgressSpec.

(** [min(int(p * len(chars)), len(chars)-1)], the glyph index of the
    vertical, circle, square and custom-list styles. *)
Definition glyph_index (chars : list str) (p : num) : result Z :=
  x <- mul_int p (len chars) ;;
  n <- Num.to_int x ;;
  ok (Z.min n (len chars - 1)).

(** Successive calls of the selected closure [draw_func], the first with
    cursor [i]: the filled segments returned, in order, and the cursor
    after the last call. *)
Fixpoint frames_shown (th : Themes) (w : Z) (so : bool) (r : renderer)
         (i : Z) (ps : list num) : result (list str * Z) :=
  match ps with
  | [] => ok ([], i)
  | p :: rest =>
      '(s, _, i') <- draw_func th w so r i p ;;
      '(l, j) <- frames_shown th w so r i' rest ;;
      ok (s :: l, j)
  end.

(** The state of a drawer after a call that left the cursor at [i']. *)
Definition advanced (st : dstate) (i' : Z) : dstate :=
  {| cursor := i'; last_update := last_update st;
     last_value := last_value st |}.

(** The options [MultiProgress.__init__] passes to the factory:
    [get_progress_drawer(style, width, show_percentage=False)]. *)
Definition row_options (w : Z) : options :=
  {| width := w;
     show_percentage := false;
     show_counter := show_counter defaults;
     show_eta := show_eta defaults;
     show_speed := show_speed defaults;
     spinner_only := spinner_only defaults;
     color_theme := color_theme defaults;
     custom_chars := custom_chars defaults |}.

Definition COMMA : char := 44%N.

(** [s.replace(",", "")] *)
Definition ungroup (s : str) : str :=
  filter (fun c => negb (N.eqb c COMMA)) s.

(** A string without a comma. *)
Definition plain (s : str) : Prop := Forall (fun c => c <> COMMA) s.

(** The percentage text of [t] tenths of a percent is five characters
    wide, or is ["100.0%"]. *)
Definition percent_fits (t : Z) : bool :=
  let s := Fmt.rjust 5 (Fmt.fixed1 t ++ lit "%") in
  (len s =? 5) || PyStr.eqb s (lit "100.0%").

(** The color theme names the factory tells apart. *)
Definition color_names : list str :=
  map lit [ "green_red"; "blue_yellow"; "gradient"; "rainbow";
            "monochrome"; "terminal" ]%string.

(** The same options with another [color_theme]. *)
Definition with_color (o : options) (c : color_arg) : options :=
  {| width := width o;
     show_percentage := show_percentage o;
     show_counter := show_counter o;
     show_eta := show_eta o;
     show_speed := show_speed o;
     spinner_only := spinner_only o;
     color_theme := c;
     custom_chars := custom_chars o |}.

(** *** Instances for the examples *)

(** A classic bar of width 4 showing the percentage and the counter. *)
Definition classic_counter : drawer :=
  {| d_renderer := Classic;
     d_options := {| width := 4; show_percentage := true;
                     show_counter := true; show_eta := false;
                     show_speed := false; spinner_only := false;
                     color_theme := ColorNone;
                     custom_chars := None |};
     d_color_handler := no_color |}.

(** The drawer of [get_progress_drawer("arrow", 4, show_percentage=False,
    show_speed=True)]. *)
Definition speed_drawer : drawer :=
  {| d_renderer := Arrow; d_options := speed_only;
     d_color_handler := no_color |}.

(** Only the ETA is shown, on an arrow bar of width 4. *)
Definition eta_only : options := {|
  width := 4;
  show_percentage := false;
  show_counter := false;
  show_eta := true;
  show_speed := false;
  spinner_only := false;
  color_theme := ColorNone;
  custom_chars := None
|}.

(** The drawer of [get_progress_drawer("arrow", 4, show_percentage=False,
    show_eta=True)]. *)
Definition eta_drawer : drawer :=
  {| d_renderer := Arrow; d_options := eta_only;
     d_color_handler := no_color |}.

(** A row of [MultiProgress(3, "block", 30)]. *)
Definition block_row : drawer :=
  {| d_renderer := Block; d_options := row_options 30;
     d_color_handler := no_color |}.

(** The object [three_bars] builds. *)
Definition three_rows : multi :=
  {| count := 3;
     drawers := map (fun k => (block_row, tracker 0 (small 0) 0)) (range 3);
     lines_written := 0 |}.

End ProgressRuns.
(** * Properties *)

(** ** binary64 arithmetic *)

Module F64Facts.
Import Exn PyStr F64 Num Fmt F64Spec.

Lemma digits2_bounds (p : positive) :
2 ^ (Zpos (digits2_pos p) - 1) <= Zpos p < 2 ^ Zpos (digits2_pos p).
Proof.
induction p as [p IH | p IH |]; cbn [digits2_pos].
- rewrite Pos2Z.inj_succ.
  replace (Z.succ (Zpos (digits2_pos p)) - 1) with (Z.succ (Zpos (digits2_pos p) - 1)) by lia.
  rewrite !Z.pow_succ_r by lia. lia.
- rewrite Pos2Z.inj_succ.
  replace (Z.succ (Zpos (digits2_pos p)) - 1) with (Z.succ (Zpos (digits2_pos p) - 1)) by lia.
  rewrite !Z.pow_succ_r by lia. lia.
- cbn. lia.
Qed.

Lemma shr_1_div2 m r s : 0 <= m ->
shr_1 (Build_shr_record m r s) = Build_shr_record (m / 2) (Z.odd m) (r || s).
Proof.
intros Hm. destruct m as [| p | p]; [reflexivity | | lia].
destruct p as [p | p |]; cbn [shr_1].
- f_equal. rewrite Pos2Z.inj_xI. apply Z.div_unique with 1; lia.
- f_equal. rewrite Pos2Z.inj_xO. apply Z.div_unique with 0; lia.
- reflexivity.
Qed.

Lemma shifted_step M n mrs : 0 <= M -> 0 <= n ->
shifted M n mrs -> shifted M (n + 1) (shr_1 mrs).
Proof.
intros HM Hn [Hm Hl]. destruct mrs as [m r s]. cbn [shr_m] in Hm.
assert (Hp : 0 < 2 ^ n) by (apply Z.pow_pos_nonneg; lia).
assert (Hm0 : 0 <= m) by (subst m; apply Z.div_pos; lia).
rewrite shr_1_div2 by assumption.
assert (Hpow : 2 ^ (n + 1) = 2 * 2 ^ n) by (rewrite Z.pow_add_r; lia).
assert (Hdiv : M / 2 ^ (n + 1) = m / 2).
{ rewrite Hpow, Z.mul_comm, <- Z.div_div by lia. now subst m. }
assert (Hmod : M mod 2 ^ (n + 1) = M mod 2 ^ n + 2 ^ n * (m mod 2)).
{ rewrite Hpow, Z.mul_comm, Z.rem_mul_r by lia. subst m. lia. }
split; [cbn [shr_m]; now rewrite Hdiv |].
rewrite Hmod. pose proof (Z.mod_pos_bound M (2 ^ n) Hp) as Hr.
rewrite Zmod_odd. unfold loc_of_rem in *.
destruct (Z.odd m); destruct (M mod 2 ^ n =? 0) eqn:Hz;
  [apply Z.eqb_eq in Hz | apply Z.eqb_neq in Hz | apply Z.eqb_eq in Hz | apply Z.eqb_neq in Hz].
- rewrite Hz in *. destruct r, s; try discriminate. cbn [orb loc_of_shr_record].
  replace (0 + 2 ^ n * 1 =? 0) with false by (symmetry; apply Z.eqb_neq; lia).
  rewrite Hpow. replace (2 * (0 + 2 ^ n * 1) ?= 2 * 2 ^ n) with Eq; [reflexivity|].
  symmetry. apply Z.compare_eq_iff. lia.
- replace (r || s) with true by (destruct r, s; try reflexivity; discriminate).
  cbn [loc_of_shr_record].
  replace (M mod 2 ^ n + 2 ^ n * 1 =? 0) with false by (symmetry; apply Z.eqb_neq; lia).
  rewrite Hpow. replace (2 * (M mod 2 ^ n + 2 ^ n * 1) ?= 2 * 2 ^ n) with Gt; [reflexivity|].
  symmetry. apply Z.compare_gt_iff. lia.
- rewrite Hz in *. destruct r, s; try discriminate. cbn [orb loc_of_shr_record].
  replace (0 + 2 ^ n * 0 =? 0) with true by (symmetry; apply Z.eqb_eq; lia). reflexivity.
- replace (r || s) with true by (destruct r, s; try reflexivity; discriminate).
  cbn [loc_of_shr_record].
  replace (M mod 2 ^ n + 2 ^ n * 0 =? 0) with false by (symmetry; apply Z.eqb_neq; lia).
  rewrite Hpow. replace (2 * (M mod 2 ^ n + 2 ^ n * 0) ?= 2 * 2 ^ n) with Lt; [reflexivity|].
  symmetry. apply Z.compare_lt_iff. lia.
Qed.

Lemma shifted_iter M (p : positive) : 0 <= M ->
forall n mrs, 0 <= n -> shifted M n mrs ->
shifted M (n + Zpos p) (iter_pos shr_1 p mrs).
Proof.
intros HM. induction p as [p IH | p IH |]; intros n mrs Hn H; cbn [iter_pos].
- replace (n + Zpos p~1) with (n + 1 + Zpos p + Zpos p) by lia.
  apply IH; [lia|]. apply IH; [lia|]. now apply shifted_step.
- replace (n + Zpos p~0) with (n + Zpos p + Zpos p) by lia.
  apply IH; [lia|]. now apply IH.
- now apply shifted_step.
Qed.

Lemma shifted_0 M : shifted M 0 (Build_shr_record M false false).
Proof.
split; cbn; [now rewrite Z.div_1_r | now rewrite Z.mod_1_r].
Qed.

Lemma round_shifted M n mrs : 0 <= n -> shifted M n mrs ->
round_nearest_even (shr_m mrs) (loc_of_shr_record mrs) = rne M n.
Proof.
intros Hn [Hm Hl]. rewrite Hl, Hm. unfold loc_of_rem, rne, round_half_even_shift.
assert (0 < 2 ^ n) by (apply Z.pow_pos_nonneg; lia).
destruct (M mod 2 ^ n =? 0) eqn:Hz.
- apply Z.eqb_eq in Hz. rewrite Hz. cbn [round_nearest_even].
  destruct (2 * 0 ?= 2 ^ n) eqn:Hc; try reflexivity.
  + apply Z.compare_eq_iff in Hc. lia.
  + apply Z.compare_gt_iff in Hc. lia.
- cbn [round_nearest_even]. destruct (2 * (M mod 2 ^ n) ?= 2 ^ n); reflexivity.
Qed.

Lemma Zdigits2_bounds X : 0 < X ->
2 ^ (Zdigits2 X - 1) <= X < 2 ^ Zdigits2 X.
Proof. destruct X; try lia. intros _. apply digits2_bounds. Qed.

Lemma Zdigits2_nonneg X : 0 <= Zdigits2 X.
Proof. destruct X; cbn; lia. Qed.

Lemma Zdigits2_unique X k : 0 < X -> 2 ^ (k - 1) <= X < 2 ^ k -> Zdigits2 X = k.
Proof.
intros HX [Hlo Hhi]. pose proof (Zdigits2_bounds X HX) as [Dlo Dhi].
pose proof (Zdigits2_nonneg X) as Dn.
assert (0 <= k).
{ destruct (Z.le_gt_cases 0 k); [assumption|]. rewrite Z.pow_neg_r in Hhi; lia. }
assert (Zdigits2 X - 1 < k).
{ apply (Z.pow_lt_mono_r_iff 2); lia. }
assert (k - 1 < Zdigits2 X).
{ apply (Z.pow_lt_mono_r_iff 2); lia. }
lia.
Qed.

Lemma Zdigits2_le X k : 0 <= X -> 0 <= k -> X < 2 ^ k -> Zdigits2 X <= k.
Proof.
intros HX Hk Hlt. destruct (Z.eq_dec X 0) as [-> | Hne]; [cbn; lia|].
pose proof (Zdigits2_bounds X ltac:(lia)) as [Dlo _].
pose proof (Zdigits2_nonneg X).
assert (Zdigits2 X - 1 < k); [|lia].
apply (Z.pow_lt_mono_r_iff 2); lia.
Qed.

Lemma Zdigits2_mono X Y : 0 <= X <= Y -> Zdigits2 X <= Zdigits2 Y.
Proof.
intros [HX HXY]. destruct (Z.eq_dec X 0) as [-> | Hne].
- apply Zdigits2_nonneg.
- apply Zdigits2_le; [lia | apply Zdigits2_nonneg |].
  pose proof (Zdigits2_bounds Y ltac:(lia)). lia.
Qed.

Lemma Zdigits2_shift M a : 0 < M -> 0 <= a ->
Zdigits2 (M * 2 ^ a) = Zdigits2 M + a.
Proof.
intros HM Ha. pose proof (Zdigits2_bounds M HM) as [Dlo Dhi].
assert (0 < 2 ^ a) by (apply Z.pow_pos_nonneg; lia).
pose proof (Zdigits2_nonneg M).
assert (1 <= Zdigits2 M).
{ destruct M; cbn in *; lia. }
apply Zdigits2_unique; [nia|].
replace (Zdigits2 M + a - 1) with (Zdigits2 M - 1 + a) by lia.
rewrite !Z.pow_add_r by lia. nia.
Qed.

Lemma rne_bounds X n : 0 <= n -> X / 2 ^ n <= rne X n <= X / 2 ^ n + 1.
Proof.
intros Hn. unfold rne, round_half_even_shift.
destruct (2 * (X mod 2 ^ n) ?= 2 ^ n); [destruct (Z.even _)| |]; lia.
Qed.

Lemma rne_mono X Y n : 0 <= n -> X <= Y -> rne X n <= rne Y n.
Proof.
intros Hn HXY. assert (Hp : 0 < 2 ^ n) by (apply Z.pow_pos_nonneg; lia).
pose proof (Z.div_le_mono X Y (2 ^ n) Hp HXY) as Hq.
destruct (Z.eq_dec (X / 2 ^ n) (Y / 2 ^ n)) as [Heq | Hne].
- assert (Hr : X mod 2 ^ n <= Y mod 2 ^ n).
  { rewrite !Z.mod_eq by lia. rewrite Heq. lia. }
  unfold rne, round_half_even_shift. rewrite Heq.
  destruct (Z.compare_spec (2 * (X mod 2 ^ n)) (2 ^ n));
    destruct (Z.compare_spec (2 * (Y mod 2 ^ n)) (2 ^ n));
    try destruct (Z.even (Y / 2 ^ n)); lia.
- pose proof (rne_bounds X n Hn). pose proof (rne_bounds Y n Hn). lia.
Qed.

Lemma rne_multiple q n : 0 <= n -> rne (q * 2 ^ n) n = q.
Proof.
intros Hn. assert (Hp : 0 < 2 ^ n) by (apply Z.pow_pos_nonneg; lia).
unfold rne, round_half_even_shift.
rewrite Z.mod_mul, Z.div_mul by lia.
destruct (Z.compare_spec (2 * 0) (2 ^ n)); [lia | reflexivity | lia].
Qed.

Lemma rne_0 X : rne X 0 = X.
Proof. rewrite <- (rne_multiple X 0) at 2 by lia. now rewrite Z.pow_0_r, Z.mul_1_r. Qed.

Lemma rne_scale M a s : 0 <= a -> 0 <= s ->
rne (M * 2 ^ a) (a + s) = rne M s.
Proof.
intros Ha Hs. assert (Hpa : 0 < 2 ^ a) by (apply Z.pow_pos_nonneg; lia).
assert (Hps : 0 < 2 ^ s) by (apply Z.pow_pos_nonneg; lia).
unfold rne, round_half_even_shift.
rewrite Z.pow_add_r by lia.
rewrite (Z.mul_comm (2 ^ a) (2 ^ s)).
rewrite Z.div_mul_cancel_r by lia.
rewrite Zmult_mod_distr_r.
replace (2 * (M mod 2 ^ s * 2 ^ a) ?= 2 ^ s * 2 ^ a)
  with (2 * (M mod 2 ^ s) ?= 2 ^ s); [reflexivity|].
destruct (Z.compare_spec (2 * (M mod 2 ^ s)) (2 ^ s));
  destruct (Z.compare_spec (2 * (M mod 2 ^ s * 2 ^ a)) (2 ^ s * 2 ^ a));
  try reflexivity; nia.
Qed.

Lemma fexp64_eq e : fexp prec emax e = fexp64 e.
Proof. reflexivity. Qed.

Lemma shr_fexp_spec M E : 0 <= M ->
exists mrs,
  shr_fexp prec emax M E loc_Exact
    = (mrs, E + Z.max 0 (fexp64 (Zdigits2 M + E) - E))
  /\ shifted M (Z.max 0 (fexp64 (Zdigits2 M + E) - E)) mrs.
Proof.
intros HM. unfold shr_fexp, shr. rewrite fexp64_eq. cbn [shr_record_of_loc].
destruct (fexp64 (Zdigits2 M + E) - E) as [| p | p] eqn:Hd.
- exists (Build_shr_record M false false). rewrite Z.add_0_r.
  split; [reflexivity | apply shifted_0].
- exists (iter_pos shr_1 p (Build_shr_record M false false)).
  rewrite Z.max_r by lia. split; [reflexivity|].
  apply (shifted_iter M p HM 0); [lia | apply shifted_0].
- exists (Build_shr_record M false false). rewrite Z.max_l by lia.
  rewrite Z.add_0_r. split; [reflexivity | apply shifted_0].
Qed.

Lemma shifted_exact_m M n mrs : shifted M n mrs -> shr_m mrs = M / 2 ^ n.
Proof. now intros [H _]. Qed.

Lemma round_aux_spec sx M E : 0 < M ->
let e' := Z.max E (fexp64 (Zdigits2 M + E)) in
let m1 := rne M (e' - E) in
-1074 <= e' /\ 0 <= m1 <= 2 ^ 53 /\
binary_round_aux prec emax sx M E loc_Exact
  = if m1 =? 2 ^ 53 then pack sx (2 ^ 52) (e' + 1) else pack sx m1 e'.
Proof.
intros HM e' m1.
pose proof (Zdigits2_bounds M HM) as [Dlo Dhi].
pose proof (Zdigits2_nonneg M) as Dn.
assert (He' : -1074 <= e') by (unfold e', fexp64; lia).
assert (Hs : 0 <= e' - E) by (unfold e'; lia).
assert (Hs53 : Zdigits2 M - (e' - E) <= 53) by (unfold e', fexp64; lia).
assert (Hps : 0 < 2 ^ (e' - E)) by (apply Z.pow_pos_nonneg; lia).
assert (Hq : 0 <= M / 2 ^ (e' - E) < 2 ^ 53).
{ split; [apply Z.div_pos; lia|].
  apply Z.div_lt_upper_bound; [lia|].
  destruct (Z.le_gt_cases (e' - E) (Zdigits2 M)) as [Hle | Hgt].
  - apply Z.lt_le_trans with (2 ^ Zdigits2 M); [assumption|].
    rewrite <- Z.pow_add_r by lia. apply Z.pow_le_mono_r; lia.
  - apply Z.lt_le_trans with (2 ^ Zdigits2 M); [assumption|].
    apply Z.le_trans with (2 ^ (e' - E) * 1); [|apply Z.mul_le_mono_nonneg_l; lia].
    rewrite Z.mul_1_r. apply Z.pow_le_mono_r; lia. }
pose proof (rne_bounds M (e' - E) Hs) as Hb. fold m1 in Hb.
assert (Hm1 : 0 <= m1 <= 2 ^ 53) by lia.
split; [assumption|]. split; [assumption|].
unfold binary_round_aux.
destruct (shr_fexp_spec M E ltac:(lia)) as (mrs & Hshr & Hsh).
replace (Z.max 0 (fexp64 (Zdigits2 M + E) - E)) with (e' - E) in * by (unfold e'; lia).
rewrite Hshr. replace (E + (e' - E)) with e' by lia.
rewrite (round_shifted M (e' - E) mrs Hs Hsh). fold m1.
destruct (shr_fexp_spec m1 e' ltac:(lia)) as (mrs2 & Hshr2 & Hsh2).
rewrite Hshr2.
destruct (Z.eqb_spec m1 (2 ^ 53)) as [Heq | Hne].
- rewrite Heq in *. 
  replace (Zdigits2 (2 ^ 53)) with 54 in * by reflexivity.
  replace (Z.max 0 (fexp64 (54 + e') - e')) with 1 in * by (unfold fexp64; lia).
  rewrite (shifted_exact_m _ _ _ Hsh2).
  replace (2 ^ 53 / 2 ^ 1) with (2 ^ 52) by reflexivity.
  reflexivity.
- assert (Hd1 : Zdigits2 m1 <= 53) by (apply Zdigits2_le; lia).
  replace (Z.max 0 (fexp64 (Zdigits2 m1 + e') - e')) with 0 in * by (unfold fexp64; lia).
  rewrite (shifted_exact_m _ _ _ Hsh2).
  rewrite Z.pow_0_r, Z.div_1_r, Z.add_0_r. unfold pack.
  destruct m1; reflexivity.
Qed.

Lemma rnd_round M E K : 0 < M -> 1074 <= K -> 0 <= E + K ->
let e' := Z.max E (fexp64 (Zdigits2 M + E)) in
rnd K (M * 2 ^ (E + K)) = rne M (e' - E) * 2 ^ (e' + 1074).
Proof.
intros HM HK HE e'. unfold rnd.
rewrite Zdigits2_shift by lia.
pose proof (Zdigits2_nonneg M) as Dn.
set (t := Z.max (Zdigits2 M + (E + K) - 53) (K - 1074)).
assert (Ht : t = fexp64 (Zdigits2 M + E) + K) by (unfold t, fexp64; lia).
destruct (Z.le_gt_cases (fexp64 (Zdigits2 M + E)) E) as [Hle | Hgt].
- replace e' with E by (unfold e'; lia).
  rewrite Z.sub_diag, rne_0.
  replace (M * 2 ^ (E + K)) with (M * 2 ^ (E + K - t) * 2 ^ t).
  + rewrite rne_multiple by (unfold fexp64 in Ht; lia).
    rewrite <- Z.mul_assoc, <- Z.pow_add_r by (unfold fexp64 in *; lia).
    f_equal. f_equal. lia.
  + rewrite <- Z.mul_assoc, <- Z.pow_add_r by (unfold fexp64 in *; lia).
    f_equal. f_equal. lia.
- replace e' with (fexp64 (Zdigits2 M + E)) by (unfold e'; lia).
  replace t with (E + K + (fexp64 (Zdigits2 M + E) - E)) by lia.
  rewrite rne_scale by lia. f_equal. f_equal. lia.
Qed.

Lemma units_pack m e : 0 <= m -> -1074 <= e ->
m * 2 ^ (e + 1074) < 2 ^ 2046 ->
units (pack false m e) = Some (m * 2 ^ (e + 1074)).
Proof.
intros Hm He Hlt. destruct m as [| p | p]; [reflexivity | | lia].
unfold pack. destruct (Z.leb_spec e (emax - prec)) as [Hle | Hgt].
- cbn [units]. destruct (Z.leb_spec (-1074) e); [reflexivity | lia].
- exfalso. unfold emax, prec in Hgt.
  assert (2 ^ 2046 <= 2 ^ (e + 1074)) by (apply Z.pow_le_mono_r; lia).
  assert (0 < 2 ^ (e + 1074)) by (apply Z.pow_pos_nonneg; lia).
  nia.
Qed.

Lemma round_aux_units M E K : 0 < M -> 1074 <= K -> 0 <= E + K ->
rnd K (M * 2 ^ (E + K)) < 2 ^ 2046 ->
units (binary_round_aux prec emax false M E loc_Exact)
  = Some (rnd K (M * 2 ^ (E + K))).
Proof.
intros HM HK HE Hlt. rewrite rnd_round in * by assumption.
destruct (round_aux_spec false M E HM) as (He' & Hm1 & ->).
set (e' := Z.max E (fexp64 (Zdigits2 M + E))) in *.
set (m1 := rne M (e' - E)) in *.
destruct (Z.eqb_spec m1 (2 ^ 53)) as [Heq | Hne].
- rewrite Heq in *.
  assert (Hp : 2 ^ 52 * 2 ^ (e' + 1 + 1074) = 2 ^ 53 * 2 ^ (e' + 1074)).
  { replace (e' + 1 + 1074) with (1 + (e' + 1074)) by lia.
    rewrite (Z.pow_add_r 2 1) by lia.
    change (2 ^ 53) with (2 ^ 52 * 2 ^ 1). lia. }
  rewrite <- Hp in *. apply units_pack; lia.
- apply units_pack; lia.
Qed.

Lemma rnd_0 K : 1074 <= K -> rnd K 0 = 0.
Proof.
intros HK. unfold rnd. cbn [Zdigits2].
rewrite <- (Z.mul_0_l (2 ^ Z.max (0 - 53) (K - 1074))) at 1.
rewrite rne_multiple by lia. reflexivity.
Qed.

Lemma rnd_nonneg K X : 1074 <= K -> 0 <= X -> 0 <= rnd K X.
Proof.
intros HK HX. unfold rnd.
set (t := Z.max (Zdigits2 X - 53) (K - 1074)).
assert (0 <= t) by (unfold t; lia).
pose proof (rne_bounds X t ltac:(lia)).
assert (0 <= X / 2 ^ t) by (apply Z.div_pos; [lia | apply Z.pow_pos_nonneg; lia]).
apply Z.mul_nonneg_nonneg; [lia | apply Z.pow_nonneg; lia].
Qed.

Lemma rnd_mono K X Y : 1074 <= K -> 0 <= X <= Y -> rnd K X <= rnd K Y.
Proof.
intros HK [HX HXY]. unfold rnd.
set (tX := Z.max (Zdigits2 X - 53) (K - 1074)).
set (tY := Z.max (Zdigits2 Y - 53) (K - 1074)).
pose proof (Zdigits2_mono X Y ltac:(lia)) as Hd.
assert (HtX : 0 <= tX) by (unfold tX; lia).
destruct (Z.eq_dec tX tY) as [Heq | Hne].
- rewrite <- Heq. apply Z.mul_le_mono_nonneg_r; [apply Z.pow_nonneg; lia|].
  now apply rne_mono.
- assert (Hlt : tX < tY) by (unfold tX, tY in *; lia).
  assert (HtY : tY = Zdigits2 Y - 53) by (unfold tX, tY in *; lia).
  assert (HY : 0 < Y).
  { destruct (Z.eq_dec Y 0) as [-> |]; [|lia].
    assert (X = 0) by lia. subst X. unfold tX, tY in *. lia. }
  pose proof (Zdigits2_bounds Y HY) as [Ylo Yhi].
  assert (HdX : Zdigits2 X < Zdigits2 Y) by (unfold tX, tY in *; lia).
  pose proof (Zdigits2_nonneg X) as DXn.
  assert (HXB : X <= 2 ^ (Zdigits2 Y - 1)).
  { destruct (Z.eq_dec X 0) as [-> |].
    - apply Z.pow_nonneg; lia.
    - pose proof (Zdigits2_bounds X ltac:(lia)) as [_ Xhi].
      apply Z.le_trans with (2 ^ Zdigits2 X); [lia|].
      apply Z.pow_le_mono_r; lia. }
  apply Z.le_trans with (2 ^ 52 * 2 ^ (tY - (K - 1074))).
  + assert (HB : 2 ^ (Zdigits2 Y - 1) = 2 ^ (Zdigits2 Y - 1 - tX) * 2 ^ tX).
    { rewrite <- Z.pow_add_r by lia. f_equal. lia. }
    pose proof (rne_mono X _ tX HtX HXB) as Hr.
    rewrite HB, rne_multiple in Hr by lia.
    apply Z.le_trans with (2 ^ (Zdigits2 Y - 1 - tX) * 2 ^ (tX - (K - 1074))).
    * apply Z.mul_le_mono_nonneg_r; [apply Z.pow_nonneg; lia | assumption].
    * rewrite <- !Z.pow_add_r by (unfold tX in *; lia).
      apply Z.pow_le_mono_r; lia.
  + apply Z.mul_le_mono_nonneg_r; [apply Z.pow_nonneg; lia|].
    assert (HB : 2 ^ (Zdigits2 Y - 1) = 2 ^ 52 * 2 ^ tY).
    { rewrite <- Z.pow_add_r by lia. f_equal. lia. }
    pose proof (rne_mono _ Y tY ltac:(lia) Ylo) as Hr.
    rewrite HB, rne_multiple in Hr by lia. assumption.
Qed.

(** A value that fits in 53 bits is not changed. *)

Lemma rnd_exact K m j : 1074 <= K -> K - 1074 <= j -> 0 <= m < 2 ^ 53 ->
rnd K (m * 2 ^ j) = m * 2 ^ (j - (K - 1074)).
Proof.
intros HK Hj Hm. destruct (Z.eq_dec m 0) as [-> | Hne].
- rewrite !Z.mul_0_l. now apply rnd_0.
- unfold rnd. rewrite Zdigits2_shift by lia.
  assert (Zdigits2 m <= 53) by (apply Zdigits2_le; lia).
  set (t := Z.max (Zdigits2 m + j - 53) (K - 1074)).
  assert (Ht : K - 1074 <= t <= j) by (unfold t; lia).
  replace (m * 2 ^ j) with (m * 2 ^ (j - t) * 2 ^ t).
  + rewrite rne_multiple by lia.
    rewrite <- Z.mul_assoc, <- Z.pow_add_r by lia. f_equal. f_equal. lia.
  + rewrite <- Z.mul_assoc, <- Z.pow_add_r by lia. f_equal. f_equal. lia.
Qed.

Lemma mul_units x y ux uy :
units x = Some ux -> units y = Some uy ->
rnd 2148 (ux * uy) < 2 ^ 2046 ->
units (mul x y) = Some (rnd 2148 (ux * uy)).
Proof.
intros Hx Hy Hlt.
destruct x as [sx | sx | | sx mx ex]; try discriminate;
  destruct y as [sy | sy | | sy my ey]; try discriminate; unfold units in Hx, Hy.
- injection Hx as <-. rewrite Z.mul_0_l, rnd_0 by lia. reflexivity.
- injection Hx as <-. rewrite Z.mul_0_l, rnd_0 by lia. 
  destruct sy; [discriminate|]. reflexivity.
- injection Hy as <-. rewrite Z.mul_0_r, rnd_0 by lia.
  destruct sx; [discriminate|]. reflexivity.
- destruct sx; [discriminate|]. destruct sy; [discriminate|].
  destruct (Z.leb_spec (-1074) ex); [|discriminate].
  destruct (Z.leb_spec (-1074) ey); [|discriminate].
  assert (ux = Zpos mx * 2 ^ (ex + 1074)) by congruence.
  assert (uy = Zpos my * 2 ^ (ey + 1074)) by congruence.
  subst ux uy. clear Hx Hy.
  assert (Heq : Zpos mx * 2 ^ (ex + 1074) * (Zpos my * 2 ^ (ey + 1074))
                = Zpos (mx * my) * 2 ^ (ex + ey + 2148)).
  { rewrite Pos2Z.inj_mul.
    replace (ex + ey + 2148) with ((ex + 1074) + (ey + 1074)) by lia.
    rewrite (Z.pow_add_r 2 (ex + 1074) (ey + 1074)) by lia. ring. }
  rewrite Heq in *. unfold mul, SFmul. cbn [xorb].
  apply round_aux_units; lia.
Qed.

Lemma iter_xO m d : Zpos (Pos.iter xO m d) = Zpos m * 2 ^ Zpos d.
Proof.
induction d as [| d IH] using Pos.peano_ind.
- cbn. lia.
- rewrite Pos.iter_succ, Pos2Z.inj_xO, IH, Pos2Z.inj_succ, Z.pow_succ_r by lia.
  ring.
Qed.

Lemma shl_align_value mx ex ex' :
let '(mz, ez) := shl_align mx ex ex' in
ez <= ex /\ Zpos mz = Zpos mx * 2 ^ (ex - ez).
Proof.
unfold shl_align. destruct (ex' - ex) as [| d | d] eqn:Hd.
- rewrite Z.sub_diag. cbn. lia.
- rewrite Z.sub_diag. cbn. lia.
- split; [lia|]. rewrite iter_xO. f_equal. f_equal. lia.
Qed.

Lemma small_units n : 0 <= n < 2 ^ 53 -> units (small n) = Some (n * 2 ^ 1074).
Proof.
intros Hn. unfold small, binary_normalize.
destruct n as [| p | p]; [reflexivity | | lia].
unfold binary_round.
pose proof (shl_align_value p 0 (fexp prec emax (Zpos (digits2_pos p) + 0))) as Hal.
destruct (shl_align p 0 (fexp prec emax (Zpos (digits2_pos p) + 0))) as [mz ez] eqn:Hsa.
destruct Hal as [Hez Hmz].
assert (Hlow : -1074 <= ez).
{ unfold shl_align in Hsa. rewrite fexp64_eq in Hsa. unfold fexp64 in Hsa.
  destruct (Z.max (Z.pos (digits2_pos p) + 0 - 53) (-1074) - 0) eqn:Hd;
    inversion Hsa; subst; lia. }
assert (HX : Zpos mz * 2 ^ (ez + 1074) = Zpos p * 2 ^ 1074).
{ rewrite Hmz, <- Z.mul_assoc, <- Z.pow_add_r by lia. f_equal. f_equal. lia. }
assert (HR : rnd 1074 (Zpos mz * 2 ^ (ez + 1074)) = Zpos p * 2 ^ 1074).
{ rewrite HX, rnd_exact by lia. f_equal. }
rewrite <- HR. apply round_aux_units; lia.
Qed.

Lemma of_Z_small n : 0 <= n < 2 ^ 53 -> of_Z n = Some (small n).
Proof.
intros Hn. pose proof (small_units n Hn) as Hu. unfold of_Z. fold (small n).
destruct (small n); try reflexivity. discriminate.
Qed.

Lemma of_int_small n : 0 <= n < 2 ^ 53 -> of_int n = ok (small n).
Proof. intros Hn. unfold of_int. now rewrite of_Z_small. Qed.

Lemma to_int_units f u : units f = Some u -> F64.to_int f = ok (u / 2 ^ 1074).
Proof.
destruct f as [s | s | | s m e]; cbn [units]; try discriminate.
- intros [= <-]. reflexivity.
- destruct s; [discriminate|].
  destruct (Z.leb_spec (-1074) e) as [He|]; [|discriminate].
  intros Hu. assert (u = Zpos m * 2 ^ (e + 1074)) by congruence. subst u. clear Hu.
  unfold F64.to_int, trunc. cbn [cond_Zopp]. unfold ok. f_equal.
  destruct (Z.le_gt_cases 0 e) as [Hpos | Hneg].
  + rewrite Z.shiftl_mul_pow2 by lia.
    rewrite Z.pow_add_r, Z.mul_assoc, Z.div_mul by lia. reflexivity.
  + rewrite Z.shiftl_div_pow2 by lia.
    replace 1074 with ((e + 1074) + - e) at 2 by lia.
    rewrite (Z.pow_add_r 2 (e + 1074) (- e)) by lia.
    rewrite (Z.mul_comm (2 ^ (e + 1074)) (2 ^ (- e))).
    rewrite Z.div_mul_cancel_r; [reflexivity | | ];
      apply Z.neq_sym, Z.lt_neq, Z.pow_pos_nonneg; lia.
Qed.

Lemma valid_exponent s m e : valid (S754_finite s m e) = true ->
e = fexp64 (Zpos (digits2_pos m) + e) /\ e <= 971.
Proof.
unfold valid, valid_binary, bounded, canonical_mantissa.
rewrite fexp64_eq. intros H. apply andb_prop in H as [H1 H2].
apply Z.eqb_eq in H1. apply Z.leb_le in H2. unfold emax, prec in H2. lia.
Qed.

(** A valid float in [[0, 1]] has at most [2^1074] units. *)

Lemma in_range_units p : valid p = true ->
Num.leb (PyInt 0) (PyFloat p) = true ->
Num.leb (PyFloat p) (PyInt 1) = true ->
exists u, units p = Some u /\ 0 <= u <= 2 ^ 1074.
Proof.
intros Hv H0 H1. unfold Num.leb, Num.compare, Zcompare in *.
destruct p as [s | s | | s m e]; cbn [option_map] in *.
- exists 0. split; [reflexivity | lia].
- destruct s; discriminate.
- discriminate.
- apply valid_exponent in Hv as [Hc _]. unfold fexp64 in Hc.
  assert (He : -1074 <= e) by lia.
  destruct s.
  { cbn [cond_Zopp] in H0. destruct (Z.leb_spec 0 e).
    - destruct (Z.compare_spec 0 (- Zpos m * 2 ^ e)) as [C|C|C]; try discriminate;
        assert (0 < 2 ^ e) by (apply Z.pow_pos_nonneg; lia); nia.
    - destruct (Z.compare_spec (0 * 2 ^ (- e)) (- Zpos m)) as [C|C|C]; try discriminate; lia. }
  exists (Zpos m * 2 ^ (e + 1074)). cbn [units].
  destruct (Z.leb_spec (-1074) e); [|lia]. split; [reflexivity|].
  assert (0 < 2 ^ (e + 1074)) by (apply Z.pow_pos_nonneg; lia).
  split; [lia|]. cbn [cond_Zopp] in H1.
  destruct (Z.leb_spec 0 e) as [Hpos | Hneg].
  + exfalso. pose proof (digits2_bounds m) as [Lm _].
    assert (Hd : Zpos (digits2_pos m) = 53) by lia.
    rewrite Hd in Lm. change (2 ^ (53 - 1)) with 4503599627370496 in Lm.
    assert (1 <= 2 ^ e) by (apply (Z.pow_le_mono_r 2 0 e); lia).
    destruct (Z.compare_spec 1 (Zpos m * 2 ^ e)) as [C|C|C];
      cbn [CompOpp] in H1; try discriminate; nia.
  + destruct (Z.compare_spec (1 * 2 ^ (- e)) (Zpos m)) as [C|C|C];
      cbn [CompOpp] in H1; try discriminate.
    * replace 1074 with (- e + (e + 1074)) at 2 by lia.
      rewrite (Z.pow_add_r 2 (- e) (e + 1074)) by lia. nia.
    * replace 1074 with (- e + (e + 1074)) at 2 by lia.
      rewrite (Z.pow_add_r 2 (- e) (e + 1074)) by lia. nia.
Qed.

(** On valid non-negative floats the comparison of Python agrees with
  the order of the values. *)

Lemma leb_units p q up uq : valid p = true -> valid q = true ->
units p = Some up -> units q = Some uq ->
Num.leb (PyFloat p) (PyFloat q) = true -> up <= uq.
Proof.
intros Vp Vq Hp Hq Hle. unfold Num.leb, Num.compare, F64.compare in Hle.
destruct p as [sp | sp | | sp mp ep]; try discriminate;
  destruct q as [sq | sq | | sq mq e2]; try discriminate;
  unfold units in Hp, Hq.
- assert (up = 0) by congruence. assert (uq = 0) by congruence. lia.
- destruct sq; [discriminate|]. destruct (Z.leb_spec (-1074) e2); [|discriminate].
  assert (up = 0) by congruence.
  assert (uq = Zpos mq * 2 ^ (e2 + 1074)) by congruence. subst.
  assert (0 < 2 ^ (e2 + 1074)) by (apply Z.pow_pos_nonneg; lia). lia.
- destruct sp; [discriminate|]. cbn in Hle. discriminate.
- destruct sp; [discriminate|]. destruct sq; [discriminate|].
  destruct (Z.leb_spec (-1074) ep); [|discriminate].
  destruct (Z.leb_spec (-1074) e2); [|discriminate].
  assert (up = Zpos mp * 2 ^ (ep + 1074)) by congruence.
  assert (uq = Zpos mq * 2 ^ (e2 + 1074)) by congruence. subst up uq.
  apply valid_exponent in Vp as [Cp _]. apply valid_exponent in Vq as [Cq _].
  unfold fexp64 in Cp, Cq.
  pose proof (digits2_bounds mp) as [Lp Up].
  pose proof (digits2_bounds mq) as [Lq Uq].
  cbn [SFcompare] in Hle.
  destruct (Z.compare_spec ep e2) as [C|C|C]; try discriminate.
  + subst e2. rewrite Pos.compare_cont_spec in Hle. cbn [Pos.switch_Eq] in Hle.
    apply Z.mul_le_mono_nonneg_r; [apply Z.pow_nonneg; lia|].
    destruct (Pos.compare_spec mp mq); try discriminate; lia.
  + assert (Hdq : Zpos (digits2_pos mq) = 53) by lia.
    rewrite Hdq in Lq.
    assert (Hmp : Zpos mp < 2 ^ 53).
    { apply Z.lt_le_trans with (2 ^ Zpos (digits2_pos mp)); [assumption|].
      apply Z.pow_le_mono_r; lia. }
    replace (e2 + 1074) with ((e2 - ep) + (ep + 1074)) by lia.
    rewrite (Z.pow_add_r 2 (e2 - ep) (ep + 1074)) by lia.
    rewrite Z.mul_assoc.
    apply Z.mul_le_mono_nonneg_r; [apply Z.pow_nonneg; lia|].
    assert (2 ^ 1 <= 2 ^ (e2 - ep)) by (apply Z.pow_le_mono_r; lia).
    change (2 ^ 53) with (2 ^ 52 * 2) in Hmp. change (2 ^ (53 - 1)) with (2 ^ 52) in Lq.
    change (2 ^ 1) with 2 in *. nia.
Qed.

Lemma canon_lt m1 e1 m2 e2 :
e1 = fexp64 (Zpos (digits2_pos m1) + e1) ->
e2 = fexp64 (Zpos (digits2_pos m2) + e2) ->
e1 < e2 ->
Zpos m1 * 2 ^ (e1 + 1074) < Zpos m2 * 2 ^ (e2 + 1074).
Proof.
unfold fexp64. intros C1 C2 Hlt.
pose proof (digits2_bounds m1) as [L1 U1].
pose proof (digits2_bounds m2) as [L2 U2].
assert (Hd2 : Zpos (digits2_pos m2) = 53) by lia.
rewrite Hd2 in L2. change (2 ^ (53 - 1)) with (2 ^ 52) in L2.
assert (Hm1 : Zpos m1 < 2 ^ 53).
{ apply Z.lt_le_trans with (2 ^ Zpos (digits2_pos m1)); [assumption|].
  apply Z.pow_le_mono_r; lia. }
replace (e2 + 1074) with ((e2 - e1) + (e1 + 1074)) by lia.
rewrite (Z.pow_add_r 2 (e2 - e1) (e1 + 1074)) by lia.
rewrite Z.mul_assoc.
apply Z.mul_lt_mono_pos_r; [apply Z.pow_pos_nonneg; lia|].
assert (2 ^ 1 <= 2 ^ (e2 - e1)) by (apply Z.pow_le_mono_r; lia).
change (2 ^ 53) with (2 ^ 52 * 2) in Hm1. change (2 ^ 1) with 2 in *. nia.
Qed.

Lemma compare_sval a b : valid a = true -> valid b = true ->
finite a = true -> finite b = true ->
F64.compare a b = Some (sval a ?= sval b).
Proof.
intros Va Vb Fa Fb. unfold F64.compare.
destruct a as [sa | sa | | sa ma ea]; try discriminate;
  destruct b as [sb | sb | | sb mb eb]; try discriminate; cbn [SFcompare sval].
- reflexivity.
- apply valid_exponent in Vb as [Cb _].
  assert (0 < 2 ^ (eb + 1074)) by (apply Z.pow_pos_nonneg; unfold fexp64 in Cb; lia).
  destruct sb; cbn [cond_Zopp]; f_equal; symmetry;
    [apply Z.compare_gt_iff | apply Z.compare_lt_iff]; lia.
- apply valid_exponent in Va as [Ca _].
  assert (0 < 2 ^ (ea + 1074)) by (apply Z.pow_pos_nonneg; unfold fexp64 in Ca; lia).
  destruct sa; cbn [cond_Zopp]; f_equal; symmetry;
    [apply Z.compare_lt_iff | apply Z.compare_gt_iff]; lia.
- apply valid_exponent in Va as [Ca _]. apply valid_exponent in Vb as [Cb _].
  assert (0 < 2 ^ (ea + 1074)) by (apply Z.pow_pos_nonneg; unfold fexp64 in Ca; lia).
  assert (0 < 2 ^ (eb + 1074)) by (apply Z.pow_pos_nonneg; unfold fexp64 in Cb; lia).
  f_equal. rewrite Pos.compare_cont_spec. cbn [Pos.switch_Eq].
  destruct sa, sb; cbn [cond_Zopp].
  + destruct (Z.compare_spec ea eb) as [C|C|C].
    * subst eb. symmetry.
      destruct (Pos.compare_spec ma mb); cbn [CompOpp];
        [apply Z.compare_eq_iff | apply Z.compare_gt_iff | apply Z.compare_lt_iff];
        try (subst; reflexivity); nia.
    * pose proof (canon_lt _ _ _ _ Ca Cb C). symmetry. apply Z.compare_gt_iff. lia.
    * pose proof (canon_lt _ _ _ _ Cb Ca C). symmetry. apply Z.compare_lt_iff. lia.
  + symmetry. apply Z.compare_lt_iff. lia.
  + symmetry. apply Z.compare_gt_iff. lia.
  + destruct (Z.compare_spec ea eb) as [C|C|C].
    * subst eb. symmetry.
      destruct (Pos.compare_spec ma mb);
        [apply Z.compare_eq_iff | apply Z.compare_lt_iff | apply Z.compare_gt_iff];
        try (subst; reflexivity); nia.
    * pose proof (canon_lt _ _ _ _ Ca Cb C). symmetry. apply Z.compare_lt_iff. lia.
    * pose proof (canon_lt _ _ _ _ Cb Ca C). symmetry. apply Z.compare_gt_iff. lia.
Qed.

Lemma shl_align_le mx ex ez : ez <= ex ->
Zpos (fst (shl_align mx ex ez)) = Zpos mx * 2 ^ (ex - ez).
Proof.
intros Hle. unfold shl_align. destruct (ez - ex) as [| d | d] eqn:Hd.
- replace (ex - ez) with 0 by lia. cbn. lia.
- lia.
- cbn [fst]. rewrite iter_xO. f_equal. f_equal. lia.
Qed.

Lemma binary_round_nonzero s m e : -1074 <= e ->
nonzero (binary_round prec emax s m e).
Proof.
intros He. unfold binary_round.
pose proof (shl_align_value m e (fexp prec emax (Zpos (digits2_pos m) + e))) as Hal.
destruct (shl_align m e (fexp prec emax (Zpos (digits2_pos m) + e))) as [mz ez] eqn:Hsa.
destruct Hal as [Hez Hmz].
assert (Hlow : -1074 <= ez).
{ unfold shl_align in Hsa. rewrite fexp64_eq in Hsa. unfold fexp64 in Hsa.
  destruct (Z.max (Z.pos (digits2_pos m) + e - 53) (-1074) - e) eqn:Hd;
    inversion Hsa; subst; lia. }
destruct (round_aux_spec s (Zpos mz) ez ltac:(lia)) as (He' & Hm1 & ->).
set (e' := Z.max ez (fexp64 (Zdigits2 (Zpos mz) + ez))) in *.
set (m1 := rne (Zpos mz) (e' - ez)) in *.
assert (Hpos : 1 <= m1).
{ destruct (Z.eq_dec e' ez) as [Heq | Hne].
  - unfold m1. rewrite Heq, Z.sub_diag, rne_0. lia.
  - assert (Hs : e' - ez = Zpos (digits2_pos mz) - 53).
    { unfold e', fexp64 in *. cbn [Zdigits2] in *. lia. }
    assert (Hs0 : 0 < e' - ez) by (unfold e' in *; lia).
    pose proof (digits2_bounds mz) as [Lz _].
    replace (Zpos (digits2_pos mz) - 1) with (52 + (e' - ez)) in Lz by lia.
    rewrite Z.pow_add_r in Lz by lia.
    pose proof (rne_mono _ _ (e' - ez) ltac:(lia) Lz) as Hr.
    rewrite rne_multiple in Hr by lia. fold m1 in Hr.
    assert (0 < 2 ^ 52) by reflexivity. lia. }
destruct (Z.eqb_spec m1 (2 ^ 53)).
- change (pack s (2 ^ 52) (e' + 1))
    with (if e' + 1 <=? emax - prec
          then S754_finite s 4503599627370496 (e' + 1) else S754_infinity s).
  destruct (e' + 1 <=? emax - prec); exact I.
- unfold pack. destruct m1; try lia. destruct (e' <=? emax - prec); exact I.
Qed.

(** [now > last_update] makes [now - last_update] differ from zero. *)

Lemma sub_nonzero a b : valid a = true -> valid b = true ->
Num.gtb (PyFloat a) (PyFloat b) = true -> nonzero (sub a b).
Proof.
intros Va Vb Hgt. unfold Num.gtb, Num.ltb, Num.compare in Hgt.
destruct (F64.compare b a) as [[]|] eqn:Hc; try discriminate. clear Hgt.
destruct (finite a) eqn:Fa; destruct (finite b) eqn:Fb.
- rewrite (compare_sval b a Vb Va Fb Fa) in Hc.
  assert (Hlt : sval b < sval a) by (apply Z.compare_lt_iff; congruence).
  clear Hc.
  destruct a as [sa | sa | | sa ma ea]; try discriminate;
    destruct b as [sb | sb | | sb mb eb]; try discriminate;
    cbn [sval] in Hlt; unfold sub, SFsub; try exact I; try lia.
  apply valid_exponent in Va as [Ca _]. apply valid_exponent in Vb as [Cb _].
    unfold fexp64 in Ca, Cb.
    change (IntDef.Z.min ea eb) with (Z.min ea eb).
    set (ez := Z.min ea eb).
    rewrite (shl_align_le ma ea ez), (shl_align_le mb eb ez) by (unfold ez; lia).
    set (D := cond_Zopp sa (Zpos ma * 2 ^ (ea - ez)) - cond_Zopp sb (Zpos mb * 2 ^ (eb - ez))).
    assert (HD : D * 2 ^ (ez + 1074)
                 = cond_Zopp sa (Zpos ma * 2 ^ (ea + 1074))
                   - cond_Zopp sb (Zpos mb * 2 ^ (eb + 1074))).
    { unfold D.
      replace (ea + 1074) with ((ea - ez) + (ez + 1074)) by lia.
      replace (eb + 1074) with ((eb - ez) + (ez + 1074)) by lia.
      rewrite (Z.pow_add_r 2 (ea - ez) (ez + 1074)) by (unfold ez; lia).
      rewrite (Z.pow_add_r 2 (eb - ez) (ez + 1074)) by (unfold ez; lia).
      destruct sa, sb; cbn [cond_Zopp]; ring. }
    assert (0 < 2 ^ (ez + 1074)) by (apply Z.pow_pos_nonneg; unfold ez; lia).
    assert (0 < D) by nia.
    destruct D as [| d | d]; try lia.
    unfold binary_normalize. apply binary_round_nonzero. unfold ez. lia.
- destruct a as [sa | sa | | sa ma ea]; try discriminate;
    destruct b as [sb | sb | | sb mb eb]; try discriminate; cbn; try exact I.
- destruct a as [sa | sa | | sa ma ea]; try discriminate;
    destruct b as [sb | sb | | sb mb eb]; try discriminate; cbn; try exact I.
- destruct a as [sa | sa | | sa ma ea]; try discriminate;
    destruct b as [sb | sb | | sb mb eb]; try discriminate; cbn in *; try exact I;
    destruct sa, sb; try discriminate; exact I.
Qed.

End F64Facts.

(** ** Strings and loops *)

Module StrFacts.

Lemma eqb_eq a b : PyStr.eqb a b = true <-> a = b.
Proof.
  unfold PyStr.eqb. destruct (list_eq_dec N.eq_dec a b); split; congruence.
Qed.

Lemma len_nonneg {A} (s : list A) : 0 <= len s.
Proof. unfold len. lia. Qed.

Lemma length_concat_repeat (s : str) n :
  length (concat (repeat s n)) = (n * length s)%nat.
Proof. induction n as [| n IH]; cbn; [reflexivity|]. rewrite length_app, IH. lia. Qed.

Lemma len_mul s n : len (PyStr.mul s n) = len s * Z.max 0 n.
Proof.
  unfold len, PyStr.mul. rewrite length_concat_repeat.
  rewrite Nat2Z.inj_mul. destruct (Z.le_gt_cases 0 n).
  - rewrite Z2Nat.id by lia. lia.
  - replace (Z.to_nat n) with 0%nat by lia. lia.
Qed.

Lemma index_in_range {A} (xs : list A) i : 0 <= i < len xs ->
  exists a, index xs i = ok a /\ nth_error xs (Z.to_nat i) = Some a.
Proof.
  intros Hi. unfold index.
  destruct (Z.ltb_spec i 0); [lia|].
  destruct (Z.leb_spec 0 i); [|lia].
  destruct (Z.ltb_spec i (len xs)); [|lia]. cbn [andb].
  destruct (nth_error xs (Z.to_nat i)) as [a |] eqn:Hn.
  - exists a. split; reflexivity.
  - apply nth_error_None in Hn. unfold len in Hi. lia.
Qed.

Lemma range_in n i : In i (Progress.range n) <-> 0 <= i < n.
Proof.
  unfold Progress.range. rewrite in_map_iff. split.
  - intros (k & <- & Hk). apply in_seq in Hk. lia.
  - intros Hi. exists (Z.to_nat i). split; [lia|]. apply in_seq. lia.
Qed.

Lemma for_each_ext {A S} (xs : list A) (f g : A -> S -> result S) acc :
  (forall x s, In x xs -> f x s = g x s) ->
  Progress.for_each xs f acc = Progress.for_each xs g acc.
Proof.
  revert acc. induction xs as [| x xs IH]; intros acc H; cbn; [reflexivity|].
  rewrite H by (left; reflexivity). destruct (g x acc); cbn; [reflexivity|].
  apply IH. intros y t Hy. apply H. now right.
Qed.

Lemma for_each_append {A} (xs : list A) (f : A -> str) (acc : str) :
  Progress.for_each xs (fun x acc => ok (acc ++ f x)) acc
  = ok (acc ++ concat (map f xs)).
Proof.
  revert acc. induction xs as [| x xs IH]; intros acc; cbn.
  - now rewrite app_nil_r.
  - rewrite IH, <- app_assoc. reflexivity.
Qed.

Lemma concat_map_const {A} (xs : list A) (g : str) :
  concat (map (fun _ => g) xs) = PyStr.mul g (len xs).
Proof.
  unfold PyStr.mul, len. rewrite Nat2Z.id.
  induction xs as [| x xs IH]; cbn; [reflexivity | now rewrite IH].
Qed.

Lemma len_range n : len (Progress.range n) = Z.max 0 n.
Proof. unfold len, Progress.range. rewrite length_map, length_seq. lia. Qed.

Lemma mul_max s n : PyStr.mul s (Z.max 0 n) = PyStr.mul s n.
Proof. unfold PyStr.mul. f_equal. f_equal. lia. Qed.

End StrFacts.

(** ** [int(p * n)] *)

Module NumFacts.
Import F64 F64Spec F64Facts Progress ProgressSpec.

(** Two returned results are equal only when the values are. *)
Lemma ok_inj {A} (a b : A) : ok a = ok b -> a = b.
Proof. unfold ok. congruence. Qed.

Lemma pow2_pos n : 0 <= n -> 0 < 2 ^ n.
Proof. intros. apply Z.pow_pos_nonneg; lia. Qed.

Lemma rnd_le_exact K X m j : 1074 <= K -> K - 1074 <= j -> 0 <= m < 2 ^ 53 ->
  0 <= X <= m * 2 ^ j -> rnd K X <= m * 2 ^ (j - (K - 1074)).
Proof.
  intros HK Hj Hm HX. rewrite <- (rnd_exact K m j) by assumption.
  apply rnd_mono; assumption.
Qed.

Lemma progress_ok_units p : progress_ok p ->
  num_units p (progress_units p) /\ 0 <= progress_units p <= 2 ^ 1074.
Proof.
  intros [| | f (Hv & H0 & H1)]; cbn [num_units progress_units].
  - split; [reflexivity | cbn; lia].
  - split; [reflexivity|]. pose proof (pow2_pos 1074). lia.
  - destruct (in_range_units f Hv H0 H1) as (u & Hu & Hb). rewrite Hu. now split.
Qed.

Lemma pow_2148 : 2 ^ 2148 = 2 ^ 1074 * 2 ^ 1074.
Proof. rewrite <- Z.pow_add_r by lia. reflexivity. Qed.

(** [x * n] for [x] at most [b] and an [n] below [2^53] with [b * n]
    below [2^53]: the value is the rounded product. *)
Lemma mul_int_units x u n b :
  num_units x u -> 0 <= u <= b * 2 ^ 1074 ->
  0 <= n -> 0 <= b -> b * n < 2 ^ 53 -> n < 2 ^ 53 ->
  (forall z, x = PyInt z -> 0 <= z) ->
  exists y, mul_int x n = ok y /\
            num_units y (rnd 2148 (u * (n * 2 ^ 1074))) /\
            0 <= rnd 2148 (u * (n * 2 ^ 1074)) <= b * n * 2 ^ 1074 /\
            (forall z, y = PyInt z -> 0 <= z).
Proof.
  intros Hx Hu Hn Hb Hbn Hn53 Hz.
  pose proof (pow2_pos 1074 ltac:(lia)) as Hp.
  assert (HX : 0 <= u * (n * 2 ^ 1074) <= b * n * 2 ^ 2148).
  { rewrite pow_2148. split; [nia|].
    replace (b * n * (2 ^ 1074 * 2 ^ 1074)) with (b * 2 ^ 1074 * (n * 2 ^ 1074)) by ring.
    apply Z.mul_le_mono_nonneg_r; nia. }
  assert (Hr : 0 <= rnd 2148 (u * (n * 2 ^ 1074)) <= b * n * 2 ^ 1074).
  { split; [apply rnd_nonneg; lia|].
    pose proof (rnd_le_exact 2148 (u * (n * 2 ^ 1074)) (b * n) 2148) as Hle.
    change (2148 - (2148 - 1074)) with 1074 in Hle. apply Hle; lia. }
  destruct x as [z | f]; cbn [num_units] in Hx.
  - exists (PyInt (z * n)). cbn [mul_int num_units]. subst u.
    specialize (Hz z eq_refl).
    assert (Hzb : z <= b) by nia.
    assert (Hzn : 0 <= z * n < 2 ^ 53) by nia.
    replace (z * 2 ^ 1074 * (n * 2 ^ 1074)) with (z * n * 2 ^ 2148) in *
      by (rewrite pow_2148; ring).
    rewrite rnd_exact in * by lia.
    replace (2148 - (2148 - 1074)) with 1074 in * by lia.
    repeat split; try lia. intros z' [= <-]. lia.
  - exists (PyFloat (mul f (small n))). cbn [mul_int].
    rewrite of_int_small by lia. cbn [bind]. split; [reflexivity|].
    cbn [num_units]. split; [|split; [assumption | discriminate]].
    apply mul_units; [assumption | apply small_units; lia |].
    apply Z.le_lt_trans with (b * n * 2 ^ 1074); [lia|].
    change (2 ^ 2046) with (2 ^ 972 * 2 ^ 1074).
    apply Z.mul_lt_mono_pos_r; [assumption|].
    apply Z.lt_trans with (2 ^ 53); [assumption | reflexivity].
Qed.

Lemma to_int_num x u : num_units x u -> Num.to_int x = ok (u / 2 ^ 1074).
Proof.
  destruct x as [z | f]; cbn [num_units Num.to_int].
  - intros ->. rewrite Z.div_mul by (pose proof (pow2_pos 1074); lia). reflexivity.
  - apply to_int_units.
Qed.

Lemma scale_bounds u n : 0 <= u <= 2 ^ 1074 -> 0 <= n < 2 ^ 53 ->
  0 <= scale u n <= n.
Proof.
  intros Hu Hn. unfold scale.
  pose proof (pow2_pos 1074 ltac:(lia)) as Hp.
  assert (HX : 0 <= u * (n * 2 ^ 1074) <= n * 2 ^ 2148).
  { rewrite pow_2148. split; [nia|].
    replace (n * (2 ^ 1074 * 2 ^ 1074)) with (2 ^ 1074 * (n * 2 ^ 1074)) by ring.
    apply Z.mul_le_mono_nonneg_r; nia. }
  split.
  - apply Z.div_pos; [apply rnd_nonneg; lia | assumption].
  - apply Z.div_le_upper_bound; [assumption|].
    pose proof (rnd_le_exact 2148 (u * (n * 2 ^ 1074)) n 2148) as Hle.
    change (2148 - (2148 - 1074)) with 1074 in Hle.
    specialize (Hle ltac:(lia) ltac:(lia) Hn HX). lia.
Qed.

Lemma scale_mono u v n : 0 <= u <= v -> 0 <= n -> scale u n <= scale v n.
Proof.
  intros Huv Hn. unfold scale.
  pose proof (pow2_pos 1074 ltac:(lia)) as Hp.
  apply Z.div_le_mono; [assumption|]. apply rnd_mono; [lia|]. nia.
Qed.

Lemma scale_0 n : scale 0 n = 0.
Proof. unfold scale. rewrite Z.mul_0_l, rnd_0 by lia. reflexivity. Qed.

Lemma scale_1 n : 0 <= n < 2 ^ 53 -> scale (2 ^ 1074) n = n.
Proof.
  intros Hn. unfold scale.
  replace (2 ^ 1074 * (n * 2 ^ 1074)) with (n * 2 ^ 2148) by (rewrite pow_2148; ring).
  rewrite rnd_exact by lia.
  replace (2148 - (2148 - 1074)) with 1074 by lia.
  apply Z.div_mul. pose proof (pow2_pos 1074). lia.
Qed.

Lemma progress_nonneg_int p : progress_ok p -> forall z, p = PyInt z -> 0 <= z.
Proof. intros H z ->. inversion H; lia. Qed.

(** [int(p * n)] *)
Lemma mul_to_int p n : progress_ok p -> 0 <= n < 2 ^ 53 ->
  (x <- mul_int p n ;; Num.to_int x) = ok (filled_of p n).
Proof.
  intros Hp Hn. destruct (progress_ok_units p Hp) as [Hu Hb].
  destruct (mul_int_units p (progress_units p) n 1) as (y & Hy & Huy & _);
    try lia; try assumption.
  - now apply progress_nonneg_int.
  - rewrite Hy. cbn [bind]. now apply to_int_num.
Qed.

Lemma filled_of_bounds p n : progress_ok p -> 0 <= n < 2 ^ 53 ->
  0 <= filled_of p n <= n.
Proof.
  intros Hp Hn. apply scale_bounds; [|assumption]. now apply progress_ok_units.
Qed.

Lemma filled_count_ok w p : progress_ok p -> 0 <= w < 2 ^ 53 ->
  filled_count w p = ok (filled_of p w).
Proof. apply mul_to_int. Qed.

End NumFacts.

(** ** The drawing functions *)

Module DrawFacts.
Import F64 F64Spec F64Facts Progress ProgressSpec StrFacts NumFacts.

Lemma threshold_ok w fc ec p : progress_ok p -> 0 <= w < 2 ^ 53 ->
  threshold w fc ec p
  = ok (PyStr.mul fc (filled_of p w), PyStr.mul ec (w - filled_of p w)).
Proof.
  intros Hp Hw. unfold threshold. rewrite filled_count_ok by assumption.
  reflexivity.
Qed.

Lemma char_at_in_range (s : str) i : 0 <= i < len s ->
  exists c, char_at s i = ok [c] /\ nth_error s (Z.to_nat i) = Some c.
Proof.
  intros Hi. destruct (index_in_range s i Hi) as (c & Hc & Hn).
  exists c. unfold char_at. rewrite Hc. split; [reflexivity | assumption].
Qed.

Lemma block_ok w p : progress_ok p -> width_ok w ->
  exists partial,
    block w p
    = ok (let bar := PyStr.mul [0x2589%N] (filled_of p (w * 7 - 1) / 6) ++ partial in
          bar ++ PyStr.mul SP (w - len bar), PyStr.mul SP w)
    /\ (filled_of p (w * 7 - 1) mod 6 = 0 -> partial = []).
Proof.
  intros Hp [Hw0 Hw]. unfold block.
  change (len block_chars) with 7. change (7 - 1) with 6.
  assert (Hn : 0 <= w * 7 - 1 < 2 ^ 53).
  { change (2 ^ 50) with 1125899906842624 in Hw.
    change (2 ^ 53) with 9007199254740992. lia. }
  pose proof (mul_to_int p (w * 7 - 1) Hp Hn) as Hm.
  destruct (mul_int p (w * 7 - 1)) as [e | x]; [discriminate|].
  cbn [bind ok] in Hm |- *. rewrite Hm. cbn [bind ok].
  change (char_at block_chars (-1)) with (@ok str [0x2589%N]). cbn [bind ok].
  set (k := filled_of p (w * 7 - 1)).
  destruct (Z.eqb_spec (k mod 6) 0) as [Hz | Hnz].
  - exists []. cbn [bind ok]. split; [reflexivity | reflexivity].
  - pose proof (Z.mod_pos_bound k 6 ltac:(lia)) as Hb.
    destruct (char_at_in_range block_chars (k mod 6)) as (c & Hc & _).
    { change (len block_chars) with 7. lia. }
    exists [c]. rewrite Hc. cbn [bind ok]. split; [reflexivity | lia].
Qed.

Lemma braille_count_ok p w : progress_ok p -> width_ok w ->
  (x <- mul_int p w ;; y <- mul_int x 4 ;; Num.to_int y)
  = ok (braille_count p w)
  /\ 0 <= braille_count p w <= 4 * w.
Proof.
  intros Hp [Hw0 Hw].
  change (2 ^ 50) with 1125899906842624 in Hw.
  assert (H53 : 2 ^ 53 = 9007199254740992) by reflexivity.
  destruct (progress_ok_units p Hp) as [Hu Hb].
  destruct (mul_int_units p (progress_units p) w 1) as (x & Hx & Hux & Hbx & Hzx);
    try lia; try assumption.
  { now apply progress_nonneg_int. }
  destruct (mul_int_units x _ 4 w Hux) as (y & Hy & Huy & Hby & _);
    try lia; try assumption.
  rewrite Hx. cbn [bind ok]. rewrite Hy. cbn [bind ok].
  rewrite (to_int_num y _ Huy). split; [reflexivity|].
  unfold braille_count, scale. pose proof (pow2_pos 1074 ltac:(lia)).
  split.
  - apply Z.div_pos; lia.
  - apply Z.div_le_upper_bound; lia.
Qed.

Lemma braille_ok w p : progress_ok p -> width_ok w ->
  exists partial,
    braille w p
    = ok (let bar := PyStr.mul [0x287f%N] (braille_count p w / 4) ++ partial in
          bar ++ PyStr.mul SP (w - len bar), PyStr.mul SP w)
    /\ (braille_count p w mod 4 = 0 -> partial = []).
Proof.
  intros Hp Hw. unfold braille.
  destruct (braille_count_ok p w Hp Hw) as [Hc _].
  destruct (mul_int p w) as [e | x]; [discriminate|]. cbn [bind ok] in Hc |- *.
  destruct (mul_int x 4) as [e | y]; [discriminate|]. cbn [bind ok] in Hc |- *.
  rewrite Hc. cbn [bind ok].
  change (char_at braille_chars 7) with (@ok str [0x287f%N]). cbn [bind ok].
  set (k := braille_count p w).
  destruct (Z.eqb_spec (k mod 4) 0) as [Hz | Hnz].
  - exists []. cbn [bind ok]. split; reflexivity.
  - pose proof (Z.mod_pos_bound k 4 ltac:(lia)) as Hb.
    destruct (char_at_in_range braille_chars (k mod 4)) as (c & Hcc & _).
    { change (len braille_chars) with 9. lia. }
    exists [c]. rewrite Hcc. cbn [bind ok]. split; [reflexivity | lia].
Qed.

Lemma glyph_by_progress_ok chars p : progress_ok p -> glyphs_ok chars ->
  exists g, glyph_by_progress chars p = ok g /\
            index chars (Z.min (filled_of p (len chars)) (len chars - 1)) = ok g.
Proof.
  intros Hp [Hl0 Hl]. unfold glyph_by_progress.
  pose proof (mul_to_int p (len chars) Hp ltac:(lia)) as Hm.
  pose proof (filled_of_bounds p (len chars) Hp ltac:(lia)) as Hb.
  destruct (mul_int p (len chars)) as [e | x]; [discriminate|].
  cbn [bind ok] in Hm |- *. rewrite Hm. cbn [bind ok].
  destruct (index_in_range chars (Z.min (filled_of p (len chars)) (len chars - 1)))
    as (g & Hg & _); [lia|].
  exists g. split; assumption.
Qed.

Lemma cells_loop (body : Z -> str -> result str) g k w acc :
  (forall i s, 0 <= i < w -> body i s = ok (s ++ cell g k i)) ->
  for_each (range w) body acc = ok (acc ++ cells g k w).
Proof.
  intros H. unfold cells. rewrite <- for_each_append.
  apply for_each_ext. intros i s Hi. apply H. now apply range_in.
Qed.

Lemma vertical_ok th w p : progress_ok p -> width_ok w ->
  glyphs_ok (VERTICAL th) ->
  exists g, glyph_by_progress (VERTICAL th) p = ok g /\
    vertical th w p = ok (cells g (filled_of p w) w, PyStr.mul SP w).
Proof.
  intros Hp [Hw0 Hw] Hg.
  assert (Hw53 : 0 <= w < 2 ^ 53).
  { change (2 ^ 50) with 1125899906842624 in Hw.
    change (2 ^ 53) with 9007199254740992. lia. }
  destruct (glyph_by_progress_ok _ p Hp Hg) as (g & Hgp & _).
  exists g. split; [assumption|]. unfold vertical.
  rewrite filled_count_ok by assumption. cbn [bind ok].
  rewrite (cells_loop _ g (filled_of p w) w []).
  - reflexivity.
  - intros i s Hi. unfold cell. destruct (i <? filled_of p w); [|reflexivity].
    rewrite Hgp. reflexivity.
Qed.

Lemma gradient_ok w p : progress_ok p -> width_ok w ->
  gradient_bar w p = ok (cells (shade p) (filled_of p w) w, PyStr.mul SP w).
Proof.
  intros Hp [Hw0 Hw].
  assert (Hw53 : 0 <= w < 2 ^ 53).
  { change (2 ^ 50) with 1125899906842624 in Hw.
    change (2 ^ 53) with 9007199254740992. lia. }
  unfold gradient_bar. rewrite filled_count_ok by assumption. cbn [bind ok].
  rewrite (cells_loop _ (shade p) (filled_of p w) w []).
  - reflexivity.
  - intros i s Hi. unfold cell. destruct (i <? filled_of p w); reflexivity.
Qed.

Lemma progressive_ok w chars p : progress_ok p -> width_ok w ->
  glyphs_ok chars ->
  exists g first,
    glyph_by_progress chars p = ok g /\ index chars 0 = ok first /\
    progressive w chars p
    = ok (PyStr.mul g (filled_of p w), PyStr.mul first (w - filled_of p w)).
Proof.
  intros Hp [Hw0 Hw] Hg.
  assert (Hw53 : 0 <= w < 2 ^ 53).
  { change (2 ^ 50) with 1125899906842624 in Hw.
    change (2 ^ 53) with 9007199254740992. lia. }
  destruct (glyph_by_progress_ok _ p Hp Hg) as (g & Hgp & _).
  destruct (index_in_range chars 0) as (first & Hf & _); [destruct Hg; lia|].
  exists g, first. split; [assumption|]. split; [assumption|].
  unfold progressive. rewrite filled_count_ok by assumption. cbn [bind ok].
  rewrite (for_each_ext _ _ (fun _ acc => ok (acc ++ g))).
  - rewrite (for_each_append (range (filled_of p w)) (fun _ => g) []).
    cbn [bind ok app]. rewrite Hf. cbn [bind ok].
    rewrite concat_map_const, len_range, mul_max. reflexivity.
  - intros i s _. rewrite Hgp. reflexivity.
Qed.

Lemma bounce_ok i p : progress_ok p ->
  exists s, index bounce_frames (filled_of p 8) = ok s /\
            bounce i p = ok (s, [], (i + 1) mod 9).
Proof.
  intros Hp. unfold bounce. change (len bounce_frames) with 9.
  change (9 - 1) with 8.
  assert (H8 : 0 <= 8 < 2 ^ 53) by (split; [lia | reflexivity]).
  pose proof (mul_to_int p 8 Hp H8) as Hm.
  pose proof (filled_of_bounds p 8 Hp H8) as Hb.
  destruct (mul_int p 8) as [e | x]; [discriminate|].
  cbn [bind ok] in Hm |- *. rewrite Hm. cbn [bind ok].
  destruct (index_in_range bounce_frames (filled_of p 8)) as (s & Hs & _).
  { change (len bounce_frames) with 9. lia. }
  exists s. rewrite Hs. split; reflexivity.
Qed.

Lemma spin_ok w so frames i p : 0 < len frames ->
  exists s, index frames (i mod len frames) = ok s /\
            spin w so frames i p
            = ok (if so then PyStr.mul s (w / 3) else s, [],
                  (i + 1) mod len frames).
Proof.
  intros Hl. unfold spin.
  destruct (index_in_range frames (i mod len frames)) as (s & Hs & _).
  { apply Z.mod_pos_bound. lia. }
  exists s. rewrite Hs. split; reflexivity.
Qed.

(** On the progress values [draw] passes, every drawing function returns. *)
Lemma draw_func_total th w so r i p :
  progress_ok p -> width_ok w -> renderer_ok th r ->
  exists filled_part empty_part i',
    draw_func th w so r i p = ok (filled_part, empty_part, i').
Proof.
  intros Hp Hw Hr.
  assert (Hw53 : 0 <= w < 2 ^ 53).
  { destruct Hw as [Hw0 Hw]. change (2 ^ 50) with 1125899906842624 in Hw.
    change (2 ^ 53) with 9007199254740992. lia. }
  destruct r; cbn [draw_func renderer_ok] in *;
    try (rewrite threshold_ok by assumption; cbn; eauto).
  - destruct (block_ok w p Hp Hw) as (partial & -> & _). cbn. eauto.
  - destruct (braille_ok w p Hp Hw) as (partial & -> & _). cbn. eauto.
  - destruct (vertical_ok th w p Hp Hw Hr) as (g & _ & ->). cbn. eauto.
  - destruct (progressive_ok w _ p Hp Hw Hr) as (g & f & _ & _ & ->). cbn. eauto.
  - destruct (progressive_ok w _ p Hp Hw Hr) as (g & f & _ & _ & ->). cbn. eauto.
  - rewrite gradient_ok by assumption. cbn. eauto.
  - destruct (bounce_ok i p Hp) as (s & _ & ->). eauto.
  - destruct (spin_ok w so spin_arrow_frames i p) as (s & _ & ->);
      [reflexivity | eauto].
  - destruct (spin_ok w so frames i p Hr) as (s & _ & ->). eauto.
  - destruct (progressive_ok w _ p Hp Hw Hr) as (g & f & _ & _ & ->). cbn. eauto.
Qed.

End DrawFacts.

(** ** A call of [draw] *)

Module DrawCall.
Import F64 F64Spec F64Facts Progress ProgressSpec.
Import StrFacts NumFacts DrawFacts.

Lemma ltb_leb a b : Num.ltb a b = true -> Num.leb a b = true.
Proof. unfold Num.ltb, Num.leb. destruct (Num.compare a b) as [[]|]; congruence. Qed.

Lemma clamp_cases progress :
  (clamp progress = PyFloat progress /\
   Num.leb (PyInt 0) (PyFloat progress) = true /\
   Num.leb (PyFloat progress) (PyInt 1) = true)
  \/ clamp progress = PyInt 0 \/ clamp progress = PyInt 1.
Proof.
  unfold clamp.
  destruct (Num.leb (PyInt 0) (PyFloat progress)) eqn:H0;
    destruct (Num.leb (PyFloat progress) (PyInt 1)) eqn:H1; cbn [andb];
    try (left; repeat split; reflexivity); right.
  - unfold Num.min. destruct (Num.ltb (PyFloat progress) (PyInt 1)) eqn:Hlt.
    + apply ltb_leb in Hlt. congruence.
    + right. reflexivity.
  - unfold Num.min. destruct (Num.ltb (PyFloat progress) (PyInt 1)) eqn:Hlt.
    + unfold Num.max, Num.gtb.
      destruct (Num.ltb (PyInt 0) (PyFloat progress)) eqn:Hgt.
      * apply ltb_leb in Hgt. congruence.
      * left. reflexivity.
    + right. reflexivity.
  - unfold Num.min. destruct (Num.ltb (PyFloat progress) (PyInt 1)) eqn:Hlt.
    + apply ltb_leb in Hlt. congruence.
    + right. reflexivity.
Qed.

Lemma clamp_ok progress : valid progress = true -> progress_ok (clamp progress).
Proof.
  intros Hv. destruct (clamp_cases progress) as [(-> & H0 & H1) | [-> | ->]].
  - apply progress_float. repeat split; assumption.
  - apply progress_int0.
  - apply progress_int1.
Qed.

Lemma percent_ok p : progress_ok p -> exists s, Fmt.percent p = ok s.
Proof.
  intros [| | f _]; unfold Fmt.percent; cbn [Num.to_float].
  - change (of_int 0) with (@ok float (small 0)). cbn [bind ok]. eauto.
  - change (of_int 1) with (@ok float (small 1)). cbn [bind ok]. eauto.
  - cbn [bind ok]. eauto.
Qed.

Lemma percentage_part_ok show p : progress_ok p ->
  exists l, percentage_part show p = ok l.
Proof.
  intros Hp. unfold percentage_part. destruct show; [|eauto].
  destruct (percent_ok p Hp) as (s & ->). cbn [bind ok]. eauto.
Qed.

Lemma truediv_60 a : truediv a (small 60) = ok (div a (small 60)).
Proof. reflexivity. Qed.

Lemma truediv_3600 a : truediv a (small 3600) = ok (div a (small 3600)).
Proof. reflexivity. Qed.

Lemma truediv_1000 a : truediv a (small 1000) = ok (div a (small 1000)).
Proof. reflexivity. Qed.

Lemma truediv_1000000 a :
  truediv a (small 1000000) = ok (div a (small 1000000)).
Proof. reflexivity. Qed.

Lemma eta_part_ok show eta : exists l, eta_part show eta = ok l.
Proof.
  unfold eta_part. destruct show; [|eauto]. destruct eta as [eta |]; [|eauto].
  destruct (Num.gtb _ _); [|eauto].
  destruct (float_lt_int eta 60); [eauto|].
  destruct (float_lt_int eta 3600).
  - rewrite truediv_60. cbn [bind ok]. eauto.
  - rewrite truediv_3600. cbn [bind ok]. eauto.
Qed.

Lemma speed_part_ok show speed computed :
  exists l, speed_part show speed computed = ok l.
Proof.
  unfold speed_part. destruct show; [|eauto].
  destruct (match speed with Some s => Some s | None => computed end) as [v |];
    [|eauto].
  destruct (float_lt_int v 1000); [eauto|].
  destruct (float_lt_int v 1000000).
  - rewrite truediv_1000. cbn [bind ok]. eauto.
  - rewrite truediv_1000000. cbn [bind ok]. eauto.
Qed.

Lemma truediv_nonzero a b : nonzero b -> truediv a b = ok (div a b).
Proof. unfold truediv. destruct b; cbn; try reflexivity. intros []. Qed.

Lemma of_int_some n f : of_Z n = Some f -> of_int n = ok f.
Proof. unfold of_int. now intros ->. Qed.

Lemma compute_speed_ok ss st now current speed :
  tracker_ok st now current ->
  exists cs st', compute_speed ss st now current speed = ok (cs, st')
                 /\ cursor st' = cursor st.
Proof.
  intros (Vn & Vl & Hc). unfold compute_speed.
  destruct ss; [|eauto]. destruct speed; [eauto|].
  destruct current as [c |]; [|eauto].
  destruct (Num.gtb (PyFloat now) (PyFloat (last_update st))) eqn:Hgt; [|eauto].
  destruct (of_Z (c - last_value st)) as [delta |] eqn:Hd;
    [|exfalso; now apply (Hc c)].
  rewrite (of_int_some _ _ Hd). cbn [bind ok].
  rewrite truediv_nonzero by (now apply sub_nonzero). cbn [bind ok].
  eexists _, _. split; reflexivity.
Qed.

(** Every call of [draw] returns, and writes one line and, at full
    progress, a line terminator. *)
Lemma draw_returns th d st now progress current eta speed :
  renderer_ok th (d_renderer d) -> width_ok (width (d_options d)) ->
  valid progress = true -> tracker_ok st now current ->
  exists st' filled_part empty_part i' computed_speed st1 pct etas spd,
    draw_func th (width (d_options d)) (spinner_only (d_options d))
              (d_renderer d) (cursor st) (clamp progress)
      = ok (filled_part, empty_part, i') /\
    compute_speed (show_speed (d_options d)) st now current speed
      = ok (computed_speed, st1) /\
    percentage_part (show_percentage (d_options d)) (clamp progress)
      = ok pct /\
    eta_part (show_eta (d_options d)) eta = ok etas /\
    speed_part (show_speed (d_options d)) speed computed_speed = ok spd /\
    st' = {| cursor := i';
             last_update := last_update st1;
             last_value := last_value st1 |} /\
    draw th d st now progress current eta speed
      = ok (st',
            ([CR] ++ (let '(a, b) := d_color_handler d filled_part empty_part
                                       (clamp progress) in a ++ b)
                  ++ extra (pct
                            ++ counter_part (show_counter (d_options d)) current
                            ++ etas ++ spd))
            :: (if Num.geb (clamp progress) (PyInt 1) then [[NL]] else [])).
Proof.
  intros Hr Hw Hv Ht. unfold draw.
  destruct (compute_speed_ok (show_speed (d_options d)) st now current speed Ht)
    as (cs & st1 & Hcs & Hcur).
  rewrite Hcs. cbn [bind ok]. rewrite Hcur.
  pose proof (clamp_ok progress Hv) as Hp.
  destruct (draw_func_total th (width (d_options d)) (spinner_only (d_options d))
              (d_renderer d) (cursor st) (clamp progress) Hp Hw Hr)
    as (fp & ep & i' & Hdf).
  rewrite Hdf. cbn [bind ok].
  destruct (d_color_handler d fp ep (clamp progress)) as [a b] eqn:Hcol.
  destruct (percentage_part_ok (show_percentage (d_options d)) _ Hp)
    as (pct & Hpct).
  rewrite Hpct. cbn [bind ok].
  destruct (eta_part_ok (show_eta (d_options d)) eta) as (etas & Heta).
  rewrite Heta. cbn [bind ok].
  destruct (speed_part_ok (show_speed (d_options d)) speed cs) as (spd & Hspd).
  rewrite Hspd. cbn [bind ok].
  exists {| cursor := i'; last_update := last_update st1;
            last_value := last_value st1 |}, fp, ep, i', cs, st1, pct, etas, spd.
  repeat (split; [first [assumption | reflexivity] |]). rewrite Hcol.
  destruct (Num.geb (clamp progress) (PyInt 1)); reflexivity.
Qed.

(** What the factory returns. *)
Lemma select_renderer_ok py th style style_name filled_char empty_char chars r :
  select py style style_name filled_char empty_char chars = ok r ->
  themes_ok th -> len chars < 2 ^ 53 -> renderer_ok th r.
Proof.
  intros Hs (Hv & Hc & Hq) Hl. unfold select in Hs.
  repeat match type of Hs with
         | (if ?b then _ else _) = _ => destruct b eqn:?
         end;
    try discriminate Hs; unfold ok in Hs; injection Hs as <-;
    cbn [renderer_ok]; try exact I; try assumption; try reflexivity.
  split; [|assumption]. pose proof (len_nonneg chars).
  match goal with H : (len chars =? 0) = false |- _ =>
    apply Z.eqb_neq in H; lia end.
Qed.

Lemma factory_returns py ct th style o start d st :
  get_progress_drawer py ct style o start = ok (d, st) ->
  themes_ok th -> style_ok style ->
  renderer_ok th (d_renderer d) /\ d_options d = o /\
  d_color_handler d = select_color ct (color_theme o) /\
  st = {| cursor := 0; last_update := start; last_value := 0 |}.
Proof.
  intros Hg Hth Hst. unfold get_progress_drawer in Hg.
  destruct (resolve_name py style (custom_chars o))
    as [e | [[[style_name filled_char] empty_char] chars]] eqn:Hres;
    [discriminate|].
  cbn [bind] in Hg.
  destruct (select py style style_name filled_char empty_char chars)
    as [e | r] eqn:Hsel; [discriminate|].
  cbn [bind ok] in Hg. unfold ok in Hg. injection Hg as <- <-.
  cbn [d_renderer d_options d_color_handler].
  split; [|repeat split].
  apply (select_renderer_ok py th style style_name filled_char empty_char chars);
    [assumption | assumption |].
  unfold resolve_name in Hres.
  destruct (custom_chars o) as [[f e] |].
  - unfold ok in Hres. injection Hres as <- <- <- <-. reflexivity.
  - destruct style as [s | l].
    + unfold ok in Hres. injection Hres as <- <- <- <-. reflexivity.
    + destruct (len l <? 1); [discriminate|].
      unfold ok in Hres. injection Hres as <- <- <- <-. exact Hst.
Qed.

(** A float below 0 is below 1. *)
Lemma below_zero_below_one f :
  Zcompare 0 f = Some Gt -> Zcompare 1 f = Some Gt.
Proof.
  destruct f as [s | s | | s m e]; try discriminate.
  - destruct s; [reflexivity | discriminate].
  - unfold Zcompare.
    set (v := cond_Zopp s (Z.pos m)).
    pose proof (Z.pow_pos_nonneg 2 e ltac:(lia)) as He.
    pose proof (Z.pow_pos_nonneg 2 (- e) ltac:(lia)) as Hne.
    destruct (0 <=? e) eqn:E; intros H;
      [apply Z.leb_le in E | apply Z.leb_gt in E].
    + assert (H' : v * 2 ^ e < 0).
      { apply Z.compare_gt_iff. congruence. }
      f_equal. apply Z.compare_gt_iff. specialize (He E). nia.
    + assert (H' : v < 0 * 2 ^ (- e)).
      { apply Z.compare_gt_iff. congruence. }
      f_equal. apply Z.compare_gt_iff. specialize (Hne ltac:(lia)). nia.
Qed.

Lemma compare_defined f :
  Zcompare 0 f = None <-> Zcompare 1 f = None.
Proof.
  destruct f as [s | s | | s m e]; unfold Zcompare;
    try destruct (0 <=? e); split; congruence.
Qed.

Lemma clamp_by_cases (f : float) :
  clamp f = (if Num.ltb (PyFloat f) (PyInt 0) then PyInt 0
             else if Num.leb (PyFloat f) (PyInt 1) then PyFloat f
             else PyInt 1).
Proof.
  pose proof (below_zero_below_one f) as Ht.
  pose proof (compare_defined f) as Hn.
  unfold clamp, Num.max, Num.min, Num.gtb, Num.ltb, Num.leb.
  cbn [Num.compare].
  destruct (Zcompare 0 f) as [c0|] eqn:H0;
    destruct (Zcompare 1 f) as [c1|] eqn:H1;
    try (destruct Hn as [Hn1 Hn2]; first [specialize (Hn1 eq_refl)
                                         | specialize (Hn2 eq_refl)];
         discriminate);
    [destruct c0; destruct c1; try (specialize (Ht eq_refl); discriminate)|];
    repeat (cbn [Num.compare option_map CompOpp andb Z.compare];
            rewrite ?H0, ?H1);
    reflexivity.
Qed.

(** The clamped progress is at least 1 exactly when the progress is not
    below 1. *)
Lemma clamp_complete (f : float) :
  Num.geb (clamp f) (PyInt 1) = negb (Num.ltb (PyFloat f) (PyInt 1)).
Proof.
  rewrite clamp_by_cases.
  pose proof (below_zero_below_one f) as Ht.
  pose proof (compare_defined f) as Hn.
  unfold Num.geb, Num.ltb, Num.leb. cbn [Num.compare].
  destruct (Zcompare 0 f) as [c0|] eqn:H0;
    destruct (Zcompare 1 f) as [c1|] eqn:H1;
    try (destruct Hn as [Hn1 Hn2]; first [specialize (Hn1 eq_refl)
                                         | specialize (Hn2 eq_refl)];
         discriminate);
    [destruct c0; destruct c1; try (specialize (Ht eq_refl); discriminate)|];
    repeat (cbn [Num.compare option_map CompOpp negb Z.compare];
            rewrite ?H0, ?H1);
    reflexivity.
Qed.

(** A progress above 1 is clamped to 1. *)
Lemma above_one_clamped (f : float) :
  Num.gtb (PyFloat f) (PyInt 1) = true -> clamp f = PyInt 1.
Proof.
  rewrite clamp_by_cases.
  pose proof (below_zero_below_one f) as Ht.
  unfold Num.gtb, Num.ltb, Num.leb. cbn [Num.compare].
  destruct (Zcompare 0 f) as [c0|] eqn:H0;
    destruct (Zcompare 1 f) as [c1|] eqn:H1;
    try destruct c0; try destruct c1;
    cbn [option_map CompOpp]; intros H;
    try discriminate H; try reflexivity;
    specialize (Ht eq_refl); discriminate Ht.
Qed.

(** A progress of [[0, 1]] is not below 0. *)
Lemma in_range_kept (f : float) :
  Num.leb (PyInt 0) (PyFloat f) = true ->
  Num.ltb (PyFloat f) (PyInt 0) = false.
Proof.
  unfold Num.leb, Num.ltb. cbn [Num.compare].
  destruct (Zcompare 0 f) as [[] |]; cbn [option_map CompOpp];
    congruence.
Qed.

End DrawCall.

(** ** The multi-bar display *)

Module MultiFacts.
Import F64 F64Spec F64Facts Progress ProgressSpec.
Import StrFacts NumFacts DrawFacts DrawCall.

Lemma count_app c a b : PyStr.count c (a ++ b) = PyStr.count c a + PyStr.count c b.
Proof. unfold PyStr.count, len. rewrite filter_app, length_app. apply Nat2Z.inj_add. Qed.

Lemma lines_of_app a b : lines_of (a ++ b) = lines_of a + lines_of b.
Proof. unfold lines_of, written. rewrite concat_app. apply count_app. Qed.

Lemma lines_of_cons s out : lines_of (s :: out) = PyStr.count NL s + lines_of out.
Proof. unfold lines_of, written. cbn [concat]. apply count_app. Qed.

Lemma lines_of_nil : lines_of [] = 0.
Proof. reflexivity. Qed.

Lemma count_cons_ne c x s : N.eqb c x = false ->
  PyStr.count c (x :: s) = PyStr.count c s.
Proof. intros H. unfold PyStr.count. cbn [filter]. now rewrite H. Qed.

Lemma lit_cons a s : lit (String a s) = N_of_ascii a :: lit s.
Proof. reflexivity. Qed.

Lemma count_digits_empty u :
  PyStr.count NL (lit (NilEmpty.string_of_uint u)) = 0.
Proof.
  induction u; cbn [NilEmpty.string_of_uint]; [reflexivity | ..];
    rewrite lit_cons, count_cons_ne by reflexivity; assumption.
Qed.

Lemma count_digits u : PyStr.count NL (lit (NilZero.string_of_uint u)) = 0.
Proof.
  unfold NilZero.string_of_uint. destruct u; try apply count_digits_empty.
  reflexivity.
Qed.

Lemma count_int_str n : PyStr.count NL (Fmt.int_str n) = 0.
Proof.
  unfold Fmt.int_str, of_nonneg. rewrite count_app, count_digits.
  destruct (n <? 0); reflexivity.
Qed.

Lemma count_prefix label i :
  PyStr.count NL (prefix_of label i) = PyStr.count NL label.
Proof.
  unfold prefix_of. destruct label as [| c rest].
  - rewrite !count_app, count_int_str. reflexivity.
  - rewrite count_app. change (PyStr.count NL (lit ": ")) with 0. lia.
Qed.

Lemma count_cursor_up n : PyStr.count NL (cursor_up n) = 0.
Proof.
  unfold cursor_up. rewrite !count_app, count_int_str. reflexivity.
Qed.

(** One call of [draw] on a plain drawer. *)
Lemma draw_plain th d st now progress :
  plain_drawer th d -> valid progress = true ->
  exists filled_part empty_part i',
    draw_func th (width (d_options d)) (spinner_only (d_options d))
              (d_renderer d) (cursor st) (clamp progress)
      = ok (filled_part, empty_part, i') /\
    draw th d st now progress None None None
      = ok ({| cursor := i'; last_update := last_update st;
               last_value := last_value st |},
            ([CR] ++ colored_bar d filled_part empty_part (clamp progress))
            :: (if Num.geb (clamp progress) (PyInt 1) then [[NL]] else [])).
Proof.
  intros (Hr & Hw & Hp & Hc & He & Hs) Hv. unfold draw.
  rewrite Hp, Hc, He, Hs. cbn [compute_speed bind ok].
  destruct (draw_func_total th (width (d_options d)) (spinner_only (d_options d))
              (d_renderer d) (cursor st) (clamp progress)
              (clamp_ok progress Hv) Hw Hr) as (fp & ep & i' & Hdf).
  rewrite Hdf. cbn [bind ok].
  exists fp, ep, i'. split; [reflexivity|].
  unfold colored_bar.
  destruct (d_color_handler d fp ep (clamp progress)) as [a b].
  cbn [percentage_part counter_part eta_part speed_part bind ok app extra].
  rewrite app_nil_r.
  destruct (Num.geb (clamp progress) (PyInt 1)); reflexivity.
Qed.

Section UpdateLoop.

Variable th : Themes.
Variable now progress : float.
Variable label : str.
Variable index : Z.

Lemma rows_skip xs ds out : ~ In index xs ->
  exists out',
    for_each xs (row th now progress label index) (ds, out) = ok (ds, out') /\
    lines_of out' = lines_of out + len xs.
Proof.
  revert out. induction xs as [| x xs IH]; intros out Hn.
  - exists out. split; [reflexivity|]. cbn. lia.
  - cbn [for_each row].
    destruct (Z.eqb_spec x index) as [-> | Hne]; [exfalso; apply Hn; now left|].
    cbn [bind ok].
    destruct (IH (out ++ [[NL]])) as (out' & Hf & Hl).
    { intros Hin. apply Hn. now right. }
    exists out'. split; [assumption|].
    rewrite Hl, lines_of_app. unfold len. cbn [length].
    change (lines_of [[NL]]) with 1. lia.
Qed.

Lemma rows_hit xs ds out d st st' w :
  NoDup xs -> In index xs ->
  PyStr.index ds index = ok (d, st) ->
  draw th d st now progress None None None = ok (st', w) ->
  exists out',
    for_each xs (row th now progress label index) (ds, out)
      = ok (set_nth ds (Z.to_nat index) (d, st'), out') /\
    lines_of out'
      = lines_of out + len xs + PyStr.count NL label + lines_of w.
Proof.
  intros Hnd Hin Hi Hd. revert out.
  induction xs as [| x xs IH]; intros out; [destruct Hin|].
  apply NoDup_cons_iff in Hnd as [Hx Hnd].
  cbn [for_each row].
  destruct (Z.eqb_spec x index) as [-> | Hne].
  - rewrite Hi. cbn [bind ok]. rewrite Hd. cbn [bind ok].
    destruct (rows_skip xs (set_nth ds (Z.to_nat index) (d, st'))
                (out ++ [prefix_of label index] ++ w ++ [[NL]]) Hx)
      as (out' & Hf & Hl).
    exists out'. split; [assumption|].
    rewrite Hl, !lines_of_app, lines_of_cons, lines_of_nil, count_prefix.
    unfold len. cbn [length]. change (lines_of [[NL]]) with 1. lia.
  - cbn [bind ok]. destruct Hin as [Heq | Hin]; [congruence|].
    destruct (IH Hnd Hin (out ++ [[NL]])) as (out' & Hf & Hl).
    exists out'. split; [assumption|].
    rewrite Hl, lines_of_app. unfold len. cbn [length].
    change (lines_of [[NL]]) with 1. lia.
Qed.

End UpdateLoop.

Lemma range_NoDup n : NoDup (range n).
Proof.
  unfold range. apply Injective_map_NoDup; [|apply seq_NoDup].
  intros a b H. lia.
Qed.

Lemma length_set_nth {A} (xs : list A) i a :
  length (set_nth xs i a) = length xs.
Proof.
  revert i. induction xs as [| x xs IH]; intros [| i]; cbn; auto.
Qed.

Lemma Forall_set_nth {A} (P : A -> Prop) (xs : list A) i a :
  Forall P xs -> P a -> Forall P (set_nth xs i a).
Proof.
  intros H Ha. revert i. induction H as [| x xs Hx Hxs IH]; intros [| i]; cbn;
    constructor; auto.
Qed.

Lemma update_rows th m now index progress label :
  update th m now index progress label
  = if (index <? 0) || (count m <=? index) then
      raise (IndexError (out_of_range_message index (count m)))
    else
      '(ds, out) <- for_each (range (count m)) (row th now progress label index)
                      (drawers m,
                       if lines_written m =? 0 then []
                       else [cursor_up (lines_written m)]) ;;
      ok ({| count := count m; drawers := ds; lines_written := count m |},
          out).
Proof. reflexivity. Qed.

Lemma init_loop py ct style o (clock : Z -> float) (xs : list Z) acc ds :
  for_each xs
    (fun k acc => d <- get_progress_drawer py ct style o (clock k) ;;
                  ok (acc ++ [d])) acc = ok ds ->
  exists l, ds = acc ++ l /\ length l = length xs /\
            Forall (fun x => exists t,
                        get_progress_drawer py ct style o t = ok x) l.
Proof.
  revert acc. induction xs as [| x xs IH]; intros acc H; cbn [for_each] in H.
  - exists []. unfold ok in H. injection H as <-.
    rewrite app_nil_r. repeat split. constructor.
  - destruct (get_progress_drawer py ct style o (clock x)) as [e | d] eqn:Hg;
      [discriminate|].
    cbn [bind ok] in H. destruct (IH _ H) as (l & -> & Hl & Hf).
    exists (d :: l). rewrite <- app_assoc. repeat split.
    + cbn [length]. now rewrite Hl.
    + constructor; [now exists (clock x) | assumption].
Qed.

(** What [__init__] leaves. *)
Lemma init_ok py ct th n style w clock m :
  init py ct n style w clock = ok m ->
  themes_ok th -> style_ok style -> width_ok w ->
  multi_ok th m /\ count m = n /\ lines_written m = 0.
Proof.
  intros Hi Hth Hst Hw. unfold init in Hi.
  match type of Hi with
  | bind (for_each _ ?body _) _ = _ =>
      destruct (for_each (range n) body []) as [e | ds] eqn:Hf;
        [discriminate|]
  end.
  cbn [bind ok] in Hi. unfold ok in Hi. injection Hi as <-.
  cbn [count lines_written drawers]. split; [|split; reflexivity].
  apply init_loop in Hf as (l & -> & Hl & Hfa). cbn [app].
  split.
  - cbn [drawers]. unfold len. rewrite Hl. fold (len (range n)).
    apply len_range.
  - cbn [drawers]. apply Forall_forall. intros [d st] Hin.
    rewrite Forall_forall in Hfa. destruct (Hfa _ Hin) as (t & Hg).
    destruct (factory_returns py ct th style _ t d st Hg Hth Hst)
      as (Hr & Ho & _ & _).
    cbn [fst]. unfold plain_drawer. rewrite Ho.
    repeat split; try assumption; apply Hw.
Qed.

Lemma count_cr_bar bar : PyStr.count NL ([CR] ++ bar) = PyStr.count NL bar.
Proof. rewrite count_app. reflexivity. Qed.

(** [update] in general: the range error outside the rows; inside, the
    call returns, keeps the invariant, sets [lines_written] to the number
    of rows, and writes one line terminator per row, those of the label
    and of the bar, and one more when the clamped progress is at least
    1. *)
Lemma update_lines th m now index progress label :
  multi_ok th m -> valid progress = true ->
  (index < 0 \/ count m <= index ->
   update th m now index progress label
   = raise (IndexError (out_of_range_message index (count m))))
  /\
  (0 <= index < count m ->
   exists d st filled_part empty_part i' m' out,
     PyStr.index (drawers m) index = ok (d, st) /\
     draw_func th (width (d_options d)) (spinner_only (d_options d))
               (d_renderer d) (cursor st) (clamp progress)
       = ok (filled_part, empty_part, i') /\
     update th m now index progress label = ok (m', out) /\
     multi_ok th m' /\ count m' = count m /\ lines_written m' = count m /\
     lines_of out
     = count m + PyStr.count NL label
       + PyStr.count NL (colored_bar d filled_part empty_part (clamp progress))
       + (if Num.geb (clamp progress) (PyInt 1) then 1 else 0)).
Proof.
  intros [Hlen Hall] Hv. rewrite update_rows. split.
  - intros H.
    destruct (Z.ltb_spec index 0); [reflexivity|].
    destruct (Z.leb_spec (count m) index); [reflexivity | lia].
  - intros Hi.
    destruct (Z.ltb_spec index 0); [lia|].
    destruct (Z.leb_spec (count m) index); [lia|]. cbn [orb].
    destruct (index_in_range (drawers m) index) as ([d st] & Hidx & Hnth);
      [lia|].
    assert (Hpd : plain_drawer th d).
    { rewrite Forall_forall in Hall.
      apply (Hall (d, st)). eapply nth_error_In. exact Hnth. }
    destruct (draw_plain th d st now progress Hpd Hv)
      as (fp & ep & i' & Hdf & Hd).
    set (st' := {| cursor := i'; last_update := last_update st;
                   last_value := last_value st |}) in *.
    set (up := if lines_written m =? 0 then []
               else [cursor_up (lines_written m)]).
    destruct (rows_hit th now progress label index (range (count m))
                (drawers m) up d st st' _
                (range_NoDup _) (proj2 (range_in _ _) Hi) Hidx Hd)
      as (out & Hf & Hl).
    exists d, st, fp, ep, i'.
    exists {| count := count m;
              drawers := set_nth (drawers m) (Z.to_nat index) (d, st');
              lines_written := count m |}, out.
    split; [assumption|]. split; [assumption|].
    rewrite Hf. cbn [bind ok]. split; [reflexivity|].
    split; [|split; [reflexivity|split; [reflexivity|]]].
    + split; cbn [drawers count].
      * unfold len. rewrite length_set_nth. exact Hlen.
      * apply Forall_set_nth; assumption.
    + rewrite Hl, len_range, lines_of_cons, count_cr_bar.
      assert (Hup : lines_of up = 0).
      { unfold up. destruct (lines_written m =? 0); [reflexivity|].
        rewrite lines_of_cons, count_cursor_up. reflexivity. }
      rewrite Hup.
      destruct (Num.geb (clamp progress) (PyInt 1)).
      * change (lines_of [[NL]]) with 1. lia.
      * cbn [lines_of written concat PyStr.count filter len length Z.of_nat].
        lia.
Qed.

End MultiFacts.

(** * The claims of the specification *)

(** ** Styles: C1, C4 *)

Module StyleClaims.
Import F64 F64Spec F64Facts Progress ProgressSpec.
Import StrFacts NumFacts DrawFacts DrawCall.

(** C1. The block and braille styles do not follow the sub-glyph formula
    of the specification. At progress 0.5 and width 10 the block style
    computes [int(0.5 * (10 * 7 - 1)) = 34] units, that is five full
    glyphs and the partial glyph of index 4, where the formula gives
    [floor(0.5 * 10 * 6) = 30] units, five full glyphs and no partial one.
    The braille style counts four units per cell and repeats the glyph of
    index 7, where the formula counts eight and repeats the last glyph. *)
Theorem block_half_width_10 :
  block 10 (PyFloat (dec 1 2))
    = ok (PyStr.mul [0x2589%N] 5 ++ [0x258b%N] ++ PyStr.mul SP 4,
          PyStr.mul SP 10)
  /\ sub_glyph_spec block_chars 10 (PyFloat (dec 1 2))
    = ok (PyStr.mul [0x2589%N] 5 ++ PyStr.mul SP 5, PyStr.mul SP 10)
  /\ braille 10 (PyFloat (dec 1 2))
    = ok (PyStr.mul [0x287f%N] 5 ++ PyStr.mul SP 5, PyStr.mul SP 10)
  /\ sub_glyph_spec braille_chars 10 (PyFloat (dec 1 2))
    = ok (PyStr.mul [0x28ff%N] 5 ++ PyStr.mul SP 5, PyStr.mul SP 10).
Proof. repeat split; vm_compute; reflexivity. Qed.

Lemma in_unit_units p : in_unit p ->
  exists u, units p = Some u /\ progress_units (PyFloat p) = u /\
            0 <= u <= 2 ^ 1074.
Proof.
  intros (Hv & H0 & H1). destruct (in_range_units p Hv H0 H1) as (u & Hu & Hb).
  exists u. cbn [progress_units]. rewrite Hu. auto.
Qed.

Lemma filled_of_mono p q n : in_unit p -> in_unit q -> 0 <= n ->
  Num.leb (PyFloat p) (PyFloat q) = true ->
  filled_of (PyFloat p) n <= filled_of (PyFloat q) n.
Proof.
  intros Hp Hq Hn Hle.
  destruct (in_unit_units p Hp) as (u & Hu & Hpu & Hbu).
  destruct (in_unit_units q Hq) as (v & Hv & Hqv & Hbv).
  unfold filled_of. rewrite Hpu, Hqv. apply scale_mono; [|assumption].
  destruct Hp as (Vp & _). destruct Hq as (Vq & _).
  pose proof (leb_units p q u v Vp Vq Hu Hv Hle). lia.
Qed.

Lemma threshold_draw th w so r i fc ec p :
  threshold_glyphs r = Some (fc, ec) ->
  draw_func th w so r i p = stateless (threshold w fc ec p) i.
Proof. destruct r; cbn; intros [= <- <-]; reflexivity. Qed.

Lemma fixed_glyphs_single r fc ec :
  threshold_glyphs r = Some (fc, ec) ->
  (forall f e, r <> Custom f e) -> len fc = 1 /\ len ec = 1.
Proof.
  destruct r; cbn; intros [= <- <-] Hn; try (split; reflexivity).
  exfalso. now apply (Hn filled_char empty_char).
Qed.

(** C4, amended. For every threshold-fill style, every width and all
    progress values [p] and [q] of [[0, 1]]: the filled segment is the
    filled string repeated [k = int(p * width)] times and the empty segment the
    empty string repeated [width - k] times, with [0 <= k <= width]; the
    two lengths add up to the width when both strings are one character
    long, which holds for the seven predefined styles; and when [p <= q]
    the filled segment for [p] is not longer than the one for [q]. *)
Theorem threshold_fill_lengths th w so r i fc ec p q :
  threshold_glyphs r = Some (fc, ec) ->
  width_ok w -> in_unit p -> in_unit q ->
  exists kp kq,
    filled_count w (PyFloat p) = ok kp /\
    filled_count w (PyFloat q) = ok kq /\
    0 <= kp <= w /\ 0 <= kq <= w /\
    draw_func th w so r i (PyFloat p)
      = ok (PyStr.mul fc kp, PyStr.mul ec (w - kp), i) /\
    draw_func th w so r i (PyFloat q)
      = ok (PyStr.mul fc kq, PyStr.mul ec (w - kq), i) /\
    len (PyStr.mul fc kp) = len fc * kp /\
    len (PyStr.mul ec (w - kp)) = len ec * (w - kp) /\
    ((forall f e, r <> Custom f e) \/ (len fc = 1 /\ len ec = 1) ->
     len (PyStr.mul fc kp) + len (PyStr.mul ec (w - kp)) = w) /\
    (Num.leb (PyFloat p) (PyFloat q) = true ->
     len (PyStr.mul fc kp) <= len (PyStr.mul fc kq)).
Proof.
  intros Hr [Hw0 Hw] Hp Hq.
  assert (Hw53 : 0 <= w < 2 ^ 53).
  { change (2 ^ 50) with 1125899906842624 in Hw.
    change (2 ^ 53) with 9007199254740992. lia. }
  pose proof (filled_of_bounds _ w (progress_float p Hp) Hw53) as Hkp.
  pose proof (filled_of_bounds _ w (progress_float q Hq) Hw53) as Hkq.
  exists (filled_of (PyFloat p) w), (filled_of (PyFloat q) w).
  rewrite !(threshold_draw th w so r i fc ec) by assumption.
  rewrite !threshold_ok by (try apply progress_float; assumption).
  rewrite !filled_count_ok by (try apply progress_float; assumption).
  rewrite !len_mul.
  rewrite !Z.max_r by lia.
  repeat (split; [first [assumption | reflexivity] |]). split.
  - intros Hone.
    assert (Hl : len fc = 1 /\ len ec = 1).
    { destruct Hone as [Hn | Hl]; [now apply (fixed_glyphs_single r) | assumption]. }
    destruct Hl as [-> ->]. lia.
  - intros Hle. pose proof (filled_of_mono p q w Hp Hq ltac:(lia) Hle).
    pose proof (len_nonneg fc). nia.
Qed.

Lemma in_unit_half : in_unit (dec 1 2).
Proof. repeat split. Qed.

Lemma in_unit_three_quarters : in_unit (dec 3 4).
Proof. repeat split. Qed.

Lemma threshold_fill_lengths_witness :
  threshold_glyphs Classic = Some (BLACK_SQUARE, WHITE_SQUARE) /\
  width_ok 10 /\ in_unit (dec 1 2) /\ in_unit (dec 3 4) /\
  exists kp kq,
    draw_func sample_themes 10 false Classic 0 (PyFloat (dec 1 2))
      = ok (PyStr.mul BLACK_SQUARE kp, PyStr.mul WHITE_SQUARE (10 - kp), 0) /\
    len (PyStr.mul BLACK_SQUARE kp) + len (PyStr.mul WHITE_SQUARE (10 - kp))
      = 10 /\
    len (PyStr.mul BLACK_SQUARE kp) <= len (PyStr.mul BLACK_SQUARE kq).
Proof.
  split; [reflexivity|]. split; [split; reflexivity|].
  split; [exact in_unit_half|]. split; [exact in_unit_three_quarters|].
  destruct (threshold_fill_lengths sample_themes 10 false Classic 0
              BLACK_SQUARE WHITE_SQUARE (dec 1 2) (dec 3 4)
              eq_refl (conj eq_refl eq_refl)
              in_unit_half in_unit_three_quarters)
    as (kp & kq & _ & _ & _ & _ & Hp & _ & _ & _ & Hsum & Hmono).
  exists kp, kq. split; [exact Hp|]. split.
  - apply Hsum. left. intros f e. discriminate.
  - apply Hmono. reflexivity.
Defined.

(** C4 as stated fails for a custom pair of longer strings: with
    [custom_chars = ("ab", "-")], width 10 and progress 0.5 the filled
    segment has 10 characters and the empty one 5. *)
Lemma custom_two_char_lengths :
  draw_func sample_themes 10 false (Custom (lit "ab") (lit "-")) 0
            (PyFloat (dec 1 2))
    = ok (PyStr.mul (lit "ab") 5, PyStr.mul (lit "-") 5, 0)
  /\ len (PyStr.mul (lit "ab") 5) + len (PyStr.mul (lit "-") 5) <> 10.
Proof. split; [vm_compute; reflexivity | vm_compute; discriminate]. Qed.

End StyleClaims.

(** ** Empty and full bars: C2 *)

Module EndpointClaims.
Import F64 F64Spec F64Facts Progress ProgressSpec.
Import StrFacts NumFacts DrawFacts DrawCall.

Lemma zero_progress_ok p : zero_progress p ->
  progress_ok p /\ progress_units p = 0.
Proof.
  intros [-> | [s ->]].
  - split; [constructor | reflexivity].
  - split; [|reflexivity]. apply progress_float. repeat split.
Qed.

Lemma one_progress_ok p : one_progress p ->
  progress_ok p /\ progress_units p = 2 ^ 1074.
Proof.
  intros [-> | ->].
  - split; [constructor | apply Z.mul_1_l].
  - split; [apply progress_float; repeat split|].
    cbn [progress_units]. rewrite small_units by (split; [lia | reflexivity]).
    apply Z.mul_1_l.
Qed.

Lemma filled_of_zero p n : zero_progress p -> filled_of p n = 0.
Proof.
  intros Hp. unfold filled_of. destruct (zero_progress_ok p Hp) as [_ ->].
  apply scale_0.
Qed.

Lemma filled_of_one p n : one_progress p -> 0 <= n < 2 ^ 53 ->
  filled_of p n = n.
Proof.
  intros Hp Hn. unfold filled_of. destruct (one_progress_ok p Hp) as [_ ->].
  now apply scale_1.
Qed.

Lemma cells_all g k w : w <= k -> cells g k w = PyStr.mul g w.
Proof.
  intros Hk. unfold cells.
  rewrite (map_ext_in _ (fun _ => g)).
  - rewrite concat_map_const, len_range. apply mul_max.
  - intros i Hi. apply range_in in Hi. unfold cell.
    destruct (Z.ltb_spec i k); [reflexivity | lia].
Qed.

Lemma cells_none g k w : k <= 0 -> cells g k w = PyStr.mul SP w.
Proof.
  intros Hk. unfold cells.
  rewrite (map_ext_in _ (fun _ => SP)).
  - rewrite concat_map_const, len_range. apply mul_max.
  - intros i Hi. apply range_in in Hi. unfold cell.
    destruct (Z.ltb_spec i k); [lia | reflexivity].
Qed.

Lemma index_first chars first : index chars 0 = ok first ->
  first_of chars = first.
Proof.
  unfold index, first_of. cbn [Z.ltb Z.compare Z.to_nat].
  destruct ((0 <=? 0) && (0 <? len chars)); [|discriminate].
  destruct chars as [| c rest]; cbn; [discriminate|].
  unfold ok. congruence.
Qed.

Lemma index_last_of (chars : list str) g : 0 < len chars ->
  index chars (len chars - 1) = ok g -> last_of chars = g.
Proof.
  intros Hl Hi. unfold last_of.
  destruct (index_in_range chars (len chars - 1) ltac:(lia)) as (a & Ha & Hn).
  assert (a = g) by (unfold ok in *; congruence). subst a.
  now apply nth_error_nth.
Qed.

Lemma glyph_at_one chars p : one_progress p -> glyphs_ok chars ->
  glyph_by_progress chars p = ok (last_of chars).
Proof.
  intros Hp Hg. destruct (one_progress_ok p Hp) as [Hok _].
  destruct (glyph_by_progress_ok chars p Hok Hg) as (g & -> & Hi).
  rewrite filled_of_one in Hi by (destruct Hg; auto; lia).
  rewrite Z.min_r in Hi by lia.
  f_equal. symmetry. apply index_last_of; [destruct Hg; lia | assumption].
Qed.

Lemma shade_one p : one_progress p -> shade p = DARK_SHADE.
Proof. intros [-> | ->]; reflexivity. Qed.

Lemma braille_count_zero p w : zero_progress p -> braille_count p w = 0.
Proof.
  intros Hp. unfold braille_count. destruct (zero_progress_ok p Hp) as [_ ->].
  rewrite Z.mul_0_l, rnd_0 by lia. apply scale_0.
Qed.

Lemma braille_count_one p w : one_progress p -> width_ok w ->
  braille_count p w = 4 * w.
Proof.
  intros Hp [Hw0 Hw]. unfold braille_count.
  destruct (one_progress_ok p Hp) as [_ ->].
  change (2 ^ 50) with 1125899906842624 in Hw.
  assert (H53 : 2 ^ 53 = 9007199254740992) by reflexivity.
  replace (2 ^ 1074 * (w * 2 ^ 1074)) with (w * 2 ^ 2148)
    by (rewrite pow_2148; ring).
  rewrite rnd_exact by lia.
  replace (2148 - (2148 - 1074)) with 1074 by lia.
  unfold scale.
  replace (w * 2 ^ 1074 * (4 * 2 ^ 1074)) with (4 * w * 2 ^ 2148)
    by (rewrite pow_2148; ring).
  rewrite rnd_exact by lia.
  replace (2148 - (2148 - 1074)) with 1074 by lia.
  apply Z.div_mul. pose proof (pow2_pos 1074). lia.
Qed.

Lemma mul_0 s : PyStr.mul s 0 = [].
Proof. reflexivity. Qed.

Lemma len_single_mul c w : 0 <= w -> len (PyStr.mul [c] w) = w.
Proof. intros Hw. rewrite len_mul. change (len [c]) with 1. lia. Qed.

(** C2, amended. For every non-animated style and every width: at
    progress 0 the empty segment is the empty glyph repeated [width]
    times and the filled segment is empty, or [width] spaces for block,
    braille, vertical and gradient; at progress 1 the filled segment is
    the style's filled glyph repeated [width] times and the empty segment
    is empty, or [width] spaces for braille, vertical and gradient. The
    block style at progress 1 is left out. *)
Theorem zero_and_full_bars th w so r i p :
  width_ok w -> renderer_ok th r -> animated r = false ->
  (zero_progress p ->
   draw_func th w so r i p
   = ok (if padded r then PyStr.mul SP w else [],
         PyStr.mul (empty_glyph th r) w, i))
  /\
  (one_progress p -> r <> Block ->
   draw_func th w so r i p
   = ok (PyStr.mul (full_glyph th r) w,
         if padded r then PyStr.mul SP w else [], i)).
Proof.
  intros Hw Hr Ha.
  assert (Hw53 : 0 <= w < 2 ^ 53).
  { destruct Hw as [Hw0 Hw]. change (2 ^ 50) with 1125899906842624 in Hw.
    change (2 ^ 53) with 9007199254740992. lia. }
  split.
  - intros Hp. destruct (zero_progress_ok p Hp) as [Hok _].
    pose proof (filled_of_zero p w Hp) as Hk.
    destruct r; try discriminate Ha;
      cbn [draw_func padded empty_glyph threshold_glyphs renderer_ok] in *;
      try (rewrite threshold_ok by assumption; rewrite Hk, Z.sub_0_r;
           reflexivity).
    + destruct (block_ok w p Hok Hw) as (partial & -> & Hpart).
      rewrite filled_of_zero in * by assumption.
      rewrite (Hpart eq_refl). cbn [stateless bind ok].
      change (0 / 6) with 0. rewrite mul_0. cbn [app len length Z.of_nat].
      rewrite Z.sub_0_r. reflexivity.
    + destruct (braille_ok w p Hok Hw) as (partial & -> & Hpart).
      rewrite braille_count_zero in * by assumption.
      rewrite (Hpart eq_refl). cbn [stateless bind ok].
      change (0 / 4) with 0. rewrite mul_0. cbn [app len length Z.of_nat].
      rewrite Z.sub_0_r. reflexivity.
    + destruct (vertical_ok th w p Hok Hw Hr) as (g & _ & ->).
      rewrite Hk, cells_none by lia. reflexivity.
    + destruct (progressive_ok w _ p Hok Hw Hr) as (g & f & _ & Hf & ->).
      rewrite Hk, Z.sub_0_r, (index_first _ _ Hf). reflexivity.
    + destruct (progressive_ok w _ p Hok Hw Hr) as (g & f & _ & Hf & ->).
      rewrite Hk, Z.sub_0_r, (index_first _ _ Hf). reflexivity.
    + rewrite gradient_ok by assumption. rewrite Hk, cells_none by lia.
      reflexivity.
    + destruct (progressive_ok w _ p Hok Hw Hr) as (g & f & _ & Hf & ->).
      rewrite Hk, Z.sub_0_r, (index_first _ _ Hf). reflexivity.
  - intros Hp Hnb. destruct (one_progress_ok p Hp) as [Hok _].
    pose proof (filled_of_one p w Hp Hw53) as Hk.
    destruct r; try discriminate Ha; try (now destruct Hnb);
      cbn [draw_func padded full_glyph threshold_glyphs renderer_ok] in *;
      try (rewrite threshold_ok by assumption; rewrite Hk, Z.sub_diag;
           reflexivity).
    + destruct (braille_ok w p Hok Hw) as (partial & -> & Hpart).
      rewrite braille_count_one in * by assumption.
      assert (Hmod : (4 * w) mod 4 = 0)
        by (rewrite Z.mul_comm; apply Z.mod_mul; lia).
      rewrite (Hpart Hmod).
      cbn [stateless bind ok].
      replace (4 * w / 4) with w by (rewrite Z.mul_comm, Z.div_mul; lia).
      rewrite app_nil_r, len_single_mul, Z.sub_diag, mul_0, app_nil_r by lia.
      reflexivity.
    + destruct (vertical_ok th w p Hok Hw Hr) as (g & Hg & ->).
      rewrite glyph_at_one in Hg by assumption. unfold ok in Hg; injection Hg as <-.
      rewrite Hk, cells_all by lia. reflexivity.
    + destruct (progressive_ok w _ p Hok Hw Hr) as (g & f & Hg & _ & ->).
      rewrite glyph_at_one in Hg by assumption. unfold ok in Hg; injection Hg as <-.
      rewrite Hk, Z.sub_diag. reflexivity.
    + destruct (progressive_ok w _ p Hok Hw Hr) as (g & f & Hg & _ & ->).
      rewrite glyph_at_one in Hg by assumption. unfold ok in Hg; injection Hg as <-.
      rewrite Hk, Z.sub_diag. reflexivity.
    + rewrite gradient_ok by assumption.
      rewrite Hk, cells_all, shade_one by (assumption || lia). reflexivity.
    + destruct (progressive_ok w _ p Hok Hw Hr) as (g & f & Hg & _ & ->).
      rewrite glyph_at_one in Hg by assumption. unfold ok in Hg; injection Hg as <-.
      rewrite Hk, Z.sub_diag. reflexivity.
Qed.

Lemma zero_and_full_bars_witness :
  width_ok 10 /\ renderer_ok sample_themes Circle /\
  animated Circle = false /\
  zero_progress (PyInt 0) /\ one_progress (PyFloat (small 1)) /\
  Circle <> Block /\
  draw_func sample_themes 10 false Circle 0 (PyInt 0)
    = ok ([], PyStr.mul [0x25cb%N] 10, 0) /\
  draw_func sample_themes 10 false Circle 0 (PyFloat (small 1))
    = ok (PyStr.mul [0x25cf%N] 10, [], 0).
Proof.
  assert (Hw : width_ok 10) by (split; reflexivity).
  assert (Hr : renderer_ok sample_themes Circle) by (split; reflexivity).
  assert (Hz : zero_progress (PyInt 0)) by (left; reflexivity).
  assert (Ho : one_progress (PyFloat (small 1))) by (right; reflexivity).
  assert (Hb : Circle <> Block) by discriminate.
  refine (conj Hw (conj Hr (conj eq_refl (conj Hz (conj Ho (conj Hb
            (conj _ _))))))).
  - exact (proj1 (zero_and_full_bars sample_themes 10 false Circle 0
                    (PyInt 0) Hw Hr eq_refl) Hz).
  - exact (proj2 (zero_and_full_bars sample_themes 10 false Circle 0
                    (PyFloat (small 1)) Hw Hr eq_refl) Ho Hb).
Defined.

(** C2 as stated fails at progress 1 for the styles that pad: the bar of
    the gradient style of width 2 is two filled glyphs followed by two
    spaces of the empty segment. *)
Lemma gradient_full_bar_is_padded :
  draw_func sample_themes 2 false Gradient 0 (PyFloat (small 1))
    = ok (PyStr.mul DARK_SHADE 2, PyStr.mul SP 2, 0)
  /\ PyStr.mul DARK_SHADE 2 ++ PyStr.mul SP 2 <> PyStr.mul DARK_SHADE 2
  /\ len (PyStr.mul DARK_SHADE 2 ++ PyStr.mul SP 2) = 4.
Proof. repeat split; try (vm_compute; reflexivity). vm_compute. discriminate. Qed.

(** The block style at progress 1: [int(1 * (2 * 7 - 1)) = 13] units give
    two full glyphs and a partial one, a filled segment longer than the
    width. *)
Lemma block_full_bar_overflows :
  block 2 (PyFloat (small 1))
    = ok (PyStr.mul [0x2589%N] 2 ++ [0x258f%N], PyStr.mul SP 2).
Proof. vm_compute. reflexivity. Qed.


End EndpointClaims.

(** ** Animated styles: C3 *)

Module AnimatedClaims.
Import F64 F64Spec F64Facts Progress ProgressSpec.
Import StrFacts NumFacts DrawFacts DrawCall.

Lemma valid_units_mantissa p u : valid p = true -> units p = Some u ->
  exists m j, u = m * 2 ^ j /\ 0 <= m < 2 ^ 53 /\ 0 <= j.
Proof.
  intros Hv Hu. destruct p as [s | s | | s m e]; try discriminate.
  - exists 0, 0. cbn in Hu. injection Hu as <-.
    split; [reflexivity | split; [split; [lia | reflexivity] | lia]].
  - unfold units in Hu. destruct s; [discriminate|].
    destruct (Z.leb_spec (-1074) e); [|discriminate].
    apply valid_exponent in Hv as [Hc _]. unfold fexp64 in Hc.
    exists (Zpos m), (e + 1074). split; [congruence|]. split; [|lia].
    split; [lia|]. pose proof (digits2_bounds m) as [_ Hhi].
    apply Z.lt_le_trans with (2 ^ Zpos (digits2_pos m)); [assumption|].
    apply Z.pow_le_mono_r; lia.
Qed.

(** Multiplying by 8 is exact: [int(p * 8) = floor(8 p)]. *)
Lemma filled_of_8 p : in_unit p -> filled_of (PyFloat p) 8 = floor_mul p 8.
Proof.
  intros (Hv & H0 & H1).
  destruct (in_range_units p Hv H0 H1) as (u & Hu & Hb).
  destruct (valid_units_mantissa p u Hv Hu) as (m & j & -> & Hm & Hj).
  unfold filled_of, floor_mul, scale. cbn [progress_units]. rewrite Hu.
  f_equal.
  replace (m * 2 ^ j * (8 * 2 ^ 1074)) with (m * 2 ^ (j + 1077)).
  - rewrite rnd_exact by lia.
    replace (j + 1077 - (2148 - 1074)) with (j + 3) by lia.
    rewrite Z.pow_add_r by lia. change (2 ^ 3) with 8. ring.
  - replace (j + 1077) with (j + (3 + 1074)) by lia.
    rewrite !Z.pow_add_r by lia. change (2 ^ 3) with 8. ring.
Qed.

(** C3, amended. Every call of an animated style moves its cursor one
    step forward modulo the number of frames. spin_simple, spin_dots and
    also spin_arrow emit the frame under the cursor, whatever the
    progress, repeated [width // 3] times when [spinner_only] is set.
    Only bounce selects its frame from the progress: the frame of index
    [floor(progress * (frameCount - 1))]. *)
Theorem animated_frames th w so i :
  (forall r frames, cycling_frames r = Some frames -> 0 < len frames ->
     exists s,
       index frames (i mod len frames) = ok s /\
       forall p, draw_func th w so r i p
                 = ok (if so then PyStr.mul s (w / 3) else s, [],
                       (i + 1) mod len frames))
  /\
  (forall p, in_unit p ->
     exists s,
       index bounce_frames (floor_mul p (len bounce_frames - 1)) = ok s /\
       draw_func th w so Bounce i (PyFloat p)
       = ok (s, [], (i + 1) mod len bounce_frames)).
Proof.
  split.
  - intros r frames Hr Hl.
    destruct (index_in_range frames (i mod len frames)) as (s & Hs & _).
    { apply Z.mod_pos_bound. lia. }
    exists s. split; [assumption|]. intros p.
    destruct r; try discriminate Hr; cbn in Hr; injection Hr as <-;
      cbn [draw_func]; unfold spin; rewrite Hs; reflexivity.
  - intros p Hp. change (len bounce_frames) with 9. change (9 - 1) with 8.
    destruct (bounce_ok i (PyFloat p) (progress_float p Hp)) as (s & Hs & Hb).
    exists s. rewrite <- filled_of_8 by assumption. split; assumption.
Qed.

(** C3 as stated fails for spin_arrow: at progress 1 a fresh spin_arrow
    drawer emits its first frame, not the frame of index
    [floor(1 * (8 - 1)) = 7]. *)
Lemma spin_arrow_ignores_progress :
  draw_func sample_themes 30 false SpinArrow 0 (PyFloat (small 1))
    = ok ([0x2190%N], [], 1)
  /\ index spin_arrow_frames
           (floor_mul (small 1) (len spin_arrow_frames - 1))
     = ok [0x2199%N]
  /\ [0x2190%N] <> [0x2199%N].
Proof. repeat split; try (vm_compute; reflexivity). discriminate. Qed.

Lemma animated_frames_witness :
  cycling_frames (Spin spin_simple_frames) = Some spin_simple_frames /\
  0 < len spin_simple_frames /\ in_unit (dec 1 2) /\
  (exists s,
     index spin_simple_frames (5 mod len spin_simple_frames) = ok s /\
     forall p, draw_func sample_themes 30 false (Spin spin_simple_frames) 5 p
               = ok (s, [], (5 + 1) mod len spin_simple_frames)) /\
  (exists s,
     index bounce_frames (floor_mul (dec 1 2) (len bounce_frames - 1)) = ok s /\
     draw_func sample_themes 30 false Bounce 5 (PyFloat (dec 1 2))
     = ok (s, [], (5 + 1) mod len bounce_frames)).
Proof.
  split; [reflexivity|]. split; [reflexivity|].
  assert (Hh : in_unit (dec 1 2)) by (repeat split).
  split; [exact Hh|].
  destruct (animated_frames sample_themes 30 false 5) as [Hc Hb].
  split.
  - exact (Hc (Spin spin_simple_frames) spin_simple_frames eq_refl eq_refl).
  - exact (Hb (dec 1 2) Hh).
Defined.

End AnimatedClaims.

(** ** A call of [draw]: C5, C9, C10 *)

Module DrawClaims.
Import F64 F64Spec F64Facts Progress ProgressSpec ProgressRuns.
Import StrFacts NumFacts DrawFacts DrawCall.

(** C5. For every float [progress], NaN and the infinities included, a
    call of [draw] on a drawer of the factory returns. The progress is
    clamped to [[0, 1]]: a value below 0 becomes 0, a value of [[0, 1]] is
    kept as it is, and every other value becomes 1. The call writes one
    string: the carriage return, the bar, which is the two segments of the
    drawing function at the clamped progress after the color handler, and
    the suffix, which is empty when there are no parts and otherwise the
    separator followed by the parts joined by two spaces; the parts are
    the percentage, the counter, the ETA and the speed, in this order. It
    then writes one line terminator exactly when the clamped progress is
    at least 1, that is when the progress is not below 1: a call with a
    progress below 1 writes the line and nothing else. *)
Theorem draw_writes_one_line py ct th style o start d st0 st now
        progress current eta speed :
  get_progress_drawer py ct style o start = ok (d, st0) ->
  themes_ok th -> style_ok style -> width_ok (width o) ->
  valid progress = true -> tracker_ok st now current ->
  let clamped :=
    if Num.ltb (PyFloat progress) (PyInt 0) then PyInt 0
    else if Num.leb (PyFloat progress) (PyInt 1) then PyFloat progress
    else PyInt 1 in
  clamp progress = clamped /\
  progress_ok clamped /\
  Num.leb (PyInt 0) clamped = true /\ Num.leb clamped (PyInt 1) = true /\
  (Num.ltb (PyFloat progress) (PyInt 0) = true -> clamped = PyInt 0) /\
  (Num.leb (PyInt 0) (PyFloat progress) = true ->
   Num.leb (PyFloat progress) (PyInt 1) = true ->
   clamped = PyFloat progress) /\
  (Num.gtb (PyFloat progress) (PyInt 1) = true -> clamped = PyInt 1) /\
  Num.geb clamped (PyInt 1) = negb (Num.ltb (PyFloat progress) (PyInt 1)) /\
  exists st' filled_part empty_part i' computed_speed st1 pct etas spd,
    draw_func th (width o) (spinner_only o) (d_renderer d) (cursor st)
              clamped
      = ok (filled_part, empty_part, i') /\
    compute_speed (show_speed o) st now current speed
      = ok (computed_speed, st1) /\
    percentage_part (show_percentage o) clamped = ok pct /\
    eta_part (show_eta o) eta = ok etas /\
    speed_part (show_speed o) speed computed_speed = ok spd /\
    st' = {| cursor := i';
             last_update := last_update st1;
             last_value := last_value st1 |} /\
    let bar :=
      let '(filled_part, empty_part) :=
        d_color_handler d filled_part empty_part clamped in
      filled_part ++ empty_part in
    let parts := pct ++ counter_part (show_counter o) current ++ etas ++ spd in
    let suffix :=
      match parts with
      | [] => []
      | _ :: _ => SEPARATOR ++ join (lit "  ") parts
      end in
    draw th d st now progress current eta speed
    = ok (st',
          ([CR] ++ bar ++ suffix)
          :: (if Num.ltb (PyFloat progress) (PyInt 1) then [] else [[NL]])).
Proof.
  intros Hg Hth Hst Hw Hv Ht. cbv zeta.
  rewrite <- !(clamp_by_cases progress).
  destruct (factory_returns py ct th style o start d st0 Hg Hth Hst)
    as (Hr & Ho & _ & _).
  split; [reflexivity|]. split; [now apply clamp_ok|].
  split.
  { destruct (clamp_cases progress) as [(-> & H0 & _) | [-> | ->]];
      [assumption | reflexivity | reflexivity]. }
  split.
  { destruct (clamp_cases progress) as [(-> & _ & H1) | [-> | ->]];
      [assumption | reflexivity | reflexivity]. }
  split.
  { intros H0. rewrite clamp_by_cases, H0. reflexivity. }
  split.
  { intros H0 H1. rewrite clamp_by_cases, (in_range_kept _ H0), H1.
    reflexivity. }
  split; [apply above_one_clamped|].
  split; [apply clamp_complete|].
  rewrite <- Ho in Hw |- *.
  destruct (draw_returns th d st now progress current eta speed Hr Hw Hv Ht)
    as (st' & fp & ep & i' & cs & st1 & pct & etas & spd
        & Hdf & Hcs & Hpct & Heta & Hspd & Hst' & Hd).
  exists st', fp, ep, i', cs, st1, pct, etas, spd.
  repeat (split; [assumption|]).
  rewrite Hd, clamp_complete. unfold extra.
  destruct (pct ++ counter_part (show_counter (d_options d)) current
                ++ etas ++ spd);
    destruct (Num.ltb (PyFloat progress) (PyInt 1)); reflexivity.
Qed.

(** A drawer of the classic style with the default options, created at
    time 0: 2.5 is clamped to 1 and the line terminator is written; 0.5
    is kept and no line terminator is written. *)
Lemma draw_writes_one_line_witness :
  get_progress_drawer sample_py sample_colors (StyleName (lit "classic"))
                      defaults (small 0)
  = ok ({| d_renderer := Classic; d_options := defaults;
           d_color_handler := no_color |},
        {| cursor := 0; last_update := small 0; last_value := 0 |})
  /\ themes_ok sample_themes /\ style_ok (StyleName (lit "classic"))
  /\ width_ok (width defaults) /\ valid (dec 5 2) = true
  /\ valid (dec 1 2) = true
  /\ tracker_ok {| cursor := 0; last_update := small 0; last_value := 0 |}
                (small 1) None
  /\ clamp (dec 5 2) = PyInt 1
  /\ clamp (dec 1 2) = PyFloat (dec 1 2)
  /\ (exists st',
        draw sample_themes
             {| d_renderer := Classic; d_options := defaults;
                d_color_handler := no_color |}
             {| cursor := 0; last_update := small 0; last_value := 0 |}
             (small 1) (dec 5 2) None None None
        = ok (st',
              [[CR] ++ PyStr.mul BLACK_SQUARE 30 ++ SEPARATOR ++ lit "100.0%";
               [NL]]))
  /\ (exists st',
        draw sample_themes
             {| d_renderer := Classic; d_options := defaults;
                d_color_handler := no_color |}
             {| cursor := 0; last_update := small 0; last_value := 0 |}
             (small 1) (dec 1 2) None None None
        = ok (st',
              [[CR] ++ PyStr.mul BLACK_SQUARE 15 ++ PyStr.mul WHITE_SQUARE 15
                    ++ SEPARATOR ++ lit "50.0%"])).
Proof.
  assert (Hg : get_progress_drawer sample_py sample_colors
                 (StyleName (lit "classic")) defaults (small 0)
               = ok ({| d_renderer := Classic; d_options := defaults;
                        d_color_handler := no_color |},
                     {| cursor := 0; last_update := small 0;
                        last_value := 0 |})) by reflexivity.
  assert (Hth : themes_ok sample_themes) by (repeat split).
  assert (Hst : style_ok (StyleName (lit "classic"))) by exact I.
  assert (Hw : width_ok (width defaults)) by (split; reflexivity).
  assert (Hv : valid (dec 5 2) = true) by reflexivity.
  assert (Hv2 : valid (dec 1 2) = true) by reflexivity.
  assert (Ht : tracker_ok {| cursor := 0; last_update := small 0;
                             last_value := 0 |} (small 1) None).
  { split; [reflexivity|]. split; [reflexivity|]. intros c Hc. discriminate. }
  pose proof (draw_writes_one_line sample_py sample_colors sample_themes
                (StyleName (lit "classic")) defaults (small 0) _ _ _
                (small 1) (dec 5 2) None None None Hg Hth Hst Hw Hv Ht) as H1.
  pose proof (draw_writes_one_line sample_py sample_colors sample_themes
                (StyleName (lit "classic")) defaults (small 0) _ _ _
                (small 1) (dec 1 2) None None None Hg Hth Hst Hw Hv2 Ht) as H2.
  cbv zeta in H1, H2.
  destruct H1 as (Hc1 & _ & _ & _ & _ & _ & _ & _ & st1' & fp1 & ep1 & i1 & cs1 & s1
                  & pct1 & etas1 & spd1
                  & Hdf1 & _ & Hpct1 & Heta1 & Hspd1 & _ & Hd1).
  destruct H2 as (Hc2 & _ & _ & _ & _ & _ & _ & _ & st2' & fp2 & ep2 & i2 & cs2 & s2
                  & pct2 & etas2 & spd2
                  & Hdf2 & _ & Hpct2 & Heta2 & Hspd2 & _ & Hd2).
  refine (conj Hg (conj Hth (conj Hst (conj Hw (conj Hv (conj Hv2 (conj Ht
            (conj Hc1 (conj Hc2 (conj _ _)))))))))).
  - exists st1'. rewrite Hd1. clear Hd1.
    vm_compute in Hdf1, Hpct1, Heta1, Hspd1.
    injection Hdf1 as <- <- <-. injection Hpct1 as <-. injection Heta1 as <-.
    injection Hspd1 as <-. vm_compute. reflexivity.
  - exists st2'. rewrite Hd2. clear Hd2.
    vm_compute in Hdf2, Hpct2, Heta2, Hspd2.
    injection Hdf2 as <- <- <-. injection Hpct2 as <-. injection Heta2 as <-.
    injection Hspd2 as <-. vm_compute. reflexivity.
Defined.

(** What the call above writes, and what a call at progress 0.5 writes. *)
Example draw_classic_runs :
  let d := {| d_renderer := Classic;
              d_options := {| width := 4; show_percentage := true;
                              show_counter := true; show_eta := false;
                              show_speed := false; spinner_only := false;
                              color_theme := ColorNone;
                              custom_chars := None |};
              d_color_handler := no_color |} in
  let st := {| cursor := 0; last_update := small 0; last_value := 0 |} in
  draw sample_themes d st (small 1) (dec 1 2) (Some 1234) None None
    = ok (st, [[CR] ++ PyStr.mul BLACK_SQUARE 2 ++ PyStr.mul WHITE_SQUARE 2
                    ++ SEPARATOR ++ lit "50.0%" ++ lit "  " ++ lit "1,234"])
  /\ draw sample_themes d st (small 1) (dec 5 2) None None None
    = ok (st, [[CR] ++ PyStr.mul BLACK_SQUARE 4 ++ SEPARATOR ++ lit "100.0%";
               [NL]])
  /\ draw sample_themes d st (small 1) S754_nan None None None
    = ok (st, [[CR] ++ PyStr.mul BLACK_SQUARE 4 ++ SEPARATOR ++ lit "100.0%";
               [NL]])
  /\ draw sample_themes d st (small 1) (dec (-1) 2) None None None
    = ok (st, [[CR] ++ PyStr.mul WHITE_SQUARE 4 ++ SEPARATOR ++ lit " 0.0%"]).
Proof. repeat split; vm_compute; reflexivity. Qed.

Lemma not_lt_iff_ge eta n :
  Num.gtb (PyFloat eta) (PyInt 0) = true ->
  (Num.ltb (PyFloat eta) (PyInt n) = false <->
   Num.leb (PyInt n) (PyFloat eta) = true).
Proof.
  unfold Num.gtb, Num.ltb, Num.leb, Num.compare. intros Hgt.
  destruct (Zcompare 0 eta) as [c0 |] eqn:H0; [|discriminate]. clear Hgt.
  destruct (Zcompare n eta) as [[] |] eqn:Hn; cbn; try (split; congruence).
  destruct eta as [s | s | | s m e]; cbn in H0, Hn; try discriminate.
  destruct (0 <=? e); discriminate.
Qed.

(** The ETA part, by cases on [eta]. *)
Lemma eta_part_value (eta : float) :
  eta_part true (Some eta)
  = ok (if Num.gtb (PyFloat eta) (PyInt 0) then
          [lit "ETA " ++
           (if Num.ltb (PyFloat eta) (PyInt 60) then Fmt.f1 eta ++ lit "s"
            else if Num.ltb (PyFloat eta) (PyInt 3600) then
              Fmt.f1 (div eta (small 60)) ++ lit "m"
            else Fmt.f1 (div eta (small 3600)) ++ lit "h")]
        else []).
Proof.
  unfold eta_part, float_lt_int.
  destruct (Num.gtb (PyFloat eta) (PyInt 0)); [|reflexivity].
  destruct (Num.ltb (PyFloat eta) (PyInt 60)); [reflexivity|].
  destruct (Num.ltb (PyFloat eta) (PyInt 3600)).
  - rewrite truediv_60. reflexivity.
  - rewrite truediv_3600. reflexivity.
Qed.

(** C9. On a drawer of the factory with [show_eta] set, a call of [draw]
    with an [eta] writes the carriage return, the bar and the suffix of
    the parts, in which the ETA part stands between the counter and the
    speed exactly when [eta > 0]; the part is ["ETA "] followed by the
    seconds with one decimal and ["s"] below 60, by the minutes and ["m"]
    from 60 and below 3600, and by the hours and ["h"] from 3600 on. When
    no other part is shown, the suffix is the separator and the ETA part
    if [eta > 0] and is empty otherwise. The calls with
    [eta] 59.9, 60.0, 3599.9 and 3600.0 write ["ETA 59.9s"], ["ETA 1.0m"],
    ["ETA 60.0m"] and ["ETA 1.0h"]. *)
Theorem eta_format :
  (forall py ct th style o start d st0 st now progress current
          (eta : float) speed,
     get_progress_drawer py ct style o start = ok (d, st0) ->
     themes_ok th -> style_ok style -> width_ok (width o) ->
     valid progress = true -> tracker_ok st now current ->
     show_eta o = true ->
     let text :=
       lit "ETA " ++
       (if Num.ltb (PyFloat eta) (PyInt 60) then Fmt.f1 eta ++ lit "s"
        else if Num.ltb (PyFloat eta) (PyInt 3600) then
          Fmt.f1 (div eta (small 60)) ++ lit "m"
        else Fmt.f1 (div eta (small 3600)) ++ lit "h") in
     let etas := if Num.gtb (PyFloat eta) (PyInt 0) then [text] else [] in
     (exists st' filled_part empty_part i' computed_speed st1 pct spd,
        draw_func th (width o) (spinner_only o) (d_renderer d) (cursor st)
                  (clamp progress)
          = ok (filled_part, empty_part, i') /\
        compute_speed (show_speed o) st now current speed
          = ok (computed_speed, st1) /\
        percentage_part (show_percentage o) (clamp progress) = ok pct /\
        speed_part (show_speed o) speed computed_speed = ok spd /\
        draw th d st now progress current (Some eta) speed
        = ok (st',
              ([CR] ++ colored_bar d filled_part empty_part (clamp progress)
                    ++ extra (pct ++ counter_part (show_counter o) current
                                  ++ etas ++ spd))
              :: (if Num.geb (clamp progress) (PyInt 1) then [[NL]] else []))
        /\
        (show_percentage o = false -> show_counter o = false ->
         show_speed o = false ->
         draw th d st now progress current (Some eta) speed
         = ok (st',
               ([CR] ++ colored_bar d filled_part empty_part (clamp progress)
                     ++ (if Num.gtb (PyFloat eta) (PyInt 0)
                         then SEPARATOR ++ text else []))
               :: (if Num.geb (clamp progress) (PyInt 1)
                   then [[NL]] else []))))
     /\ (Num.gtb (PyFloat eta) (PyInt 0) = true ->
         forall n, Num.ltb (PyFloat eta) (PyInt n) = false <->
                   Num.leb (PyInt n) (PyFloat eta) = true))
  /\ draw sample_themes eta_drawer (tracker 0 (small 0) 0) (small 1)
          (dec 1 2) None (Some (dec 599 10)) None
     = ok (tracker 0 (small 0) 0,
           [[CR] ++ lit ">>--" ++ SEPARATOR ++ lit "ETA 59.9s"])
  /\ draw sample_themes eta_drawer (tracker 0 (small 0) 0) (small 1)
          (dec 1 2) None (Some (small 60)) None
     = ok (tracker 0 (small 0) 0,
           [[CR] ++ lit ">>--" ++ SEPARATOR ++ lit "ETA 1.0m"])
  /\ draw sample_themes eta_drawer (tracker 0 (small 0) 0) (small 1)
          (dec 1 2) None (Some (dec 35999 10)) None
     = ok (tracker 0 (small 0) 0,
           [[CR] ++ lit ">>--" ++ SEPARATOR ++ lit "ETA 60.0m"])
  /\ draw sample_themes eta_drawer (tracker 0 (small 0) 0) (small 1)
          (dec 1 2) None (Some (small 3600)) None
     = ok (tracker 0 (small 0) 0,
           [[CR] ++ lit ">>--" ++ SEPARATOR ++ lit "ETA 1.0h"])
  /\ draw sample_themes eta_drawer (tracker 0 (small 0) 0) (small 1)
          (dec 1 2) None (Some (small 0)) None
     = ok (tracker 0 (small 0) 0, [[CR] ++ lit ">>--"])
  /\ draw sample_themes eta_drawer (tracker 0 (small 0) 0) (small 1)
          (dec 1 2) None (Some (dec (-5) 2)) None
     = ok (tracker 0 (small 0) 0, [[CR] ++ lit ">>--"]).
Proof.
  split.
  - intros py ct th style o start d st0 st now progress current eta speed
           Hg Hth Hst Hw Hv Ht He text etas.
    split; [|intros Hgt n; now apply not_lt_iff_ge].
    destruct (factory_returns py ct th style o start d st0 Hg Hth Hst)
      as (Hr & Ho & _ & _).
    rewrite <- Ho in Hw, He |- *.
    destruct (draw_returns th d st now progress current (Some eta) speed
                Hr Hw Hv Ht)
      as (st' & fp & ep & i' & cs & st1 & pct & etas' & spd
          & Hdf & Hcs & Hpct & Heta & Hspd & _ & Hd).
    rewrite He, eta_part_value in Heta. apply ok_inj in Heta.
    fold text in Heta. fold etas in Heta. subst etas'.
    exists st', fp, ep, i', cs, st1, pct, spd.
    split; [exact Hdf|]. split; [exact Hcs|]. split; [exact Hpct|].
    split; [exact Hspd|]. split; [exact Hd|].
    intros Hp Hc Hs. rewrite Hd.
    rewrite Hp in Hpct. rewrite Hs in Hspd.
    cbn [percentage_part speed_part] in Hpct, Hspd.
    apply ok_inj in Hpct. apply ok_inj in Hspd. subst pct spd.
    rewrite Hc. unfold etas, colored_bar.
    destruct (Num.gtb (PyFloat eta) (PyInt 0)); reflexivity.
  - repeat split; vm_compute; reflexivity.
Qed.

(** An ETA of 90 seconds on the arrow bar that shows the ETA only. *)
Lemma eta_format_witness :
  get_progress_drawer sample_py sample_colors (StyleName (lit "arrow"))
                      eta_only (small 0)
  = ok (eta_drawer, tracker 0 (small 0) 0) /\
  themes_ok sample_themes /\ style_ok (StyleName (lit "arrow")) /\
  width_ok (width eta_only) /\ valid (dec 1 2) = true /\
  tracker_ok (tracker 0 (small 0) 0) (small 1) None /\
  show_eta eta_only = true /\
  Num.gtb (PyFloat (small 90)) (PyInt 0) = true /\
  (exists st' bar,
     draw sample_themes eta_drawer (tracker 0 (small 0) 0) (small 1)
          (dec 1 2) None (Some (small 90)) None
     = ok (st', [[CR] ++ bar ++ SEPARATOR ++ lit "ETA 1.5m"])) /\
  Num.leb (PyInt 60) (PyFloat (small 90)) = true.
Proof.
  assert (Hg : get_progress_drawer sample_py sample_colors
                 (StyleName (lit "arrow")) eta_only (small 0)
               = ok (eta_drawer, tracker 0 (small 0) 0)) by reflexivity.
  assert (Hth : themes_ok sample_themes) by (repeat split).
  assert (Hw : width_ok (width eta_only)) by (split; reflexivity).
  assert (Ht : tracker_ok (tracker 0 (small 0) 0) (small 1) None).
  { split; [reflexivity|]. split; [reflexivity|]. intros c Hc. discriminate. }
  pose proof (proj1 eta_format sample_py sample_colors sample_themes
                (StyleName (lit "arrow")) eta_only (small 0) eta_drawer
                (tracker 0 (small 0) 0) (tracker 0 (small 0) 0) (small 1)
                (dec 1 2) None (small 90) None Hg Hth I Hw eq_refl Ht eq_refl)
    as H.
  cbv zeta in H. destruct H as [H Hiff].
  destruct H as (st' & fp & ep & i' & cs & st1 & pct & spd
                 & _ & _ & _ & _ & _ & Honly).
  refine (conj Hg (conj Hth (conj I (conj Hw (conj eq_refl (conj Ht
            (conj eq_refl (conj eq_refl (conj _ _))))))))).
  - exists st', (colored_bar eta_drawer fp ep (clamp (dec 1 2))).
    rewrite (Honly eq_refl eq_refl eq_refl). reflexivity.
  - apply (Hiff eq_refl 60). reflexivity.
Defined.



End DrawClaims.

(** ** Configuration errors: C7 *)

Module ConfigClaims.
Import F64 F64Spec F64Facts Progress ProgressSpec.
Import StrFacts NumFacts DrawFacts DrawCall.

Lemma select_unknown py style style_name filled_char empty_char chars :
  ~ In style_name known_names ->
  select py style style_name filled_char empty_char chars
  = raise (ValueError (unknown_style_message py style)).
Proof.
  intros Hn. unfold select.
  repeat match goal with
         | |- context [PyStr.eqb style_name ?l] =>
             let E := fresh "E" in
             destruct (PyStr.eqb style_name l) eqn:E;
             [ exfalso; apply Hn; apply eqb_eq in E; rewrite E;
               unfold known_names; cbn [map In]; tauto | ]
         end.
  reflexivity.
Qed.

Lemma available_names :
  join (lit ", ") available
  = lit "BLOCK, CLASSIC, BRAILLE, ARROW, EQUAL, DOT, SPIN_SIMPLE, SPIN_DOTS, SPIN_ARROW, VERTICAL, CIRCLE, SQUARE, GRADIENT, HASH, STAR, TRIANGLE, BOUNCE".
Proof. vm_compute. reflexivity. Qed.

(** C7, amended. When [custom_chars] is not given: a style name that
    lower-cases to none of the names the factory tells apart makes the
    factory raise a [ValueError] whose message holds the [repr] of the
    given value and the names of the constants of [ProgressStyle]; each of
    these names is accepted as a style; an empty glyph list makes the
    factory raise a [ValueError]; and a call of [draw] on a drawer the
    factory returned raises nothing. *)
Theorem configuration_errors py ct th o start :
  custom_chars o = None ->
  (forall s, ~ In (lower py s) known_names ->
     get_progress_drawer py ct (StyleName s) o start
     = raise (ValueError
                (lit "Unknown style: " ++ repr py s ++ lit ". Available: "
                 ++ lit "BLOCK, CLASSIC, BRAILLE, ARROW, EQUAL, DOT, SPIN_SIMPLE, SPIN_DOTS, SPIN_ARROW, VERTICAL, CIRCLE, SQUARE, GRADIENT, HASH, STAR, TRIANGLE, BOUNCE")))
  /\ (forall k v, In (k, v) ProgressStyle ->
        startswith_underscore k = false -> lower py k = v ->
        exists d st,
          get_progress_drawer py ct (StyleName k) o start = ok (d, st))
  /\ get_progress_drawer py ct (StyleList []) o start
     = raise (ValueError
                (lit "Character list must have at least one character"))
  /\ (forall style d st0 st now progress current eta speed,
        get_progress_drawer py ct style o start = ok (d, st0) ->
        themes_ok th -> style_ok style -> width_ok (width o) ->
        valid progress = true -> tracker_ok st now current ->
        exists r, draw th d st now progress current eta speed = ok r).
Proof.
  intros Hc. repeat split.
  - intros s Hs. unfold get_progress_drawer, resolve_name. rewrite Hc.
    cbn [bind ok]. rewrite select_unknown by assumption. cbn [bind raise].
    unfold unknown_style_message, repr_style. rewrite available_names.
    reflexivity.
  - intros k v Hin Hu Hl. unfold get_progress_drawer, resolve_name.
    rewrite Hc. cbn [bind ok]. rewrite Hl.
    unfold ProgressStyle in Hin. cbn [In] in Hin.
    repeat (destruct Hin as [Hin | Hin];
            [injection Hin as <- <-;
             first [discriminate Hu | (eexists _, _; reflexivity)] |]).
    destruct Hin.
  - unfold get_progress_drawer, resolve_name. rewrite Hc. reflexivity.
  - intros style d st0 st now progress current eta speed Hg Hth Hst Hw Hv Ht.
    destruct (factory_returns py ct th style o start d st0 Hg Hth Hst)
      as (Hr & Ho & _ & _).
    rewrite <- Ho in Hw.
    destruct (draw_returns th d st now progress current eta speed Hr Hw Hv Ht)
      as (st' & fp & ep & i' & cs & st1 & pct & etas & spd
          & _ & _ & _ & _ & _ & _ & Hd).
    rewrite Hd. eauto.
Qed.

Lemma configuration_errors_witness :
  custom_chars defaults = None /\
  ~ In (lower sample_py (lit "Nonexistent")) known_names /\
  get_progress_drawer sample_py sample_colors (StyleName (lit "Nonexistent"))
                      defaults (small 0)
  = raise (ValueError
             (lit "Unknown style: 'Nonexistent'. Available: BLOCK, CLASSIC, BRAILLE, ARROW, EQUAL, DOT, SPIN_SIMPLE, SPIN_DOTS, SPIN_ARROW, VERTICAL, CIRCLE, SQUARE, GRADIENT, HASH, STAR, TRIANGLE, BOUNCE")) /\
  In (lit "SPIN_DOTS", lit "spin_dots") ProgressStyle /\
  (exists d st,
     get_progress_drawer sample_py sample_colors (StyleName (lit "SPIN_DOTS"))
                         defaults (small 0) = ok (d, st)).
Proof.
  assert (Hn : ~ In (lower sample_py (lit "Nonexistent")) known_names).
  { vm_compute. intros H.
    repeat (destruct H as [H | H]; [discriminate H|]). exact H. }
  assert (Hi : In (lit "SPIN_DOTS", lit "spin_dots") ProgressStyle).
  { unfold ProgressStyle. cbn [In]. tauto. }
  destruct (configuration_errors sample_py sample_colors sample_themes
              defaults (small 0) eq_refl) as (Hu & Ha & _ & _).
  refine (conj eq_refl (conj Hn (conj _ (conj Hi _)))).
  - exact (Hu (lit "Nonexistent") Hn).
  - exact (Ha (lit "SPIN_DOTS") (lit "spin_dots") Hi eq_refl eq_refl).
Defined.

(** C7 as stated fails when [custom_chars] is given: an unknown style
    name and an empty glyph list are then accepted. *)
Lemma unknown_style_accepted_with_custom_chars :
  get_progress_drawer sample_py sample_colors (StyleName (lit "nonexistent"))
                      at_dot (small 0)
  = ok ({| d_renderer := Custom (lit "@") (lit ".");
           d_options := at_dot; d_color_handler := no_color |},
        tracker 0 (small 0) 0)
  /\ get_progress_drawer sample_py sample_colors (StyleList [])
                         at_dot (small 0)
  = ok ({| d_renderer := Custom (lit "@") (lit ".");
           d_options := at_dot; d_color_handler := no_color |},
        tracker 0 (small 0) 0).
Proof. split; reflexivity. Qed.

End ConfigClaims.

(** ** The speed tracker and the multi-bar display: C6, C8 *)

Module TrackerClaims.
Import F64 F64Spec F64Facts Progress ProgressSpec.
Import StrFacts NumFacts DrawFacts DrawCall.

Lemma update_out_of_range th m now index progress label :
  index < 0 \/ count m <= index ->
  update th m now index progress label
  = raise (IndexError (out_of_range_message index (count m))).
Proof.
  intros H. unfold update.
  destruct (Z.ltb_spec index 0); [reflexivity|].
  destruct (Z.leb_spec (count m) index); [reflexivity | lia].
Qed.

(** C8. [MultiProgress(3, "block", 30)]: [update(5, 0.5)] raises the
    range error and [update(0, 0.5)] writes three line terminators; but
    [update(0, 1.0)] writes four, the one [draw] adds at full progress
    and the three of the rows, while [lines_written] is set to 3. *)
Theorem multi_update_lines :
  lines_after_update 5 (dec 1 2)
    = raise (IndexError (lit "Index 5 out of range (0-2)"))
  /\ lines_after_update (-1) (dec 1 2)
    = raise (IndexError (lit "Index -1 out of range (0-2)"))
  /\ lines_after_update 0 (dec 1 2) = ok (3, 3)
  /\ lines_after_update 2 (dec 1 2) = ok (3, 3)
  /\ lines_after_update 0 (small 1) = ok (4, 3).
Proof. repeat split; vm_compute; reflexivity. Qed.

Lemma below_zero start :
  Num.ltb (PyFloat start) (PyInt 0) = true ->
  Num.gtb (PyFloat (small 0)) (PyFloat start) = true.
Proof.
  unfold Num.gtb, Num.ltb, Num.compare, Zcompare, cond_Zopp, option_map.
  intros Hlt. destruct start as [s | s | | s m e]; try discriminate.
  - destruct s; [reflexivity | discriminate].
  - destruct s; [reflexivity|]. exfalso.
    destruct (Z.leb_spec 0 e).
    + destruct (Z.compare_spec 0 (Zpos m * 2 ^ e)); try discriminate.
      assert (0 <= 2 ^ e) by (apply Z.pow_nonneg; lia). nia.
    + discriminate.
Qed.

Lemma speed_part_text v cs :
  speed_part true (Some v) cs = ok [speed_text v].
Proof.
  unfold speed_part, speed_text, float_lt_int.
  destruct (Num.ltb (PyFloat v) (PyInt 1000)); [reflexivity|].
  destruct (Num.ltb (PyFloat v) (PyInt 1000000)).
  - rewrite truediv_1000. reflexivity.
  - rewrite truediv_1000000. reflexivity.
Qed.

Lemma speed_part_computed v :
  speed_part true None (Some v) = ok [speed_text v].
Proof. apply (speed_part_text v None). Qed.

(** C6, amended. With [show_speed] set: a given [speed] is the one
    shown, and the tracker is left as it is; without it, a given
    [current] and a clock reading later than the tracker's make the speed
    shown the quotient of the difference of the counts by the difference
    of the times, a division that does not fail, and the tracker becomes
    [(now, current)]; a reading that is not later shows no speed and
    leaves the tracker as it is; without [speed] and [current] no speed
    is shown. The speed is shown in units below 1000, in thousands below
    one million, in millions above. On a drawer made before time 0, a
    draw with [current = 100] at time 0 then one with [current = 150] at
    time 1 show the speed 50.0 as ["50.0/s"]. *)
Theorem speed_resolution :
  (forall st now current v cs,
     compute_speed true st now current (Some v) = ok (None, st) /\
     speed_part true (Some v) cs = ok [speed_text v])
  /\
  (forall st now c delta,
     valid now = true -> valid (last_update st) = true ->
     Num.gtb (PyFloat now) (PyFloat (last_update st)) = true ->
     of_Z (c - last_value st) = Some delta ->
     nonzero (sub now (last_update st)) /\
     compute_speed true st now (Some c) None
     = ok (Some (div delta (sub now (last_update st))),
           tracker (cursor st) now c) /\
     speed_part true None (Some (div delta (sub now (last_update st))))
     = ok [speed_text (div delta (sub now (last_update st)))])
  /\
  (forall st now c,
     Num.gtb (PyFloat now) (PyFloat (last_update st)) = false ->
     compute_speed true st now (Some c) None = ok (None, st) /\
     speed_part true None None = ok [])
  /\
  (forall st now,
     compute_speed true st now None None = ok (None, st) /\
     speed_part true None None = ok [])
  /\
  (forall v,
     speed_text v
     = if Num.ltb (PyFloat v) (PyInt 1000) then Fmt.f1 v ++ lit "/s"
       else if Num.ltb (PyFloat v) (PyInt 1000000) then
         Fmt.f1 (div v (small 1000)) ++ lit "K/s"
       else Fmt.f1 (div v (small 1000000)) ++ lit "M/s")
  /\
  (forall start i,
     valid start = true ->
     Num.ltb (PyFloat start) (PyInt 0) = true ->
     exists v,
       compute_speed true (tracker i start 0) (small 0) (Some 100) None
       = ok (Some v, tracker i (small 0) 100) /\
       compute_speed true (tracker i (small 0) 100) (small 1) (Some 150) None
       = ok (Some (small 50), tracker i (small 1) 150) /\
       speed_part true None (Some (small 50)) = ok [lit "50.0/s"])
  /\
  two_draws (small (-1))
  = ok [[CR] ++ lit ">>--" ++ SEPARATOR ++ lit "50.0/s"].
Proof.
  split; [|split; [|split; [|split; [|split; [|split]]]]].
  - intros st now current v cs. split; [reflexivity | apply speed_part_text].
  - intros st now c delta Hn Hl Hgt Hd.
    split; [now apply sub_nonzero|]. split.
    + unfold compute_speed. rewrite Hgt.
      rewrite (of_int_some _ _ Hd). cbn [bind ok].
      rewrite truediv_nonzero by (now apply sub_nonzero). reflexivity.
    + apply speed_part_computed.
  - intros st now c Hgt. split; [|reflexivity].
    unfold compute_speed. rewrite Hgt. reflexivity.
  - intros st now. split; reflexivity.
  - intros v. reflexivity.
  - intros start i Hv Hlt.
    assert (Hgt : Num.gtb (PyFloat (small 0)) (PyFloat start) = true)
      by (now apply below_zero).
    exists (div (small 100) (sub (small 0) start)).
    split; [|split; vm_compute; reflexivity].
    unfold compute_speed, tracker. cbn [last_update last_value cursor].
    rewrite Hgt. change (of_int (100 - 0)) with (@ok float (small 100)).
    cbn [bind ok].
    rewrite truediv_nonzero; [reflexivity|].
    apply sub_nonzero; [reflexivity | assumption | assumption].
  - vm_compute. reflexivity.
Qed.

Lemma speed_resolution_witness :
  valid (small 3) = true /\ valid (last_update (tracker 0 (small 1) 10)) = true /\
  Num.gtb (PyFloat (small 3)) (PyFloat (last_update (tracker 0 (small 1) 10)))
    = true /\
  of_Z (5010 - last_value (tracker 0 (small 1) 10)) = Some (small 5000) /\
  compute_speed true (tracker 0 (small 1) 10) (small 3) (Some 5010) None
    = ok (Some (small 2500), tracker 0 (small 3) 5010) /\
  speed_part true None (Some (small 2500)) = ok [lit "2.5K/s"].
Proof.
  destruct speed_resolution as (_ & Hc & _).
  destruct (Hc (tracker 0 (small 1) 10) (small 3) 5010 (small 5000)
               eq_refl eq_refl eq_refl eq_refl) as (_ & Hs & Hp).
  refine (conj eq_refl (conj eq_refl (conj eq_refl (conj eq_refl
            (conj _ _))))).
  - rewrite Hs. reflexivity.
  - change (small 2500)
      with (div (small 5000) (sub (small 3) (last_update (tracker 0 (small 1) 10)))).
    rewrite Hp. reflexivity.
Defined.

(** C6 as stated fails when the drawer is made at the time of the first
    draw: that draw computes no speed and leaves the tracker at
    [(0, 0)], and the second one shows [(150 - 0) / (1 - 0)]. *)
Lemma speed_after_draw_at_creation_time :
  two_draws (small 0)
  = ok [[CR] ++ lit ">>--" ++ SEPARATOR ++ lit "150.0/s"].
Proof. vm_compute. reflexivity. Qed.

End TrackerClaims.

(** * Whole bars and runs of calls *)

(** ** Lists, strings and widths *)

Module MoreFacts.
Import F64 F64Spec F64Facts Progress ProgressSpec ProgressRuns.
Import StrFacts NumFacts DrawFacts.

Lemma len_app {A} (a b : list A) : len (a ++ b) = len a + len b.
Proof. unfold len. rewrite length_app. lia. Qed.

Lemma len_spaces n : len (PyStr.mul SP n) = Z.max 0 n.
Proof. rewrite len_mul. change (len SP) with 1. lia. Qed.

Lemma len_glyphs c n : len (PyStr.mul [c] n) = Z.max 0 n.
Proof. rewrite len_mul. change (len [c]) with 1. lia. Qed.

Lemma mul_empty n : PyStr.mul [] n = [].
Proof.
  unfold PyStr.mul. induction (Z.to_nat n) as [| k IH]; [reflexivity|].
  cbn [repeat concat app]. exact IH.
Qed.

Lemma width_53 w : width_ok w -> 0 <= w < 2 ^ 53.
Proof.
  intros [Hw0 Hw]. change (2 ^ 50) with 1125899906842624 in Hw.
  change (2 ^ 53) with 9007199254740992. lia.
Qed.

Lemma half_ok : progress_ok (PyFloat (dec 1 2)).
Proof. constructor. repeat split. Qed.

Lemma one_ok : progress_ok (PyFloat (small 1)).
Proof. constructor. repeat split. Qed.

Lemma width_10 : width_ok 10.
Proof. split; reflexivity. Qed.

End MoreFacts.

(** ** The shape of the bars *)

Module BarShape.
Import F64 F64Spec F64Facts Progress ProgressSpec ProgressRuns.
Import StrFacts NumFacts DrawFacts DrawCall MultiFacts MoreFacts.

(** The glyph after the full cells: none when [part] is zero. *)
Lemma partial_glyph (chars : str) part : 0 <= part < len chars ->
  exists partial,
    (if part =? 0 then ok [] else char_at chars part) = ok partial /\
    len partial = (if part =? 0 then 0 else 1).
Proof.
  intros Hp. destruct (Z.eqb_spec part 0) as [Hz | Hnz].
  - exists []. split; reflexivity.
  - destruct (char_at_in_range chars part Hp) as (c & Hc & _).
    exists [c]. split; [assumption | reflexivity].
Qed.

(** X1: on every progress [draw] passes, the filled segment of the braille
    style is exactly [width] characters long: [filled / 4] glyphs
    [braille[7]], the glyph [braille[filled mod 4]] when the remainder is
    not zero, and spaces up to [width], where [filled = int(p * width * 4)]
    lies between 0 and [4 * width]; the empty segment is [width] spaces. *)
Theorem braille_bar_width w p : progress_ok p -> width_ok w ->
  exists filled partial,
    (x <- mul_int p w ;; y <- mul_int x 4 ;; Num.to_int y) = ok filled /\
    0 <= filled <= 4 * w /\
    (if filled mod 4 =? 0 then ok [] else char_at braille_chars (filled mod 4))
      = ok partial /\
    len partial = (if filled mod 4 =? 0 then 0 else 1) /\
    braille w p
    = ok (PyStr.mul [0x287f%N] (filled / 4) ++ partial
            ++ PyStr.mul SP (w - filled / 4 - len partial),
          PyStr.mul SP w) /\
    len (PyStr.mul [0x287f%N] (filled / 4) ++ partial
           ++ PyStr.mul SP (w - filled / 4 - len partial)) = w.
Proof.
  intros Hp Hw. destruct (braille_count_ok p w Hp Hw) as [Hc Hb].
  set (k := braille_count p w) in *.
  pose proof (Z.mod_pos_bound k 4 ltac:(lia)) as Hm.
  destruct (partial_glyph braille_chars (k mod 4)) as (partial & Hpart & Hlen).
  { change (len braille_chars) with 9. lia. }
  exists k, partial.
  assert (Hfull : 0 <= k / 4) by (apply Z.div_pos; lia).
  assert (Hk : k = 4 * (k / 4) + k mod 4) by (apply Z.div_mod; lia).
  assert (Hfit : k / 4 + len partial <= w).
  { rewrite Hlen. destruct (Z.eqb_spec (k mod 4) 0); lia. }
  split; [exact Hc|]. split; [exact Hb|]. split; [exact Hpart|].
  split; [exact Hlen|]. split.
  - unfold braille.
    destruct (mul_int p w) as [e | x]; [discriminate|]. cbn [bind ok] in Hc |- *.
    destruct (mul_int x 4) as [e | y]; [discriminate|]. cbn [bind ok] in Hc |- *.
    rewrite Hc. cbn [bind ok].
    change (char_at braille_chars 7) with (@ok str [0x287f%N]). cbn [bind ok].
    fold k. rewrite Hpart. cbn [bind ok].
    rewrite len_app, len_glyphs, <- app_assoc.
    replace (w - (Z.max 0 (k / 4) + len partial)) with (w - k / 4 - len partial)
      by lia.
    reflexivity.
  - rewrite !len_app, len_glyphs, len_spaces. lia.
Qed.

Lemma braille_bar_width_witness :
  progress_ok (PyFloat (dec 1 3)) /\ width_ok 10 /\
  exists bar,
    braille 10 (PyFloat (dec 1 3)) = ok (bar, PyStr.mul SP 10) /\
    len bar = 10.
Proof.
  assert (Hp : progress_ok (PyFloat (dec 1 3))) by (constructor; repeat split).
  refine (conj Hp (conj width_10 _)).
  destruct (braille_bar_width 10 _ Hp width_10)
    as (filled & partial & _ & _ & _ & _ & Hb & Hl).
  eexists. split; [exact Hb | exact Hl].
Defined.

(** Up to 6/7 the block count stays within six units per cell. *)
Lemma block_count_below w p : progress_ok p -> width_ok w ->
  Num.leb p (PyFloat (dec 6 7)) = true -> filled_of p (w * 7 - 1) <= 6 * w.
Proof.
  intros Hp [Hw0 Hw] Hle.
  assert (Hw53 : 6 * w < 2 ^ 53).
  { change (2 ^ 50) with 1125899906842624 in Hw.
    change (2 ^ 53) with 9007199254740992. lia. }
  destruct (progress_ok_units p Hp) as [Hu Hb].
  set (u := progress_units p) in *.
  assert (HU : 7 * u < 6 * 2 ^ 1074).
  { destruct Hp as [ | | f Hf].
    - subst u. cbn [progress_units]. pose proof (pow2_pos 1074 ltac:(lia)). lia.
    - vm_compute in Hle. discriminate.
    - destruct Hf as (Hv & H0 & H1). cbn [num_units] in Hu.
      assert (Hq : units (dec 6 7) = Some (7720456504063707 * 2 ^ 1021))
        by (vm_compute; reflexivity).
      pose proof (leb_units f (dec 6 7) u _ Hv ltac:(vm_compute; reflexivity)
                            Hu Hq Hle) as Hcmp.
      assert (H7 : 7 * (7720456504063707 * 2 ^ 1021) < 6 * 2 ^ 1074)
        by (vm_compute; reflexivity).
      lia. }
  unfold filled_of, scale. fold u.
  pose proof (pow2_pos 1074 ltac:(lia)) as HP.
  assert (HX : 0 <= u * ((w * 7 - 1) * 2 ^ 1074) <= 6 * w * 2 ^ 2148).
  { rewrite pow_2148. set (P := 2 ^ 1074) in *. split; [nia|].
    assert (u * (w * 7 - 1) <= 6 * w * P) by nia. nia. }
  pose proof (rnd_le_exact 2148 _ (6 * w) 2148 ltac:(lia) ltac:(lia)
                           ltac:(lia) HX) as Hr.
  change (2148 - (2148 - 1074)) with 1074 in Hr.
  apply Z.div_le_upper_bound; [lia|]. lia.
Qed.

(** X2: the filled segment of the block style is [filled / 6] full glyphs,
    the glyph [chars[filled mod 6]] when the remainder is not zero, and
    spaces up to [width], where [filled = int(p * (width * 7 - 1))]. It is
    never shorter than [width] and at most [(width + 5) / 6] longer; it is
    exactly [width] long for every progress up to 6/7, and longer than
    [width] at progress 1 for every width of 2 or more. *)
Theorem block_bar_length w p : progress_ok p -> width_ok w ->
  exists filled partial,
    (x <- mul_int p (w * len block_chars - 1) ;; Num.to_int x) = ok filled /\
    0 <= filled <= 7 * w - 1 /\
    (if filled mod 6 =? 0 then ok [] else char_at block_chars (filled mod 6))
      = ok partial /\
    len partial = (if filled mod 6 =? 0 then 0 else 1) /\
    let bar := PyStr.mul [0x2589%N] (filled / 6) ++ partial
                 ++ PyStr.mul SP (w - filled / 6 - len partial) in
    block w p = ok (bar, PyStr.mul SP w) /\
    len bar = Z.max w (filled / 6 + len partial) /\
    w <= len bar <= w + (w + 5) / 6 /\
    (Num.leb p (PyFloat (dec 6 7)) = true -> len bar = w) /\
    (one_progress p -> 2 <= w -> w < len bar).
Proof.
  intros Hp [Hw0 Hw].
  change (len block_chars) with 7.
  assert (Hn : 0 <= w * 7 - 1 < 2 ^ 53).
  { change (2 ^ 50) with 1125899906842624 in Hw.
    change (2 ^ 53) with 9007199254740992. lia. }
  pose proof (mul_to_int p (w * 7 - 1) Hp Hn) as Hm.
  pose proof (filled_of_bounds p (w * 7 - 1) Hp Hn) as Hb.
  pose proof (block_count_below w p Hp (conj Hw0 Hw)) as Hlow.
  pose proof (fun H => EndpointClaims.filled_of_one p (w * 7 - 1) H Hn) as Hone.
  set (k := filled_of p (w * 7 - 1)) in *.
  pose proof (Z.mod_pos_bound k 6 ltac:(lia)) as Hmod.
  destruct (partial_glyph block_chars (k mod 6)) as (partial & Hpart & Hlen).
  { change (len block_chars) with 7. lia. }
  assert (Hfull : 0 <= k / 6) by (apply Z.div_pos; lia).
  assert (Hk : k = 6 * (k / 6) + k mod 6) by (apply Z.div_mod; lia).
  exists k, partial.
  split; [exact Hm|]. split; [lia|]. split; [exact Hpart|].
  split; [exact Hlen|]. cbv zeta.
  assert (Hbar : len (PyStr.mul [0x2589%N] (k / 6) ++ partial
                        ++ PyStr.mul SP (w - k / 6 - len partial))
                 = Z.max w (k / 6 + len partial)).
  { rewrite !len_app, len_glyphs, len_spaces. lia. }
  split.
  - unfold block. change (len block_chars) with 7. change (7 - 1) with 6.
    destruct (mul_int p (w * 7 - 1)) as [e | x]; [discriminate|].
    cbn [bind ok] in Hm |- *. rewrite Hm. cbn [bind ok].
    change (char_at block_chars (-1)) with (@ok str [0x2589%N]). cbn [bind ok].
    fold k. rewrite Hpart. cbn [bind ok].
    rewrite len_app, len_glyphs, <- app_assoc.
    replace (w - (Z.max 0 (k / 6) + len partial)) with (w - k / 6 - len partial)
      by lia.
    reflexivity.
  - rewrite Hbar, Hlen.
    assert (Hq : (w + 5) / 6 * 6 + (w + 5) mod 6 = w + 5).
    { pose proof (Z.div_mod (w + 5) 6 ltac:(lia)). lia. }
    pose proof (Z.mod_pos_bound (w + 5) 6 ltac:(lia)) as Hr.
    split; [reflexivity|]. split.
    + destruct (Z.eqb_spec (k mod 6) 0); lia.
    + split.
      * intros Hle. specialize (Hlow Hle).
        destruct (Z.eqb_spec (k mod 6) 0); lia.
      * intros H1 H2. specialize (Hone H1).
        destruct (Z.eqb_spec (k mod 6) 0); lia.
Qed.

Lemma block_bar_length_witness :
  progress_ok (PyFloat (dec 1 2)) /\ progress_ok (PyFloat (small 1)) /\
  width_ok 10 /\
  Num.leb (PyFloat (dec 1 2)) (PyFloat (dec 6 7)) = true /\
  one_progress (PyFloat (small 1)) /\
  (exists bar,
     block 10 (PyFloat (dec 1 2)) = ok (bar, PyStr.mul SP 10) /\
     len bar = 10) /\
  (exists bar,
     block 10 (PyFloat (small 1)) = ok (bar, PyStr.mul SP 10) /\
     10 < len bar).
Proof.
  assert (Hle : Num.leb (PyFloat (dec 1 2)) (PyFloat (dec 6 7)) = true)
    by reflexivity.
  assert (Ho : one_progress (PyFloat (small 1))) by (right; reflexivity).
  refine (conj half_ok (conj one_ok (conj width_10 (conj Hle (conj Ho
            (conj _ _)))))).
  - destruct (block_bar_length 10 _ half_ok width_10)
      as (filled & partial & _ & _ & _ & _ & H).
    cbv zeta in H. destruct H as (Hb & _ & _ & Hlow & _).
    eexists. split; [exact Hb | exact (Hlow Hle)].
  - destruct (block_bar_length 10 _ one_ok width_10)
      as (filled & partial & _ & _ & _ & _ & H).
    cbv zeta in H. destruct H as (Hb & _ & _ & _ & Hover).
    eexists. split; [exact Hb | apply (Hover Ho); lia].
Defined.

(** A bar of [k] filled cells out of [w]: the glyph [k] times, then
    spaces. *)
Lemma cells_split g k w : 0 <= k <= w ->
  cells g k w = PyStr.mul g k ++ PyStr.mul SP (w - k).
Proof.
  intros Hk. unfold cells, range.
  replace (Z.to_nat w) with (Z.to_nat k + Z.to_nat (w - k))%nat by lia.
  rewrite seq_app, !map_app, concat_app. f_equal.
  - rewrite (map_ext_in _ (fun _ => g)).
    + rewrite concat_map_const. unfold len. rewrite length_map, length_seq.
      rewrite Z2Nat.id by lia. reflexivity.
    + intros i Hi. apply in_map_iff in Hi. destruct Hi as (n & <- & Hn).
      apply in_seq in Hn. unfold cell.
      destruct (Z.ltb_spec (Z.of_nat n) k); [reflexivity | lia].
  - rewrite (map_ext_in _ (fun _ => SP)).
    + rewrite concat_map_const. unfold len. rewrite length_map, length_seq.
      rewrite Z2Nat.id by lia. reflexivity.
    + intros i Hi. apply in_map_iff in Hi. destruct Hi as (n & <- & Hn).
      apply in_seq in Hn. unfold cell.
      destruct (Z.ltb_spec (Z.of_nat n) k); [lia | reflexivity].
Qed.

Lemma len_shade p : len (shade p) = 1.
Proof.
  unfold shade. destruct (Num.ltb p _); [reflexivity|].
  destruct (Num.ltb p _); reflexivity.
Qed.

(** X3: the loops of the gradient and the vertical style build
    [k = int(p * width)] copies of one glyph followed by [width - k]
    spaces: the shade of [p] for gradient (a bar of exactly [width]
    characters), the glyph [VERTICAL[min(int(p * n), n - 1)]] for vertical;
    the empty segment is [width] spaces. *)
Theorem padded_loop_bars th w p : progress_ok p -> width_ok w ->
  exists k,
    filled_count w p = ok k /\ 0 <= k <= w /\
    gradient_bar w p
    = ok (PyStr.mul (shade p) k ++ PyStr.mul SP (w - k), PyStr.mul SP w) /\
    len (PyStr.mul (shade p) k ++ PyStr.mul SP (w - k)) = w /\
    (glyphs_ok (VERTICAL th) ->
     exists idx g,
       glyph_index (VERTICAL th) p = ok idx /\
       index (VERTICAL th) idx = ok g /\
       vertical th w p
       = ok (PyStr.mul g k ++ PyStr.mul SP (w - k), PyStr.mul SP w)).
Proof.
  intros Hp Hw. pose proof (width_53 w Hw) as Hw53.
  pose proof (filled_of_bounds p w Hp Hw53) as Hb.
  exists (filled_of p w).
  split; [now apply filled_count_ok|]. split; [exact Hb|]. split.
  - rewrite gradient_ok by assumption. now rewrite cells_split.
  - split.
    + rewrite len_app, !len_mul, len_shade. change (len SP) with 1. lia.
    + intros Hg. destruct (vertical_ok th w p Hp Hw Hg) as (g & Hgp & Hv).
      destruct (glyph_by_progress_ok _ p Hp Hg) as (g' & Hgp' & Hidx).
      assert (g' = g) by (rewrite Hgp in Hgp'; unfold ok in Hgp'; congruence).
      subst g'.
      exists (Z.min (filled_of p (len (VERTICAL th))) (len (VERTICAL th) - 1)), g.
      split.
      * unfold glyph_index. destruct Hg as [Hl0 Hl].
        pose proof (mul_to_int p (len (VERTICAL th)) Hp ltac:(lia)) as Hm.
        destruct (mul_int p (len (VERTICAL th))) as [e | x]; [discriminate|].
        cbn [bind ok] in Hm |- *. rewrite Hm. reflexivity.
      * split; [exact Hidx|]. rewrite Hv. now rewrite cells_split.
Qed.

Lemma padded_loop_bars_witness :
  progress_ok (PyFloat (dec 1 2)) /\ width_ok 10 /\
  glyphs_ok (VERTICAL sample_themes) /\
  exists k g,
    gradient_bar 10 (PyFloat (dec 1 2))
    = ok (PyStr.mul (shade (PyFloat (dec 1 2))) k ++ PyStr.mul SP (10 - k),
          PyStr.mul SP 10) /\
    vertical sample_themes 10 (PyFloat (dec 1 2))
    = ok (PyStr.mul g k ++ PyStr.mul SP (10 - k), PyStr.mul SP 10).
Proof.
  assert (Hg : glyphs_ok (VERTICAL sample_themes)) by (split; reflexivity).
  refine (conj half_ok (conj width_10 (conj Hg _))).
  destruct (padded_loop_bars sample_themes 10 _ half_ok width_10)
    as (k & _ & _ & Hgr & _ & Hv).
  destruct (Hv Hg) as (idx & g & _ & _ & Hve).
  exists k, g. split; [exact Hgr | exact Hve].
Defined.

Lemma glyph_index_ok chars p : progress_ok p -> glyphs_ok chars ->
  glyph_index chars p
  = ok (Z.min (filled_of p (len chars)) (len chars - 1)).
Proof.
  intros Hp [Hl0 Hl]. unfold glyph_index.
  pose proof (mul_to_int p (len chars) Hp ltac:(lia)) as Hm.
  destruct (mul_int p (len chars)) as [e | x]; [discriminate|].
  cbn [bind ok] in Hm |- *. rewrite Hm. reflexivity.
Qed.

Lemma index_Forall {A} (P : A -> Prop) (xs : list A) i a :
  Forall P xs -> index xs i = ok a -> P a.
Proof.
  intros HF. unfold index.
  destruct (_ && _); [|discriminate].
  destruct (nth_error xs _) as [b|] eqn:Hn; [|discriminate].
  intros H. unfold ok in H. injection H as <-.
  apply nth_error_In in Hn. rewrite Forall_forall in HF. now apply HF.
Qed.

(** X4: the circle, square and custom-list styles draw
    [k = int(p * width)] copies of the glyph
    [chars[min(int(p * n), n - 1)]] as filled segment and [width - k]
    copies of [chars[0]] as empty segment; with glyphs of one character
    the two segments are [width] characters together, and the glyph index
    does not decrease when the progress grows. *)
Theorem progressive_bars w chars p :
  progress_ok p -> width_ok w -> glyphs_ok chars ->
  exists k idx g first,
    filled_count w p = ok k /\ 0 <= k <= w /\
    glyph_index chars p = ok idx /\ 0 <= idx < len chars /\
    index chars idx = ok g /\ index chars 0 = ok first /\
    progressive w chars p = ok (PyStr.mul g k, PyStr.mul first (w - k)) /\
    (Forall (fun c => len c = 1) chars ->
     len (PyStr.mul g k) + len (PyStr.mul first (w - k)) = w) /\
    (forall f1 f2, p = PyFloat f1 -> in_unit f2 ->
       Num.leb (PyFloat f1) (PyFloat f2) = true ->
       exists idx2, glyph_index chars (PyFloat f2) = ok idx2 /\ idx <= idx2).
Proof.
  intros Hp Hw Hg. pose proof (width_53 w Hw) as Hw53.
  pose proof (filled_of_bounds p w Hp Hw53) as Hb.
  destruct (progressive_ok w chars p Hp Hw Hg) as (g & first & Hgp & Hf & Hpr).
  destruct (glyph_by_progress_ok _ p Hp Hg) as (g' & Hgp' & Hidx).
  assert (g' = g) by (rewrite Hgp in Hgp'; unfold ok in Hgp'; congruence).
  subst g'.
  pose proof Hg as [Hl0 Hl].
  pose proof (filled_of_bounds p (len chars) Hp ltac:(lia)) as Hbi.
  exists (filled_of p w),
         (Z.min (filled_of p (len chars)) (len chars - 1)), g, first.
  split; [now apply filled_count_ok|]. split; [exact Hb|].
  split; [now apply glyph_index_ok|]. split; [lia|].
  split; [exact Hidx|]. split; [exact Hf|]. split; [exact Hpr|]. split.
  - intros HF. rewrite !len_mul.
    rewrite (index_Forall _ _ _ _ HF Hidx), (index_Forall _ _ _ _ HF Hf). lia.
  - intros f1 f2 -> Hf2 Hle.
    assert (Hf1 : in_unit f1) by (inversion Hp; assumption).
    exists (Z.min (filled_of (PyFloat f2) (len chars)) (len chars - 1)).
    split; [apply glyph_index_ok; [now constructor | assumption]|].
    pose proof (StyleClaims.filled_of_mono f1 f2 (len chars) Hf1 Hf2
                  ltac:(lia) Hle).
    lia.
Qed.

Lemma progressive_bars_witness :
  progress_ok (PyFloat (dec 1 2)) /\ width_ok 10 /\
  glyphs_ok (CIRCLES_filled sample_themes) /\
  Forall (fun c => len c = 1) (CIRCLES_filled sample_themes) /\
  exists k g first,
    progressive 10 (CIRCLES_filled sample_themes) (PyFloat (dec 1 2))
    = ok (PyStr.mul g k, PyStr.mul first (10 - k)) /\
    len (PyStr.mul g k) + len (PyStr.mul first (10 - k)) = 10.
Proof.
  assert (Hg : glyphs_ok (CIRCLES_filled sample_themes))
    by (split; reflexivity).
  assert (Hs : Forall (fun c => len c = 1) (CIRCLES_filled sample_themes))
    by (repeat constructor).
  refine (conj half_ok (conj width_10 (conj Hg (conj Hs _)))).
  destruct (progressive_bars 10 _ _ half_ok width_10 Hg)
    as (k & idx & g & first & _ & _ & _ & _ & _ & _ & Hpr & Hlen & _).
  exists k, g, first. split; [exact Hpr | exact (Hlen Hs)].
Defined.

(** X5: the sub-cell counts of the braille and the block style,
    [int(p * width * 4)] and [int(p * (width * 7 - 1))], do not decrease
    when the progress grows within [[0, 1]], and stay within [4 * width]
    and [7 * width - 1]. *)
Theorem sub_cell_counts_monotone w p q :
  in_unit p -> in_unit q -> width_ok w ->
  Num.leb (PyFloat p) (PyFloat q) = true ->
  exists bp bq kp kq,
    (x <- mul_int (PyFloat p) w ;; y <- mul_int x 4 ;; Num.to_int y) = ok bp /\
    (x <- mul_int (PyFloat q) w ;; y <- mul_int x 4 ;; Num.to_int y) = ok bq /\
    0 <= bp <= bq /\ bq <= 4 * w /\
    (x <- mul_int (PyFloat p) (w * len block_chars - 1) ;; Num.to_int x)
      = ok kp /\
    (x <- mul_int (PyFloat q) (w * len block_chars - 1) ;; Num.to_int x)
      = ok kq /\
    0 <= kp <= kq /\ kq <= 7 * w - 1.
Proof.
  intros Hp Hq Hw Hle.
  assert (Hpo : progress_ok (PyFloat p)) by now constructor.
  assert (Hqo : progress_ok (PyFloat q)) by now constructor.
  destruct (braille_count_ok _ w Hpo Hw) as [Hbp Hbpb].
  destruct (braille_count_ok _ w Hqo Hw) as [Hbq Hbqb].
  change (len block_chars) with 7.
  assert (Hn : 0 <= w * 7 - 1 < 2 ^ 53).
  { destruct Hw as [Hw0 Hw]. change (2 ^ 50) with 1125899906842624 in Hw.
    change (2 ^ 53) with 9007199254740992. lia. }
  exists (braille_count (PyFloat p) w), (braille_count (PyFloat q) w),
         (filled_of (PyFloat p) (w * 7 - 1)), (filled_of (PyFloat q) (w * 7 - 1)).
  split; [exact Hbp|]. split; [exact Hbq|].
  destruct (StyleClaims.in_unit_units p Hp) as (u & Hu & Hpu & Hub).
  destruct (StyleClaims.in_unit_units q Hq) as (v & Hv & Hqv & Hvb).
  assert (Huv : u <= v).
  { destruct Hp as (Hvp & _), Hq as (Hvq & _).
    exact (leb_units p q u v Hvp Hvq Hu Hv Hle). }
  pose proof (pow2_pos 1074 ltac:(lia)) as HP.
  split.
  { split; [lia|]. unfold braille_count. rewrite Hpu, Hqv.
    apply scale_mono; [|lia]. destruct Hw as [Hw0 _]. split.
    - apply rnd_nonneg; [lia | nia].
    - apply rnd_mono; [lia|]. split; [nia|].
      apply Z.mul_le_mono_nonneg_r; [nia | lia]. }
  split; [lia|].
  split; [now apply mul_to_int|]. split; [now apply mul_to_int|].
  pose proof (filled_of_bounds (PyFloat p) (w * 7 - 1) Hpo Hn).
  pose proof (filled_of_bounds (PyFloat q) (w * 7 - 1) Hqo Hn).
  pose proof (StyleClaims.filled_of_mono p q (w * 7 - 1) Hp Hq ltac:(lia) Hle).
  lia.
Qed.

Lemma sub_cell_counts_monotone_witness :
  in_unit (dec 1 2) /\ in_unit (dec 3 4) /\ width_ok 10 /\
  Num.leb (PyFloat (dec 1 2)) (PyFloat (dec 3 4)) = true /\
  exists bp bq kp kq,
    (x <- mul_int (PyFloat (dec 1 2)) 10 ;; y <- mul_int x 4 ;; Num.to_int y)
      = ok bp /\
    (x <- mul_int (PyFloat (dec 3 4)) 10 ;; y <- mul_int x 4 ;; Num.to_int y)
      = ok bq /\
    bp <= bq /\
    (x <- mul_int (PyFloat (dec 1 2)) (10 * len block_chars - 1) ;;
     Num.to_int x) = ok kp /\
    (x <- mul_int (PyFloat (dec 3 4)) (10 * len block_chars - 1) ;;
     Num.to_int x) = ok kq /\
    kp <= kq.
Proof.
  assert (Hp : in_unit (dec 1 2)) by (repeat split).
  assert (Hq : in_unit (dec 3 4)) by (repeat split).
  assert (Hw : width_ok 10) by (split; reflexivity).
  assert (Hle : Num.leb (PyFloat (dec 1 2)) (PyFloat (dec 3 4)) = true)
    by reflexivity.
  refine (conj Hp (conj Hq (conj Hw (conj Hle _)))).
  destruct (sub_cell_counts_monotone 10 (dec 1 2) (dec 3 4) Hp Hq Hw Hle)
    as (bp & bq & kp & kq & H1 & H2 & H3 & _ & H4 & H5 & H6 & _).
  exists bp, bq, kp, kq. repeat (split; [first [assumption | lia]|]). lia.
Defined.

(** X6: [int(p * width)], computed on floats, is the exact integer part
    of the product of [p] and [width] or one more, and lies between 0 and
    [width]. *)
Theorem filled_count_near_floor w p : in_unit p -> width_ok w ->
  exists k,
    filled_count w (PyFloat p) = ok k /\
    floor_mul p w <= k <= floor_mul p w + 1 /\
    0 <= k <= w.
Proof.
  intros Hp [Hw0 Hw].
  assert (Hw53 : 0 <= w < 2 ^ 53).
  { change (2 ^ 50) with 1125899906842624 in Hw.
    change (2 ^ 53) with 9007199254740992. lia. }
  assert (Hw52 : w + 1 < 2 ^ 53).
  { change (2 ^ 50) with 1125899906842624 in Hw.
    change (2 ^ 53) with 9007199254740992. lia. }
  assert (Hok : progress_ok (PyFloat p)) by now constructor.
  exists (filled_of (PyFloat p) w).
  split; [now apply filled_count_ok|].
  split; [|now apply filled_of_bounds].
  destruct (StyleClaims.in_unit_units p Hp) as (u & Hu & Hpu & Hb).
  unfold floor_mul, filled_of, scale. rewrite Hu, Hpu.
  pose proof (pow2_pos 1074 ltac:(lia)) as HP.
  set (P := 2 ^ 1074) in *.
  set (F := w * u / P).
  assert (HF : F * P <= w * u < (F + 1) * P).
  { pose proof (Z.div_mod (w * u) P ltac:(lia)) as Hd.
    pose proof (Z.mod_pos_bound (w * u) P HP) as Hm. fold F in Hd. lia. }
  assert (HF0 : 0 <= F) by (apply Z.div_pos; nia).
  assert (HFw : F <= w).
  { apply Z.div_le_upper_bound; [lia | nia]. }
  assert (H2 : 2 ^ 2148 = P * P) by apply pow_2148.
  split.
  - apply Z.div_le_lower_bound; [lia|].
    pose proof (rnd_exact 2148 F 2148 ltac:(lia) ltac:(lia) ltac:(lia)) as He.
    change (2148 - (2148 - 1074)) with 1074 in He. fold P in He.
    pose proof (rnd_mono 2148 (F * 2 ^ 2148) (u * (w * P)) ltac:(lia)) as Hm.
    rewrite H2 in Hm, He. rewrite He in Hm.
    assert (0 <= F * (P * P) <= u * (w * P)) by nia.
    specialize (Hm ltac:(assumption)). lia.
  - apply Z.div_le_upper_bound; [lia|].
    assert (HX : 0 <= u * (w * P) <= (F + 1) * 2 ^ 2148).
    { rewrite H2. nia. }
    pose proof (rnd_le_exact 2148 _ (F + 1) 2148 ltac:(lia) ltac:(lia)
                             ltac:(lia) HX) as Hr.
    change (2148 - (2148 - 1074)) with 1074 in Hr. fold P in Hr. lia.
Qed.

Lemma filled_count_near_floor_witness :
  in_unit (dec 7 10) /\ width_ok 10 /\
  floor_mul (dec 7 10) 10 = 6 /\
  filled_count 10 (PyFloat (dec 7 10)) = ok 7 /\
  exists k,
    filled_count 10 (PyFloat (dec 7 10)) = ok k /\
    floor_mul (dec 7 10) 10 <= k <= floor_mul (dec 7 10) 10 + 1.
Proof.
  assert (Hp : in_unit (dec 7 10)) by (repeat split).
  assert (Hw : width_ok 10) by (split; reflexivity).
  refine (conj Hp (conj Hw (conj _ (conj _ _)))).
  - vm_compute. reflexivity.
  - vm_compute. reflexivity.
  - destruct (filled_count_near_floor 10 (dec 7 10) Hp Hw) as (k & Hk & Hb & _).
    exists k. split; assumption.
Defined.

End BarShape.

(** ** Widths of zero and below *)

Module NegativeWidth.
Import F64 F64Spec F64Facts Progress ProgressSpec ProgressRuns.
Import StrFacts NumFacts DrawFacts DrawCall MultiFacts MoreFacts.

Lemma round_aux_opp s M E :
  binary_round_aux prec emax (negb s) M E loc_Exact
  = SFopp (binary_round_aux prec emax s M E loc_Exact).
Proof.
  unfold binary_round_aux.
  destruct (shr_fexp prec emax M E loc_Exact) as [mrs' e'].
  destruct (shr_fexp prec emax _ e' loc_Exact) as [mrs'' e''].
  destruct (shr_m mrs'') as [| m | m]; [reflexivity | | reflexivity].
  destruct (e'' <=? emax - prec); reflexivity.
Qed.

(** The float of a negative integer is the opposite of the float of its
    magnitude. *)
Lemma normalize_opp n : 0 < n ->
  binary_normalize prec emax (- n) 0 false = SFopp (small n).
Proof.
  intros Hn. unfold small, binary_normalize.
  destruct n as [| p | p]; try lia. cbn [Z.opp]. unfold binary_round.
  destruct (shl_align p 0 _) as [mz ez].
  exact (round_aux_opp false (Zpos mz) ez).
Qed.

Lemma of_int_opp n : 0 < n < 2 ^ 53 -> of_int (- n) = ok (SFopp (small n)).
Proof.
  intros Hn. unfold of_int, of_Z. rewrite normalize_opp by lia.
  pose proof (small_units n ltac:(lia)) as Hu.
  destruct (small n) as [s | s | | s m e]; try discriminate; reflexivity.
Qed.

Lemma mul_opp_r x y ux uy : units x = Some ux -> units y = Some uy ->
  mul x (SFopp y) = SFopp (mul x y).
Proof.
  intros Hx Hy. unfold mul.
  destruct x as [sx | sx | | sx mx ex]; try discriminate;
    destruct y as [sy | sy | | sy my ey]; try discriminate;
    cbn [SFmul SFopp]; try (now rewrite xorb_negb_r by idtac).
  - destruct sx, sy; reflexivity.
  - destruct sx, sy; reflexivity.
  - destruct sx, sy; reflexivity.
  - replace (xorb sx (negb sy)) with (negb (xorb sx sy))
      by (destruct sx, sy; reflexivity).
    apply round_aux_opp.
Qed.

Lemma to_int_opp x u : units x = Some u ->
  F64.to_int (SFopp x) = ok (- (u / 2 ^ 1074)).
Proof.
  intros Hu. pose proof (to_int_units x u Hu) as Ht.
  destruct x as [s | s | | s m e]; try discriminate.
  - cbn [units] in Hu. injection Hu as <-. reflexivity.
  - destruct s; [discriminate|].
    unfold F64.to_int, trunc in Ht. cbn [cond_Zopp] in Ht.
    unfold ok in Ht. injection Ht as Ht.
    cbn [SFopp negb]. unfold F64.to_int, trunc. cbn [cond_Zopp].
    rewrite Ht. reflexivity.
Qed.

(** [int(p * width)] for a width below zero. *)
Lemma filled_count_opp n p : progress_ok p -> 0 < n < 2 ^ 53 ->
  filled_count (- n) p = ok (- filled_of p n).
Proof.
  intros Hp Hn. unfold filled_count.
  destruct Hp as [ | | f Hf].
  - cbn [mul_int bind ok Num.to_int]. unfold filled_of.
    cbn [progress_units]. rewrite Z.mul_0_l, scale_0. reflexivity.
  - cbn [mul_int bind ok Num.to_int]. unfold filled_of.
    cbn [progress_units]. rewrite !Z.mul_1_l, scale_1 by lia. reflexivity.
  - destruct (StyleClaims.in_unit_units f Hf) as (u & Hu & Hpu & Hb).
    cbn [mul_int]. rewrite of_int_opp by assumption. cbn [bind ok Num.to_int].
    pose proof (small_units n ltac:(lia)) as Hsn.
    rewrite (mul_opp_r f (small n) u _ Hu Hsn).
    assert (Hlt : rnd 2148 (u * (n * 2 ^ 1074)) < 2 ^ 2046).
    { pose proof (pow2_pos 1074 ltac:(lia)) as HP.
      assert (HX : 0 <= u * (n * 2 ^ 1074) <= n * 2 ^ 2148).
      { rewrite pow_2148. nia. }
      pose proof (rnd_le_exact 2148 _ n 2148 ltac:(lia) ltac:(lia)
                               ltac:(lia) HX) as Hr.
      change (2148 - (2148 - 1074)) with 1074 in Hr.
      apply Z.le_lt_trans with (n * 2 ^ 1074); [assumption|].
      apply Z.lt_le_trans with (2 ^ 53 * 2 ^ 1074).
      - apply Z.mul_lt_mono_pos_r; lia.
      - rewrite <- Z.pow_add_r by lia. apply Z.pow_le_mono_r; lia. }
    rewrite (to_int_opp _ _ (mul_units f (small n) u _ Hu Hsn Hlt)).
    unfold filled_of, scale. rewrite Hpu. reflexivity.
Qed.

(** X7: with a width of zero or below, the threshold-fill styles return
    two empty segments on every progress [draw] passes, and raise
    nothing. *)
Theorem nonpositive_width_draws_nothing th w so r i fc ec p :
  threshold_glyphs r = Some (fc, ec) ->
  progress_ok p -> - 2 ^ 50 < w <= 0 ->
  draw_func th w so r i p = ok ([], [], i).
Proof.
  intros Hr Hp Hw.
  rewrite (StyleClaims.threshold_draw th w so r i fc ec p Hr).
  unfold threshold.
  assert (Hk : exists k, filled_count w p = ok k /\ w <= k <= 0).
  { destruct (Z.eq_dec w 0) as [-> | Hne].
    - exists (filled_of p 0).
      assert (H0 : 0 <= 0 < 2 ^ 53) by (split; [lia | reflexivity]).
      split; [now apply filled_count_ok|].
      pose proof (filled_of_bounds p 0 Hp H0). lia.
    - assert (Hn : 0 < - w < 2 ^ 53).
      { change (2 ^ 50) with 1125899906842624 in Hw.
        change (2 ^ 53) with 9007199254740992. lia. }
      exists (- filled_of p (- w)).
      pose proof (filled_count_opp (- w) p Hp Hn) as Hf.
      rewrite Z.opp_involutive in Hf. split; [assumption|].
      pose proof (filled_of_bounds p (- w) Hp ltac:(lia)). lia. }
  destruct Hk as (k & -> & Hb). cbn [bind ok stateless].
  unfold PyStr.mul.
  replace (Z.to_nat k) with 0%nat by lia.
  replace (Z.to_nat (w - k)) with 0%nat by lia. reflexivity.
Qed.

Lemma nonpositive_width_draws_nothing_witness :
  threshold_glyphs Classic = Some (BLACK_SQUARE, WHITE_SQUARE) /\
  progress_ok (PyFloat (dec 1 2)) /\ - 2 ^ 50 < -10 <= 0 /\
  draw_func sample_themes (-10) false Classic 0 (PyFloat (dec 1 2))
  = ok ([], [], 0).
Proof.
  assert (Hp : progress_ok (PyFloat (dec 1 2))) by (constructor; repeat split).
  assert (Hw : - 2 ^ 50 < -10 <= 0) by (split; [reflexivity | lia]).
  refine (conj eq_refl (conj Hp (conj Hw _))).
  exact (nonpositive_width_draws_nothing sample_themes (-10) false Classic 0
           BLACK_SQUARE WHITE_SQUARE (PyFloat (dec 1 2)) eq_refl Hp Hw).
Defined.

End NegativeWidth.

(** ** Runs of a spinner *)

Module SpinnerRuns.
Import F64 F64Spec F64Facts Progress ProgressSpec ProgressRuns.
Import StrFacts NumFacts DrawFacts DrawCall MultiFacts MoreFacts.

Lemma cycling_spin th w so r frames i p :
  cycling_frames r = Some frames ->
  draw_func th w so r i p = spin w so frames i p.
Proof.
  destruct r; cbn [cycling_frames]; try discriminate;
    intros H; injection H as <-; reflexivity.
Qed.

Lemma frames_from th w so r frames :
  cycling_frames r = Some frames -> 0 < len frames ->
  forall ps i, 0 <= i < len frames ->
  exists shown,
    frames_shown th w so r i ps
    = ok (shown, (i + len ps) mod len frames) /\
    length shown = length ps /\
    forall k, (k < length ps)%nat ->
      exists s,
        index frames ((i + Z.of_nat k) mod len frames) = ok s /\
        nth_error shown k = Some (if so then PyStr.mul s (w / 3) else s).
Proof.
  intros Hr Hl. induction ps as [|p rest IH]; intros i Hi.
  - exists []. cbn [frames_shown]. change (len (@nil num)) with 0.
    rewrite Z.add_0_r, Z.mod_small by assumption.
    split; [reflexivity|]. split; [reflexivity|].
    intros k Hk. cbn in Hk. lia.
  - cbn [frames_shown]. rewrite (cycling_spin th w so r frames i p Hr).
    destruct (spin_ok w so frames i p Hl) as (s & Hs & ->). cbn [bind ok].
    destruct (IH ((i + 1) mod len frames)) as (shown & Hrun & Hlen & Hk).
    { apply Z.mod_pos_bound. lia. }
    rewrite Hrun. cbn [bind ok].
    exists ((if so then PyStr.mul s (w / 3) else s) :: shown).
    split.
    + f_equal. f_equal. rewrite Z.add_mod_idemp_l by lia.
      f_equal. unfold len. cbn [length]. lia.
    + split; [cbn [length]; now rewrite Hlen|].
      intros [|k] Hlt.
      * exists s. cbn [Z.of_nat nth_error]. rewrite Z.add_0_r.
        split; [assumption | reflexivity].
      * cbn [length] in Hlt. destruct (Hk k ltac:(lia)) as (s' & Hs' & Hn).
        exists s'. cbn [nth_error]. split; [|assumption].
        rewrite Z.add_mod_idemp_l in Hs' by lia.
        replace (i + Z.of_nat (S k)) with (i + 1 + Z.of_nat k) by lia.
        assumption.
Qed.

(** X8: on a fresh spinner (spin_simple, spin_dots, spin_arrow) the
    [k]-th call shows [frames[k mod n]], whatever the progress values
    are: the frames come in order and repeat with period [n], and after
    the calls the cursor is their number modulo [n]. With [spinner_only]
    the frame is repeated [width // 3] times, so a width below 3 shows
    nothing. *)
Theorem spinner_cycle th w so r frames ps :
  cycling_frames r = Some frames -> 0 < len frames ->
  exists shown,
    frames_shown th w so r 0 ps = ok (shown, len ps mod len frames) /\
    length shown = length ps /\
    (forall k, (k < length ps)%nat ->
       exists s,
         index frames (Z.of_nat k mod len frames) = ok s /\
         nth_error shown k = Some (if so then PyStr.mul s (w / 3) else s)) /\
    (forall k, (k + length frames < length ps)%nat ->
       nth_error shown (k + length frames) = nth_error shown k) /\
    (so = true -> w < 3 -> forall s, In s shown -> s = []).
Proof.
  intros Hr Hl.
  destruct (frames_from th w so r frames Hr Hl ps 0 ltac:(lia))
    as (shown & Hrun & Hlen & Hk).
  exists shown. split; [exact Hrun|]. split; [exact Hlen|]. split.
  - intros k Hlt. destruct (Hk k Hlt) as (s & Hs & Hn).
    exists s. split; assumption.
  - split.
    + intros k Hlt.
      destruct (Hk k ltac:(lia)) as (s & Hs & Hn).
      destruct (Hk (k + length frames)%nat Hlt) as (s' & Hs' & Hn').
      rewrite Hn, Hn'. cbn [Z.add] in Hs, Hs'.
      replace (Z.of_nat (k + length frames)) with (Z.of_nat k + 1 * len frames)
        in Hs' by (unfold len; lia).
      rewrite Z.mod_add in Hs' by lia.
      rewrite Hs in Hs'. unfold ok in Hs'. injection Hs' as ->. reflexivity.
    + intros -> Hw s Hin. apply In_nth_error in Hin. destruct Hin as (k & Hn).
      assert (Hlt : (k < length ps)%nat).
      { rewrite <- Hlen. apply nth_error_Some. congruence. }
      destruct (Hk k Hlt) as (s' & _ & Hn'). rewrite Hn in Hn'.
      injection Hn' as ->. unfold PyStr.mul.
      assert (Hq : w / 3 <= 0) by (apply Z.lt_succ_r, Z.div_lt_upper_bound; lia).
      replace (Z.to_nat (w / 3)) with 0%nat by lia. reflexivity.
Qed.

Lemma spinner_cycle_witness :
  cycling_frames (Spin spin_simple_frames) = Some spin_simple_frames /\
  0 < len spin_simple_frames /\
  exists shown,
    frames_shown sample_themes 30 false (Spin spin_simple_frames) 0
                 (repeat (PyFloat (dec 1 2)) 6)
    = ok (shown, 2) /\
    nth_error shown (1 + length spin_simple_frames) = nth_error shown 1.
Proof.
  refine (conj eq_refl (conj eq_refl _)).
  destruct (spinner_cycle sample_themes 30 false (Spin spin_simple_frames)
              spin_simple_frames (repeat (PyFloat (dec 1 2)) 6)
              eq_refl eq_refl)
    as (shown & Hrun & _ & _ & Hper & _).
  exists shown. split; [exact Hrun|].
  apply Hper. cbn. lia.
Defined.

End SpinnerRuns.

(** ** Clamping *)

Module Clamping.
Import F64 F64Spec F64Facts Progress ProgressSpec ProgressRuns.
Import StrFacts NumFacts DrawFacts DrawCall MultiFacts MoreFacts.

(** X9: clamping, for every float: a value below 0 (minus infinity
    included) becomes the [int] 0, a value of [[0, 1]] is kept as it is
    (negative zero included), and every other value, a NaN and plus
    infinity included, becomes the [int] 1; the result is always between
    0 and 1. *)
Theorem clamp_value (f : float) :
  clamp f = (if Num.ltb (PyFloat f) (PyInt 0) then PyInt 0
             else if Num.leb (PyFloat f) (PyInt 1) then PyFloat f
             else PyInt 1)
  /\ Num.leb (PyInt 0) (clamp f) = true
  /\ Num.leb (clamp f) (PyInt 1) = true
  /\ clamp S754_nan = PyInt 1
  /\ clamp (S754_infinity false) = PyInt 1
  /\ clamp (S754_infinity true) = PyInt 0
  /\ clamp (S754_zero true) = PyFloat (S754_zero true).
Proof.
  split; [apply clamp_by_cases|].
  split; [|split; [|repeat split]].
  - destruct (DrawCall.clamp_cases f) as [(-> & H0 & _) | [-> | ->]];
      [assumption | reflexivity | reflexivity].
  - destruct (DrawCall.clamp_cases f) as [(-> & _ & H1) | [-> | ->]];
      [assumption | reflexivity | reflexivity].
Qed.

(** Two progress values of the same magnitude draw the same bar. *)
Lemma draw_func_same th w so r i p q :
  progress_ok p -> progress_ok q -> width_ok w -> renderer_ok th r ->
  progress_units p = progress_units q -> shade p = shade q ->
  draw_func th w so r i p = draw_func th w so r i q.
Proof.
  intros Hp Hq Hw Hr Hu Hs. pose proof (width_53 w Hw) as Hw53.
  assert (Hf : forall n, filled_of p n = filled_of q n).
  { intros n. unfold filled_of. now rewrite Hu. }
  assert (Hth : forall fc ec, threshold w fc ec p = threshold w fc ec q).
  { intros fc ec. rewrite !threshold_ok by assumption. now rewrite Hf. }
  assert (Hg : forall chars, glyphs_ok chars ->
                 glyph_by_progress chars p = glyph_by_progress chars q).
  { intros chars Hc.
    destruct (glyph_by_progress_ok chars p Hp Hc) as (g & -> & Hi).
    destruct (glyph_by_progress_ok chars q Hq Hc) as (g' & -> & Hi').
    rewrite Hf in Hi. rewrite Hi in Hi'. now rewrite (ok_inj _ _ Hi'). }
  assert (Hpr : forall chars, glyphs_ok chars ->
                  progressive w chars p = progressive w chars q).
  { intros chars Hc.
    destruct (progressive_ok w chars p Hp Hw Hc) as (g & f & Hgp & Hfi & ->).
    destruct (progressive_ok w chars q Hq Hw Hc) as (g' & f' & Hgq & Hfi' & ->).
    rewrite (Hg chars Hc), Hgq in Hgp. rewrite Hfi in Hfi'.
    now rewrite (ok_inj _ _ Hgp), (ok_inj _ _ Hfi'), Hf. }
  destruct r; cbn [draw_func renderer_ok] in *; try (now rewrite Hth);
    try (now rewrite Hpr); try reflexivity.
  - (* block *)
    f_equal. unfold block. change (len block_chars) with 7.
    assert (Hn : 0 <= w * 7 - 1 < 2 ^ 53).
    { destruct Hw as [Hw0 Hw]. change (2 ^ 50) with 1125899906842624 in Hw.
      change (2 ^ 53) with 9007199254740992. lia. }
    pose proof (mul_to_int p (w * 7 - 1) Hp Hn) as Hmp.
    pose proof (mul_to_int q (w * 7 - 1) Hq Hn) as Hmq.
    destruct (mul_int p (w * 7 - 1)) as [e | x]; [discriminate|].
    destruct (mul_int q (w * 7 - 1)) as [e | y]; [discriminate|].
    cbn [bind ok] in *. rewrite Hmp, Hmq, Hf. reflexivity.
  - (* braille *)
    f_equal. unfold braille.
    destruct (braille_count_ok p w Hp Hw) as [Hbp _].
    destruct (braille_count_ok q w Hq Hw) as [Hbq _].
    destruct (mul_int p w) as [e | x]; [discriminate|].
    destruct (mul_int q w) as [e | y]; [discriminate|].
    cbn [bind ok] in *.
    destruct (mul_int x 4) as [e | x4]; [discriminate|].
    destruct (mul_int y 4) as [e | y4]; [discriminate|].
    cbn [bind ok] in *. rewrite Hbp, Hbq. unfold braille_count.
    rewrite Hu. reflexivity.
  - (* vertical *)
    f_equal.
    destruct (vertical_ok th w p Hp Hw Hr) as (g & Hgp & ->).
    destruct (vertical_ok th w q Hq Hw Hr) as (g' & Hgq & ->).
    rewrite (Hg _ Hr), Hgq in Hgp. now rewrite (ok_inj _ _ Hgp), Hf.
  - (* gradient *)
    rewrite !gradient_ok by assumption. now rewrite Hs, Hf.
  - (* bounce *)
    destruct (bounce_ok i p Hp) as (s & Hsi & ->).
    destruct (bounce_ok i q Hq) as (s' & Hsi' & ->).
    rewrite Hf, Hsi' in Hsi. now rewrite (ok_inj _ _ Hsi).
Qed.

(** The clamped value draws what the endpoint draws. *)
Lemma draw_at_int th d st now current eta speed (z : Z) f progress1 progress2 :
  renderer_ok th (d_renderer d) -> width_ok (width (d_options d)) ->
  progress_ok (PyInt z) -> progress_ok (PyFloat f) ->
  progress_units (PyInt z) = progress_units (PyFloat f) ->
  shade (PyInt z) = shade (PyFloat f) ->
  of_int z = ok f ->
  Num.geb (PyInt z) (PyInt 1) = Num.geb (PyFloat f) (PyInt 1) ->
  (forall a b, d_color_handler d a b (PyInt z)
               = d_color_handler d a b (PyFloat f)) ->
  clamp progress1 = PyInt z -> clamp progress2 = PyFloat f ->
  draw th d st now progress1 current eta speed
  = draw th d st now progress2 current eta speed.
Proof.
  intros Hr Hw Hz Hf Hu Hs Hc Hg Hcol H1 H2. unfold draw. rewrite H1, H2.
  destruct (compute_speed _ st now current speed) as [e | [cs st1]];
    [reflexivity|].
  cbn [bind ok].
  rewrite (draw_func_same th _ _ _ _ (PyInt z) (PyFloat f) Hz Hf Hw Hr Hu Hs).
  destruct (draw_func _ _ _ _ _ _) as [e | [[a b] i']]; [reflexivity|].
  cbn [bind ok]. rewrite Hcol, Hg.
  assert (Hpct : forall show, percentage_part show (PyInt z)
                              = percentage_part show (PyFloat f)).
  { intros show. unfold percentage_part, Fmt.percent. cbn [Num.to_float].
    rewrite Hc. reflexivity. }
  rewrite Hpct. reflexivity.
Qed.

(** X10: a call of [draw] with a progress below 0 does what the call
    with progress 0.0 does, and a call with a progress above 1 or a NaN
    does what the call with progress 1.0 does (same state, same text),
    provided the color handler treats the [int] 0 and 1 as the floats 0.0
    and 1.0. *)
Theorem out_of_range_as_endpoint th d st now progress current eta speed :
  renderer_ok th (d_renderer d) -> width_ok (width (d_options d)) ->
  (forall a b, d_color_handler d a b (PyInt 0)
               = d_color_handler d a b (PyFloat (small 0))) ->
  (forall a b, d_color_handler d a b (PyInt 1)
               = d_color_handler d a b (PyFloat (small 1))) ->
  (Num.ltb (PyFloat progress) (PyInt 0) = true ->
   draw th d st now progress current eta speed
   = draw th d st now (small 0) current eta speed)
  /\
  (Num.ltb (PyFloat progress) (PyInt 0) = false ->
   Num.leb (PyFloat progress) (PyInt 1) = false ->
   draw th d st now progress current eta speed
   = draw th d st now (small 1) current eta speed).
Proof.
  intros Hr Hw Hc0 Hc1. split.
  - intros Hlt.
    apply (draw_at_int th d st now current eta speed 0 (small 0));
      try assumption; try reflexivity.
    + constructor.
    + constructor. repeat split.
    + rewrite clamp_by_cases, Hlt. reflexivity.
  - intros Hlt Hle.
    apply (draw_at_int th d st now current eta speed 1 (small 1));
      try assumption; try reflexivity.
    + constructor.
    + constructor. repeat split.
    + rewrite clamp_by_cases, Hlt, Hle. reflexivity.
Qed.

Lemma out_of_range_as_endpoint_witness :
  renderer_ok sample_themes (d_renderer classic_counter) /\
  width_ok (width (d_options classic_counter)) /\
  Num.ltb (PyFloat (dec 5 2)) (PyInt 0) = false /\
  Num.leb (PyFloat (dec 5 2)) (PyInt 1) = false /\
  draw sample_themes classic_counter (tracker 0 (small 0) 0) (small 1)
       (dec 5 2) (Some 7) None None
  = draw sample_themes classic_counter (tracker 0 (small 0) 0) (small 1)
         (small 1) (Some 7) None None.
Proof.
  assert (Hr : renderer_ok sample_themes (d_renderer classic_counter))
    by exact I.
  assert (Hw : width_ok (width (d_options classic_counter)))
    by (split; reflexivity).
  refine (conj Hr (conj Hw (conj eq_refl (conj eq_refl _)))).
  exact (proj2 (out_of_range_as_endpoint sample_themes classic_counter
                  (tracker 0 (small 0) 0) (small 1) (dec 5 2) (Some 7)
                  None None Hr Hw (fun _ _ => eq_refl) (fun _ _ => eq_refl))
               eq_refl eq_refl).
Defined.

End Clamping.

(** ** The texts of the suffix *)

Module SuffixText.
Import F64 F64Spec F64Facts Progress ProgressSpec ProgressRuns.
Import StrFacts NumFacts DrawFacts DrawCall MultiFacts MoreFacts.

Lemma tenths_bounds m e : -1074 <= e ->
  Zpos m * 2 ^ (e + 1074) <= 100 * 2 ^ 1074 ->
  0 <= Fmt.tenths m e <= 1000.
Proof.
  intros He Hu. unfold Fmt.tenths.
  destruct (Z.leb_spec 0 e) as [Hpos | Hneg].
  - rewrite Z.pow_add_r in Hu by lia.
    pose proof (pow2_pos 1074 ltac:(lia)) as HP.
    pose proof (pow2_pos e Hpos) as HE.
    assert (Zpos m * 2 ^ e <= 100) by nia. nia.
  - fold (rne (Zpos m * 10) (- e)).
    pose proof (pow2_pos (- e) ltac:(lia)) as HE.
    pose proof (pow2_pos (e + 1074) ltac:(lia)) as HE2.
    assert (Hs : 2 ^ 1074 = 2 ^ (e + 1074) * 2 ^ (- e)).
    { rewrite <- Z.pow_add_r by lia. f_equal. lia. }
    rewrite Hs in Hu.
    assert (Hm : Zpos m <= 100 * 2 ^ (- e)) by nia.
    split.
    + pose proof (rne_bounds (Zpos m * 10) (- e) ltac:(lia)) as [Hb _].
      apply Z.le_trans with (Zpos m * 10 / 2 ^ (- e)); [|assumption].
      apply Z.div_pos; lia.
    + rewrite <- (rne_multiple 1000 (- e)) by lia.
      apply rne_mono; lia.
Qed.

Lemma percent_fits_all : forallb percent_fits (range 1001) = true.
Proof. vm_compute. reflexivity. Qed.

Lemma percent_fits_ok t : 0 <= t <= 1000 ->
  let s := Fmt.rjust 5 (Fmt.fixed1 t ++ lit "%") in
  len s = 5 \/ s = lit "100.0%".
Proof.
  intros Ht s.
  pose proof (proj1 (forallb_forall _ _) percent_fits_all t
                    (proj2 (range_in 1001 t) ltac:(lia))) as H.
  unfold percent_fits in H. fold s in H.
  apply orb_true_iff in H. destruct H as [H | H].
  - left. now apply Z.eqb_eq.
  - right. now apply eqb_eq.
Qed.

(** X11: on every progress [draw] passes, the percentage part is one
    text of exactly five characters, or is ["100.0%"]. *)
Theorem percentage_field p : progress_ok p ->
  exists s,
    percentage_part true p = ok [s] /\
    (len s = 5 \/ s = lit "100.0%").
Proof.
  intros Hp. unfold percentage_part, Fmt.percent.
  destruct Hp as [ | | f Hf].
  - eexists. split; [reflexivity|]. left. reflexivity.
  - eexists. split; [reflexivity|]. right. reflexivity.
  - cbn [Num.to_float bind ok]. eexists. split; [reflexivity|].
    destruct (StyleClaims.in_unit_units f Hf) as (u & Hu & _ & Hb).
    pose proof (small_units 100 ltac:(split; [lia | reflexivity])) as Hs.
    pose proof (pow2_pos 1074 ltac:(lia)) as HP.
    assert (HX : 0 <= u * (100 * 2 ^ 1074) <= 100 * 2 ^ 2148).
    { rewrite pow_2148. nia. }
    pose proof (rnd_le_exact 2148 _ 100 2148 ltac:(lia) ltac:(lia)
                             ltac:(split; [lia | reflexivity]) HX) as Hr.
    change (2148 - (2148 - 1074)) with 1074 in Hr.
    assert (Hlt : rnd 2148 (u * (100 * 2 ^ 1074)) < 2 ^ 2046).
    { apply Z.le_lt_trans with (100 * 2 ^ 1074); [assumption|].
      apply Z.lt_le_trans with (2 ^ 7 * 2 ^ 1074).
      - apply Z.mul_lt_mono_pos_r; [assumption | reflexivity].
      - rewrite <- Z.pow_add_r by lia. apply Z.pow_le_mono_r; lia. }
    pose proof (mul_units f (small 100) u _ Hu Hs Hlt) as Hm.
    destruct (mul f (small 100)) as [s | s | | s m e]; try discriminate.
    + destruct s; left; reflexivity.
    + cbn [units] in Hm. destruct s; [discriminate|].
      destruct (Z.leb_spec (-1074) e) as [He |]; [|discriminate].
      assert (Hv : Zpos m * 2 ^ (e + 1074) = rnd 2148 (u * (100 * 2 ^ 1074)))
        by congruence.
      cbn [Fmt.f1 Fmt.sign_str app].
      apply percent_fits_ok. apply tenths_bounds; [assumption | lia].
Qed.

Lemma percentage_field_witness :
  progress_ok (PyFloat (dec 9996 10000)) /\
  percentage_part true (PyFloat (dec 9996 10000)) = ok [lit "100.0%"] /\
  percentage_part true (PyFloat (dec 1 3)) = ok [lit "33.3%"] /\
  exists s,
    percentage_part true (PyFloat (dec 9996 10000)) = ok [s] /\
    (len s = 5 \/ s = lit "100.0%").
Proof.
  assert (Hp : progress_ok (PyFloat (dec 9996 10000)))
    by (constructor; repeat split).
  refine (conj Hp (conj _ (conj _ (percentage_field _ Hp)))).
  - vm_compute. reflexivity.
  - vm_compute. reflexivity.
Defined.

Lemma ungroup_plain s : plain s -> ungroup s = s.
Proof.
  unfold ungroup. induction 1 as [| c s Hc _ IH]; [reflexivity|].
  cbn [filter]. destruct (N.eqb_spec c COMMA); [contradiction|].
  cbn [negb]. now rewrite IH.
Qed.

Lemma count_plain s : plain s -> PyStr.count COMMA s = 0.
Proof.
  unfold PyStr.count. induction 1 as [| c s Hc _ IH]; [reflexivity|].
  cbn [filter]. destruct (N.eqb_spec COMMA c); [congruence | assumption].
Qed.

Lemma ungroup_app a b : ungroup (a ++ b) = ungroup a ++ ungroup b.
Proof. apply filter_app. Qed.

Lemma chunk3_step a b c d t :
  Fmt.chunk3 (a :: b :: c :: d :: t) = [a; b; c] :: Fmt.chunk3 (d :: t).
Proof. reflexivity. Qed.

Lemma chunk3_cons rs : exists g gs, Fmt.chunk3 rs = g :: gs.
Proof.
  destruct rs as [| a [| b [| c [| d t]]]]; cbn [Fmt.chunk3]; eauto.
Qed.

Lemma join_cons sep g gs rs : Fmt.chunk3 rs = gs ->
  join sep (g :: gs) = g ++ sep ++ join sep gs.
Proof.
  intros <-. destruct (chunk3_cons rs) as (h & hs & ->). reflexivity.
Qed.

(** The groups of a comma-free string, joined by commas. *)
Lemma grouping rs : forall n, (length rs <= n)%nat -> plain rs ->
  ungroup (join (lit ",") (Fmt.chunk3 rs)) = rs /\
  (rs <> [] ->
   PyStr.count COMMA (join (lit ",") (Fmt.chunk3 rs)) = (len rs - 1) / 3).
Proof.
  intros n. revert rs. induction n as [| n IH]; intros rs Hlen Hp.
  - destruct rs; [|cbn in Hlen; lia]. split; [reflexivity | congruence].
  - destruct rs as [| a [| b [| c [| d t]]]].
    + split; [reflexivity | congruence].
    + cbn [Fmt.chunk3 join]. split; [now apply ungroup_plain|].
      intros _. now rewrite count_plain.
    + cbn [Fmt.chunk3 join]. split; [now apply ungroup_plain|].
      intros _. now rewrite count_plain.
    + cbn [Fmt.chunk3 join]. split; [now apply ungroup_plain|].
      intros _. now rewrite count_plain.
    + rewrite chunk3_step, (join_cons _ _ _ (d :: t) eq_refl).
      assert (Ht : plain (d :: t)).
      { unfold plain in *. inversion Hp as [| ? ? _ H1]; subst.
        inversion H1 as [| ? ? _ H2]; subst.
        inversion H2 as [| ? ? _ H3]; subst. assumption. }
      assert (H3 : plain [a; b; c]).
      { unfold plain in *. inversion Hp as [| ? ? Ha H1]; subst.
        inversion H1 as [| ? ? Hb H2]; subst.
        inversion H2 as [| ? ? Hc _]; subst. repeat constructor; assumption. }
      destruct (IH (d :: t) ltac:(cbn [length] in *; lia) Ht) as [Hu Hc].
      split.
      * rewrite !ungroup_app, Hu, (ungroup_plain _ H3). reflexivity.
      * intros _. rewrite !count_app, (count_plain _ H3), Hc by discriminate.
        change (PyStr.count COMMA (lit ",")) with 1.
        unfold len. cbn [length].
        replace (Z.of_nat (S (S (S (S (length t))))) - 1)
          with ((Z.of_nat (S (length t)) - 1) + 1 * 3) by lia.
        rewrite Z.div_add by lia. lia.
Qed.

Lemma plain_digits_empty u : plain (lit (NilEmpty.string_of_uint u)).
Proof.
  unfold plain.
  induction u; cbn [NilEmpty.string_of_uint]; [constructor | ..];
    rewrite lit_cons; constructor; try assumption; discriminate.
Qed.

Lemma plain_digits n : plain (of_nonneg n).
Proof.
  unfold of_nonneg, NilZero.string_of_uint.
  destruct (N.to_uint (Z.to_N n)); try apply plain_digits_empty.
  repeat constructor. discriminate.
Qed.

Lemma digits_nonempty_empty u : u <> Decimal.Nil ->
  lit (NilEmpty.string_of_uint u) <> [].
Proof.
  destruct u; cbn [NilEmpty.string_of_uint]; try congruence;
    intros _; rewrite lit_cons; discriminate.
Qed.

Lemma digits_nonempty n : of_nonneg n <> [].
Proof.
  unfold of_nonneg, NilZero.string_of_uint.
  destruct (N.to_uint (Z.to_N n)) eqn:E; try discriminate.
Qed.

Lemma plain_rev s : plain s -> plain (rev s).
Proof. unfold plain. apply Forall_rev. Qed.

Lemma ungroup_rev s : ungroup (rev s) = rev (ungroup s).
Proof. apply filter_rev. Qed.

Lemma count_rev c s : PyStr.count c (rev s) = PyStr.count c s.
Proof.
  induction s as [| x s IH]; [reflexivity|].
  cbn [rev]. rewrite count_app, IH.
  change (x :: s) with ([x] ++ s). rewrite count_app. lia.
Qed.

(** X12: the counter part is the decimal text of the count with commas
    added and nothing else changed: removing the commas gives [str(n)],
    and there are [(d - 1) / 3] commas for a count of [d] digits. *)
Theorem counter_grouping n :
  counter_part true (Some n) = [Fmt.thousands n] /\
  ungroup (Fmt.thousands n) = Fmt.int_str n /\
  PyStr.count COMMA (Fmt.thousands n) = (len (of_nonneg (Z.abs n)) - 1) / 3.
Proof.
  split; [reflexivity|].
  pose proof (plain_digits (Z.abs n)) as Hp.
  pose proof (digits_nonempty (Z.abs n)) as Hne.
  set (ds := of_nonneg (Z.abs n)) in *.
  destruct (grouping (rev ds) _ (le_n _) (plain_rev _ Hp)) as [Hu Hc].
  assert (Hs : plain (Fmt.sign_str (n <? 0))).
  { destruct (n <? 0); repeat constructor. discriminate. }
  unfold Fmt.thousands, Fmt.int_str, Fmt.grouped. fold ds. split.
  - rewrite ungroup_app, ungroup_rev, Hu, rev_involutive.
    now rewrite (ungroup_plain _ Hs).
  - rewrite count_app, count_rev, (count_plain _ Hs), Hc.
    + unfold len. now rewrite length_rev.
    + intros H. apply Hne. apply (f_equal (@rev char)) in H.
      now rewrite rev_involutive in H.
Qed.

End SuffixText.

(** ** The state of a drawer *)

Module DrawState.
Import F64 F64Spec F64Facts Progress ProgressSpec ProgressRuns.
Import StrFacts NumFacts DrawFacts DrawCall MultiFacts MoreFacts.

Lemma static_draw_func th w so r p : animated r = false ->
  exists body, forall i, draw_func th w so r i p = stateless body i.
Proof.
  destruct r; cbn [animated draw_func]; try discriminate; intros _;
    eexists; intros i; reflexivity.
Qed.

Lemma no_speed_computed ss st now current speed :
  ss = false \/ speed <> None \/ current = None ->
  compute_speed ss st now current speed = ok (None, st).
Proof.
  unfold compute_speed. intros [-> | [H | ->]]; [reflexivity | |].
  - destruct ss, speed; try reflexivity; congruence.
  - destruct ss, speed; reflexivity.
Qed.

(** X13: a call of [draw] on a style that is not animated, which does not
    compute a speed (the speed is not shown, or is given, or no count is
    given), leaves the state of the drawer as it was, and writes the same
    text from any other state and at any other time. *)
Theorem static_bar_memoryless th d st st2 now now2 progress current eta speed
        st' out :
  animated (d_renderer d) = false ->
  show_speed (d_options d) = false \/ speed <> None \/ current = None ->
  draw th d st now progress current eta speed = ok (st', out) ->
  st' = st /\
  draw th d st2 now2 progress current eta speed = ok (st2, out).
Proof.
  intros Ha Hs H. unfold draw in *.
  rewrite (no_speed_computed _ st now _ _ Hs) in H.
  rewrite (no_speed_computed _ st2 now2 _ _ Hs).
  cbn [bind ok] in *.
  destruct (static_draw_func th (width (d_options d))
              (spinner_only (d_options d)) (d_renderer d) (clamp progress) Ha)
    as (body & Hbody).
  rewrite Hbody in *. unfold stateless in *.
  destruct body as [e | [a b]]; cbn [bind ok] in *; [discriminate|].
  destruct (d_color_handler d a b (clamp progress)) as [a' b'].
  destruct (percentage_part _ _) as [e | pct]; cbn [bind ok] in *;
    [discriminate|].
  destruct (eta_part _ _) as [e | etas]; cbn [bind ok] in *; [discriminate|].
  destruct (speed_part _ _ _) as [e | spd]; cbn [bind ok] in *;
    [discriminate|].
  destruct st, st2; cbn [cursor last_update last_value] in *.
  destruct (Num.geb (clamp progress) (PyInt 1)); unfold ok in *;
    injection H as <- <-; split; reflexivity.
Qed.

Lemma static_bar_memoryless_witness :
  animated (d_renderer classic_counter) = false /\
  draw sample_themes classic_counter (tracker 0 (small 0) 0) (small 1)
       (dec 1 2) (Some 1234) None None
  = ok (tracker 0 (small 0) 0,
        [[CR] ++ PyStr.mul BLACK_SQUARE 2 ++ PyStr.mul WHITE_SQUARE 2
              ++ SEPARATOR ++ lit "50.0%" ++ lit "  " ++ lit "1,234"]) /\
  draw sample_themes classic_counter (tracker 7 (small 5) 99) (small 9)
       (dec 1 2) (Some 1234) None None
  = ok (tracker 7 (small 5) 99,
        [[CR] ++ PyStr.mul BLACK_SQUARE 2 ++ PyStr.mul WHITE_SQUARE 2
              ++ SEPARATOR ++ lit "50.0%" ++ lit "  " ++ lit "1,234"]).
Proof.
  assert (Ha : animated (d_renderer classic_counter) = false) by reflexivity.
  assert (Hd : draw sample_themes classic_counter (tracker 0 (small 0) 0)
                    (small 1) (dec 1 2) (Some 1234) None None
               = ok (tracker 0 (small 0) 0,
                     [[CR] ++ PyStr.mul BLACK_SQUARE 2
                           ++ PyStr.mul WHITE_SQUARE 2
                           ++ SEPARATOR ++ lit "50.0%" ++ lit "  "
                           ++ lit "1,234"]))
    by (vm_compute; reflexivity).
  refine (conj Ha (conj Hd _)).
  exact (proj2 (static_bar_memoryless sample_themes classic_counter
                  (tracker 0 (small 0) 0) (tracker 7 (small 5) 99)
                  (small 1) (small 9) (dec 1 2) (Some 1234) None None
                  _ _ Ha (or_introl eq_refl) Hd)).
Defined.

(** An integer of magnitude [2^1024] or more has no float. *)
Lemma round_overflows sx p : 2 ^ 1024 <= Zpos p ->
  exists s, binary_round prec emax sx p 0 = S754_infinity s.
Proof.
  intros Hp.
  pose proof (Zdigits2_bounds (Zpos p) ltac:(lia)) as [Dlo Dhi].
  assert (Hd : 1025 <= Zdigits2 (Zpos p)).
  { destruct (Z.le_gt_cases 1025 (Zdigits2 (Zpos p))) as [|Hlt]; [assumption|].
    exfalso.
    assert (2 ^ Zdigits2 (Zpos p) <= 2 ^ 1024) by (apply Z.pow_le_mono_r; lia).
    lia. }
  unfold binary_round. rewrite fexp64_eq.
  change (Zpos (digits2_pos p)) with (Zdigits2 (Zpos p)).
  assert (Hsa : shl_align p 0 (fexp64 (Zdigits2 (Zpos p) + 0)) = (p, 0)).
  { unfold shl_align, fexp64.
    destruct (Z.max (Zdigits2 (Zpos p) + 0 - 53) (-1074) - 0) eqn:Hf;
      [reflexivity | reflexivity | lia]. }
  rewrite Hsa.
  destruct (round_aux_spec sx (Zpos p) 0 ltac:(lia)) as (He' & Hm1 & ->).
  set (e' := Z.max 0 (fexp64 (Zdigits2 (Zpos p) + 0))).
  assert (He : e' = Zdigits2 (Zpos p) - 53) by (unfold e', fexp64; lia).
  set (m1 := rne (Zpos p) (e' - 0)) in *.
  assert (Hlow : 2 ^ 52 <= m1).
  { pose proof (rne_bounds (Zpos p) (e' - 0) ltac:(lia)) as [Hb _].
    fold m1 in Hb. apply Z.le_trans with (Zpos p / 2 ^ (e' - 0)); [|assumption].
    apply Z.div_le_lower_bound; [apply Z.pow_pos_nonneg; lia|].
    rewrite Z.mul_comm, <- Z.pow_add_r by lia.
    replace (52 + (e' - 0)) with (Zdigits2 (Zpos p) - 1) by lia. assumption. }
  assert (H52 : 0 < 2 ^ 52) by reflexivity.
  destruct (Z.eqb_spec m1 (2 ^ 53)) as [Heq | Hne].
  - exists sx. change (2 ^ 52) with 4503599627370496. unfold pack.
    destruct (Z.leb_spec (e' + 1) (emax - prec)) as [Hle | _];
      [unfold emax, prec in Hle; lia | reflexivity].
  - exists sx. unfold pack. destruct m1 as [| q | q]; [lia | | lia].
    destruct (Z.leb_spec e' (emax - prec)) as [Hle | _];
      [unfold emax, prec in Hle; lia | reflexivity].
Qed.

Lemma of_Z_overflow n : 2 ^ 1024 <= Z.abs n -> of_Z n = None.
Proof.
  intros Hn. unfold of_Z, binary_normalize.
  destruct n as [| p | p].
  - exfalso. pose proof (pow2_pos 1024 ltac:(lia)). cbn [Z.abs] in Hn. lia.
  - destruct (round_overflows false p Hn) as (s & ->). reflexivity.
  - destruct (round_overflows true p Hn) as (s & ->). reflexivity.
Qed.

(** X14: when the speed is shown and to be computed, the clock has
    advanced, and the count differs from the last one by [2^1024] or
    more, [draw] raises [OverflowError] (the difference has no float)
    and writes nothing. *)
Theorem speed_overflow th d st now progress c eta :
  show_speed (d_options d) = true ->
  Num.gtb (PyFloat now) (PyFloat (last_update st)) = true ->
  2 ^ 1024 <= Z.abs (c - last_value st) ->
  draw th d st now progress (Some c) eta None = raise OverflowError.
Proof.
  intros Hs Hgt Hc. unfold draw, compute_speed. rewrite Hs, Hgt.
  unfold of_int. rewrite (of_Z_overflow _ Hc). reflexivity.
Qed.

Lemma speed_overflow_witness :
  show_speed (d_options speed_drawer) = true /\
  Num.gtb (PyFloat (small 1)) (PyFloat (last_update (tracker 0 (small 0) 0)))
    = true /\
  2 ^ 1024 <= Z.abs (2 ^ 1024 - last_value (tracker 0 (small 0) 0)) /\
  draw sample_themes speed_drawer (tracker 0 (small 0) 0) (small 1)
       (dec 1 2) (Some (2 ^ 1024)) None None
  = raise OverflowError.
Proof.
  assert (Hs : show_speed (d_options speed_drawer) = true) by reflexivity.
  assert (Hg : Num.gtb (PyFloat (small 1))
                       (PyFloat (last_update (tracker 0 (small 0) 0))) = true)
    by reflexivity.
  assert (Hc : 2 ^ 1024 <= Z.abs (2 ^ 1024 - last_value (tracker 0 (small 0) 0))).
  { cbn [last_value tracker]. rewrite Z.sub_0_r, Z.abs_eq; [lia|].
    apply Z.pow_nonneg. lia. }
  refine (conj Hs (conj Hg (conj Hc _))).
  exact (speed_overflow sample_themes speed_drawer (tracker 0 (small 0) 0)
           (small 1) (dec 1 2) (2 ^ 1024) None Hs Hg Hc).
Defined.

End DrawState.

(** ** The style names [custom] and [custom_list] *)

Module HiddenNames.
Import F64 F64Spec F64Facts Progress ProgressSpec ProgressRuns.
Import StrFacts NumFacts DrawFacts DrawCall MultiFacts MoreFacts.

(** X15: without [custom_chars], the style name ["custom"] (in any
    case) is accepted and gives a drawer whose two segments are empty on
    every progress, and the style name ["custom_list"] raises
    [ValueError("Character list cannot be empty")]; a list given as style
    never raises that message. *)
Theorem custom_as_style_name py ct th o start s :
  custom_chars o = None ->
  (lower py s = lit "custom" ->
   get_progress_drawer py ct (StyleName s) o start
   = ok ({| d_renderer := Custom [] [];
            d_options := o;
            d_color_handler := select_color ct (color_theme o) |},
         tracker 0 start 0) /\
   forall w so i p, progress_ok p -> width_ok w ->
     draw_func th w so (Custom [] []) i p = ok ([], [], i))
  /\
  (lower py s = lit "custom_list" ->
   get_progress_drawer py ct (StyleName s) o start
   = raise (ValueError (lit "Character list cannot be empty")))
  /\
  (forall chars,
     get_progress_drawer py ct (StyleList chars) o start
     <> raise (ValueError (lit "Character list cannot be empty"))).
Proof.
  intros Hc. split; [|split].
  - intros Hs. split.
    + unfold get_progress_drawer, resolve_name. rewrite Hc, Hs. reflexivity.
    + intros w so i p Hp Hw. cbn [draw_func].
      rewrite threshold_ok; [| assumption |].
      * rewrite !mul_empty. reflexivity.
      * destruct Hw as [Hw0 Hw]. change (2 ^ 50) with 1125899906842624 in Hw.
        change (2 ^ 53) with 9007199254740992. lia.
  - intros Hs. unfold get_progress_drawer, resolve_name. rewrite Hc, Hs.
    reflexivity.
  - intros chars. unfold get_progress_drawer, resolve_name. rewrite Hc.
    destruct (Z.ltb_spec (len chars) 1) as [Hlt | Hge].
    + cbn [bind]. intros H. vm_compute in H. discriminate.
    + cbn [bind ok].
      change (select py (StyleList chars) (lit "custom_list") [] [] chars)
        with (if len chars =? 0
              then @raise renderer
                     (ValueError (lit "Character list cannot be empty"))
              else ok (CustomList chars)).
      destruct (Z.eqb_spec (len chars) 0); [lia|]. cbn [bind ok]. discriminate.
Qed.

Lemma custom_as_style_name_witness :
  custom_chars defaults = None /\
  lower sample_py (lit "Custom") = lit "custom" /\
  lower sample_py (lit "CUSTOM_LIST") = lit "custom_list" /\
  progress_ok (PyFloat (dec 1 2)) /\ width_ok 30 /\
  (exists d st,
     get_progress_drawer sample_py sample_colors (StyleName (lit "Custom"))
                         defaults (small 0) = ok (d, st) /\
     draw_func sample_themes 30 false (d_renderer d) 0 (PyFloat (dec 1 2))
     = ok ([], [], 0)) /\
  get_progress_drawer sample_py sample_colors (StyleName (lit "CUSTOM_LIST"))
                      defaults (small 0)
  = raise (ValueError (lit "Character list cannot be empty")).
Proof.
  assert (Hc : custom_chars defaults = None) by reflexivity.
  assert (H1 : lower sample_py (lit "Custom") = lit "custom") by reflexivity.
  assert (H2 : lower sample_py (lit "CUSTOM_LIST") = lit "custom_list")
    by reflexivity.
  assert (Hp : progress_ok (PyFloat (dec 1 2)))
    by (constructor; repeat split).
  assert (Hw : width_ok 30) by (split; reflexivity).
  refine (conj Hc (conj H1 (conj H2 (conj Hp (conj Hw (conj _ _)))))).
  - destruct (custom_as_style_name sample_py sample_colors sample_themes
                defaults (small 0) (lit "Custom") Hc) as [H _].
    destruct (H H1) as [Hg Hd]. eexists. eexists. split; [exact Hg|].
    exact (Hd 30 false 0 (PyFloat (dec 1 2)) Hp Hw).
  - destruct (custom_as_style_name sample_py sample_colors sample_themes
                defaults (small 0) (lit "CUSTOM_LIST") Hc) as [_ [H _]].
    exact (H H2).
Defined.

End HiddenNames.

(** ** The color theme *)

Module ColorChoice.
Import F64 F64Spec F64Facts Progress ProgressSpec ProgressRuns.
Import StrFacts NumFacts DrawFacts DrawCall MultiFacts MoreFacts.

Lemma eqb_other a b : a <> b -> PyStr.eqb a b = false.
Proof.
  intros H. destruct (PyStr.eqb a b) eqn:E; [|reflexivity].
  apply eqb_eq in E. contradiction.
Qed.

(** X16: a color theme name that is not one of the six known names
    selects the default handler, as no theme does, and a callable is
    used as it is; the color theme changes neither whether the factory
    returns nor the style it selects, only the handler. *)
Theorem color_theme_fallback py ct style o start c :
  (forall s, ~ In s color_names -> select_color ct (ColorName s) = default ct)
  /\ (forall f, select_color ct (ColorCallable f) = f)
  /\ select_color ct ColorNone = default ct
  /\ get_progress_drawer py ct style (with_color o c) start
     = match get_progress_drawer py ct style o start with
       | inl e => inl e
       | inr (d, st) =>
           inr ({| d_renderer := d_renderer d;
                   d_options := with_color o c;
                   d_color_handler := select_color ct c |}, st)
       end.
Proof.
  split; [|split; [reflexivity | split; [reflexivity|]]].
  - intros s Hs. unfold select_color.
    repeat (rewrite eqb_other;
            [| intros ->; apply Hs; unfold color_names; cbn [map In]; tauto]).
    reflexivity.
  - unfold get_progress_drawer. cbn [custom_chars with_color].
    destruct (resolve_name py style (custom_chars o)) as [e | [[[a b] x] l]];
      [reflexivity|].
    cbn [bind ok].
    destruct (select py style a b x l) as [e | r]; reflexivity.
Qed.

End ColorChoice.

(** ** Runs of [MultiProgress] *)

Module MultiRuns.
Import F64 F64Spec F64Facts Progress ProgressSpec ProgressRuns.
Import StrFacts NumFacts DrawFacts DrawCall MultiFacts MoreFacts.

Section Rows.

Variable th : Themes.
Variable now progress : float.
Variable label : str.
Variable index : Z.

(** The rows other than the updated one write a bare line terminator. *)
Lemma rows_skip_out xs ds out : ~ In index xs ->
  for_each xs (row th now progress label index) (ds, out)
  = ok (ds, out ++ repeat [NL] (length xs)).
Proof.
  revert out. induction xs as [| x xs IH]; intros out Hn.
  - cbn. now rewrite app_nil_r.
  - cbn [for_each row].
    destruct (Z.eqb_spec x index) as [-> | Hne]; [exfalso; apply Hn; now left|].
    cbn [bind ok]. rewrite IH by (intros Hin; apply Hn; now right).
    rewrite <- app_assoc. reflexivity.
Qed.

Lemma rows_hit_out l1 l2 ds out d st st' w :
  ~ In index l1 -> ~ In index l2 ->
  PyStr.index ds index = ok (d, st) ->
  draw th d st now progress None None None = ok (st', w) ->
  for_each (l1 ++ index :: l2) (row th now progress label index) (ds, out)
  = ok (set_nth ds (Z.to_nat index) (d, st'),
        out ++ repeat [NL] (length l1) ++ [prefix_of label index] ++ w
            ++ [[NL]] ++ repeat [NL] (length l2)).
Proof.
  intros H1 H2 Hi Hd. revert out.
  induction l1 as [| x l1 IH]; intros out.
  - cbn [app for_each row length repeat]. rewrite Z.eqb_refl, Hi.
    cbn [bind ok]. rewrite Hd. cbn [bind ok].
    rewrite rows_skip_out by assumption.
    repeat (cbn [app]; rewrite <- app_assoc). reflexivity.
  - cbn [app for_each row].
    destruct (Z.eqb_spec x index) as [-> | Hne]; [exfalso; apply H1; now left|].
    cbn [bind ok]. rewrite IH by (intros Hin; apply H1; now right).
    cbn [length repeat]. repeat (cbn [app]; rewrite <- app_assoc).
    reflexivity.
Qed.

End Rows.

Lemma range_split n i : 0 <= i < n ->
  range n = range i ++ i :: map Z.of_nat (seq (S (Z.to_nat i))
                                               (Z.to_nat (n - i - 1))).
Proof.
  intros Hi. unfold range.
  replace (Z.to_nat n) with (Z.to_nat i + S (Z.to_nat (n - i - 1)))%nat by lia.
  rewrite seq_app, map_app. cbn [seq map Nat.add]. rewrite Z2Nat.id by lia.
  reflexivity.
Qed.

Lemma nth_error_set_nth_other {A} (xs : list A) i j a : i <> j ->
  nth_error (set_nth xs i a) j = nth_error xs j.
Proof.
  revert i j. induction xs as [| x xs IH]; intros [| i] [| j] H; cbn;
    try reflexivity; try congruence.
  apply IH. congruence.
Qed.

Lemma nth_error_set_nth_same {A} (xs : list A) i a : (i < length xs)%nat ->
  nth_error (set_nth xs i a) i = Some a.
Proof.
  revert i. induction xs as [| x xs IH]; intros [| i] H; cbn in *;
    try lia; try reflexivity.
  apply IH. lia.
Qed.

Lemma index_set_nth_other {A} (xs : list A) i j a :
  0 <= i -> 0 <= j < len xs -> i <> j ->
  index (set_nth xs (Z.to_nat i) a) j = index xs j.
Proof.
  intros Hi Hj Hne. unfold index, len in *. rewrite length_set_nth.
  destruct (Z.ltb_spec j 0); [lia|].
  rewrite nth_error_set_nth_other by lia. reflexivity.
Qed.

Lemma index_set_nth_same {A} (xs : list A) i a : 0 <= i < len xs ->
  index (set_nth xs (Z.to_nat i) a) i = ok a.
Proof.
  intros Hi. unfold index, len in *. rewrite length_set_nth.
  destruct (Z.ltb_spec i 0); [lia|].
  destruct (Z.leb_spec 0 i); [|lia].
  destruct (Z.ltb_spec i (Z.of_nat (length xs))); [|lia]. cbn [andb].
  rewrite nth_error_set_nth_same by lia. reflexivity.
Qed.

(** The drawer of row [index] and what it draws. *)
Lemma update_run th m now index progress label :
  multi_ok th m -> valid progress = true -> 0 <= index < count m ->
  exists d st filled_part empty_part i',
    PyStr.index (drawers m) index = ok (d, st) /\
    draw_func th (width (d_options d)) (spinner_only (d_options d))
              (d_renderer d) (cursor st) (clamp progress)
      = ok (filled_part, empty_part, i') /\
    update th m now index progress label
    = ok ({| count := count m;
             drawers := set_nth (drawers m) (Z.to_nat index)
                          (d, {| cursor := i';
                                 last_update := last_update st;
                                 last_value := last_value st |});
             lines_written := count m |},
          (if lines_written m =? 0 then []
           else [cursor_up (lines_written m)])
          ++ repeat [NL] (Z.to_nat index)
          ++ [prefix_of label index]
          ++ (([CR] ++ colored_bar d filled_part empty_part (clamp progress))
              :: (if Num.geb (clamp progress) (PyInt 1) then [[NL]] else []))
          ++ [[NL]]
          ++ repeat [NL] (Z.to_nat (count m - index - 1))).
Proof.
  intros [Hlen Hall] Hv Hi. rewrite update_rows.
  destruct (Z.ltb_spec index 0); [lia|].
  destruct (Z.leb_spec (count m) index); [lia|]. cbn [orb].
  destruct (index_in_range (drawers m) index) as ([d st] & Hidx & Hnth);
    [lia|].
  assert (Hpd : plain_drawer th d).
  { rewrite Forall_forall in Hall.
    apply (Hall (d, st)). eapply nth_error_In. exact Hnth. }
  destruct (draw_plain th d st now progress Hpd Hv)
    as (fp & ep & i' & Hdf & Hd).
  exists d, st, fp, ep, i'.
  split; [assumption|]. split; [assumption|].
  rewrite (range_split (count m) index Hi).
  assert (H1 : ~ In index (range index)) by (rewrite range_in; lia).
  assert (H2 : ~ In index (map Z.of_nat (seq (S (Z.to_nat index))
                                              (Z.to_nat (count m - index - 1))))).
  { rewrite in_map_iff. intros (k & Hk & Hin). apply in_seq in Hin. lia. }
  rewrite (rows_hit_out th now progress label index _ _ _ _ d st _ _
             H1 H2 Hidx Hd).
  cbn [bind ok]. unfold range. rewrite !length_map, !length_seq.
  reflexivity.
Qed.


Lemma update_keeps th m now index progress label :
  multi_ok th m -> valid progress = true -> 0 <= index < count m ->
  forall m' out, update th m now index progress label = ok (m', out) ->
  multi_ok th m'.
Proof.
  intros Hm Hv Hi m' out Hu.
  destruct (update_lines th m now index progress label Hm Hv) as [_ H].
  destruct (H Hi) as (d & st & fp & ep & i' & m2 & out2 & _ & _ & Hu2 & Hok & _).
  rewrite Hu2 in Hu. unfold ok in Hu. injection Hu as <- _. exact Hok.
Qed.

Lemma three_bars_rows : three_bars = ok three_rows.
Proof. vm_compute. reflexivity. Qed.

Lemma three_rows_ok : multi_ok sample_themes three_rows.
Proof.
  refine (proj1 (init_ok sample_py sample_colors sample_themes 3
                   (StyleName (lit "block")) 30 (fun _ => small 0) three_rows
                   three_bars_rows _ I _)).
  - repeat split.
  - split; reflexivity.
Qed.

(** X17: what a successful [update] writes, in order: the cursor-up
    sequence when [lines_written] is not zero; one line terminator for
    each row above [index]; the prefix; the carriage return and the bar
    of row [index], with a line terminator after it when the clamped
    progress is at least 1; a line terminator; and one line terminator
    for each row below [index]. *)
Theorem update_output th m now index progress label :
  multi_ok th m -> valid progress = true -> 0 <= index < count m ->
  exists d st filled_part empty_part i' m',
    PyStr.index (drawers m) index = ok (d, st) /\
    draw_func th (width (d_options d)) (spinner_only (d_options d))
              (d_renderer d) (cursor st) (clamp progress)
      = ok (filled_part, empty_part, i') /\
    update th m now index progress label
    = ok (m',
          (if lines_written m =? 0 then []
           else [cursor_up (lines_written m)])
          ++ repeat [NL] (Z.to_nat index)
          ++ [prefix_of label index]
          ++ (([CR] ++ colored_bar d filled_part empty_part (clamp progress))
              :: (if Num.geb (clamp progress) (PyInt 1) then [[NL]] else []))
          ++ [[NL]]
          ++ repeat [NL] (Z.to_nat (count m - index - 1))).
Proof.
  intros Hm Hv Hi.
  destruct (update_run th m now index progress label Hm Hv Hi)
    as (d & st & fp & ep & i' & Hidx & Hdf & Hu).
  exists d, st, fp, ep, i'. eexists.
  split; [exact Hidx|]. split; [exact Hdf|]. exact Hu.
Qed.

Lemma update_output_witness :
  multi_ok sample_themes three_rows /\ valid (dec 1 2) = true /\
  0 <= 1 < count three_rows /\
  exists bar m',
    update sample_themes three_rows (small 0) 1 (dec 1 2) (lit "job")
    = ok (m', [[NL]; lit "job: "; [CR] ++ bar; [NL]; [NL]]).
Proof.
  assert (Hi : 0 <= 1 < count three_rows) by (cbn; lia).
  refine (conj three_rows_ok (conj eq_refl (conj Hi _))).
  destruct (update_output sample_themes three_rows (small 0) 1 (dec 1 2)
              (lit "job") three_rows_ok eq_refl Hi)
    as (d & st & fp & ep & i' & m' & _ & _ & Hu).
  exists (colored_bar d fp ep (clamp (dec 1 2))), m'. exact Hu.
Defined.

(** X18: a successful [update] has an index within the rows, keeps the
    number of rows, sets [lines_written] to it, leaves the drawers of the
    other rows as they were, and advances only the cursor of the drawer
    of row [index], by one call of its drawing function. *)
Theorem update_one_drawer th m now index progress label m' out :
  multi_ok th m -> valid progress = true ->
  update th m now index progress label = ok (m', out) ->
  0 <= index < count m /\
  multi_ok th m' /\ count m' = count m /\ lines_written m' = count m /\
  (forall j, 0 <= j < count m -> j <> index ->
     PyStr.index (drawers m') j = PyStr.index (drawers m) j) /\
  exists d st filled_part empty_part i',
    PyStr.index (drawers m) index = ok (d, st) /\
    draw_func th (width (d_options d)) (spinner_only (d_options d))
              (d_renderer d) (cursor st) (clamp progress)
      = ok (filled_part, empty_part, i') /\
    PyStr.index (drawers m') index = ok (d, advanced st i').
Proof.
  intros Hm Hv Hu.
  assert (Hi : 0 <= index < count m).
  { rewrite update_rows in Hu.
    destruct (Z.ltb_spec index 0); [discriminate|].
    destruct (Z.leb_spec (count m) index); [discriminate | lia]. }
  split; [exact Hi|].
  destruct (update_run th m now index progress label Hm Hv Hi)
    as (d & st & fp & ep & i' & Hidx & Hdf & Hu').
  rewrite Hu' in Hu. unfold ok in Hu. injection Hu as <- _.
  destruct Hm as [Hlen Hall]. cbn [drawers count lines_written].
  assert (Hpd : plain_drawer th d).
  { unfold PyStr.index in Hidx. destruct (_ && _); [|discriminate].
    destruct (nth_error (drawers m) _) as [x|] eqn:Hn; [|discriminate].
    unfold ok in Hidx. injection Hidx as ->.
    rewrite Forall_forall in Hall. apply (Hall (d, st)).
    eapply nth_error_In. exact Hn. }
  split.
  { split; cbn [drawers count].
    - unfold len. rewrite length_set_nth. exact Hlen.
    - apply Forall_set_nth; assumption. }
  split; [reflexivity|]. split; [reflexivity|]. split.
  - intros j Hj Hne. apply index_set_nth_other; lia.
  - exists d, st, fp, ep, i'. split; [exact Hidx|]. split; [exact Hdf|].
    apply index_set_nth_same. lia.
Qed.

Lemma update_one_drawer_witness :
  multi_ok sample_themes three_rows /\ valid (dec 1 2) = true /\
  exists m' out,
    update sample_themes three_rows (small 0) 1 (dec 1 2) (lit "job")
    = ok (m', out) /\
    lines_written m' = 3 /\
    PyStr.index (drawers m') 0 = PyStr.index (drawers three_rows) 0 /\
    PyStr.index (drawers m') 2 = PyStr.index (drawers three_rows) 2.
Proof.
  refine (conj three_rows_ok (conj eq_refl _)).
  destruct (update sample_themes three_rows (small 0) 1 (dec 1 2) (lit "job"))
    as [e | [m' out]] eqn:Hu; [vm_compute in Hu; discriminate|].
  destruct (update_one_drawer sample_themes three_rows (small 0) 1 (dec 1 2)
              (lit "job") m' out three_rows_ok eq_refl Hu)
    as (_ & _ & _ & Hl & Ho & _).
  exists m', out. split; [reflexivity|]. split; [exact Hl|].
  split; apply Ho; cbn; lia.
Defined.

Lemma factory_time py ct style o t t0 :
  get_progress_drawer py ct style o t
  = match get_progress_drawer py ct style o t0 with
    | inl e => inl e
    | inr (d, _) => inr (d, tracker 0 t 0)
    end.
Proof.
  unfold get_progress_drawer.
  destruct (resolve_name py style (custom_chars o)) as [e | [[[a b] c] l]];
    [reflexivity|].
  cbn [bind ok].
  destruct (select py style a b c l) as [e | r]; reflexivity.
Qed.

Lemma init_rows py ct style o (clock : Z -> float) t0 xs acc :
  for_each xs
    (fun k acc => d <- get_progress_drawer py ct style o (clock k) ;;
                  ok (acc ++ [d])) acc
  = match get_progress_drawer py ct style o t0 with
    | inl e => match xs with [] => ok acc | _ :: _ => inl e end
    | inr (d, _) =>
        ok (acc ++ map (fun k => (d, tracker 0 (clock k) 0)) xs)
    end.
Proof.
  revert acc. induction xs as [| x xs IH]; intros acc.
  - cbn [for_each map]. rewrite app_nil_r.
    destruct (get_progress_drawer py ct style o t0) as [e | [d st]];
      reflexivity.
  - cbn [for_each]. rewrite (factory_time py ct style o (clock x) t0).
    destruct (get_progress_drawer py ct style o t0) as [e | [d st]] eqn:Hg;
      [reflexivity|].
    cbn [bind ok]. rewrite IH. cbn [map]. rewrite <- app_assoc. reflexivity.
Qed.

(** X19: [MultiProgress(count, style, width)] with a count of zero or
    below builds an object without drawers for any style, a name that is
    not known included, and every [update] on it raises the range error;
    with a positive count it raises what the factory raises for the
    style, or holds [count] drawers of the style, each with cursor 0 and
    its own creation time. *)
Theorem init_cases py ct n style w clock :
  (n <= 0 ->
   init py ct n style w clock
   = ok {| count := n; drawers := []; lines_written := 0 |} /\
   forall th now index progress label,
     update th {| count := n; drawers := []; lines_written := 0 |}
            now index progress label
     = raise (IndexError (out_of_range_message index n)))
  /\
  (0 < n ->
   (forall e,
      get_progress_drawer py ct style (row_options w) (clock 0) = raise e ->
      init py ct n style w clock = raise e) /\
   (forall d st,
      get_progress_drawer py ct style (row_options w) (clock 0) = ok (d, st) ->
      init py ct n style w clock
      = ok {| count := n;
              drawers := map (fun k => (d, tracker 0 (clock k) 0)) (range n);
              lines_written := 0 |})).
Proof.
  split.
  - intros Hn. split.
    + unfold init, range. replace (Z.to_nat n) with 0%nat by lia. reflexivity.
    + intros th now index progress label. rewrite update_rows. cbn [count].
      destruct (Z.ltb_spec index 0); [reflexivity|].
      destruct (Z.leb_spec n index); [reflexivity | lia].
  - intros Hn.
    assert (Hr : exists x xs, range n = x :: xs).
    { unfold range. destruct (Z.to_nat n) as [|k] eqn:Hk; [lia|].
      cbn [seq map]. eauto. }
    destruct Hr as (x & xs & Hr).
    split.
    + intros e He. unfold init. fold (row_options w).
      rewrite (init_rows py ct style (row_options w) clock (clock 0)).
      rewrite He, Hr. reflexivity.
    + intros d st Hd. unfold init. fold (row_options w).
      rewrite (init_rows py ct style (row_options w) clock (clock 0)).
      rewrite Hd. reflexivity.
Qed.

Lemma init_cases_witness :
  0 <= 0 /\ 0 < 3 /\
  init sample_py sample_colors 0 (StyleName (lit "nonexistent")) 30
       (fun _ => small 0)
  = ok {| count := 0; drawers := []; lines_written := 0 |} /\
  update sample_themes {| count := 0; drawers := []; lines_written := 0 |}
         (small 0) 0 (dec 1 2) []
  = raise (IndexError (lit "Index 0 out of range (0--1)")) /\
  three_bars = ok three_rows.
Proof.
  refine (conj (Z.le_refl 0) (conj eq_refl _)).
  destruct (init_cases sample_py sample_colors 0
              (StyleName (lit "nonexistent")) 30 (fun _ => small 0))
    as [H0 _].
  destruct (H0 (Z.le_refl 0)) as [Hi Hu].
  destruct (init_cases sample_py sample_colors 3 (StyleName (lit "block")) 30
              (fun _ => small 0))
    as [_ H3].
  destruct (H3 eq_refl) as [_ Hok].
  split; [exact Hi|].
  split; [exact (Hu sample_themes (small 0) 0 (dec 1 2) [])|].
  exact (Hok block_row (tracker 0 (small 0) 0) eq_refl).
Defined.

(** X20: on a new [MultiProgress] object [complete] writes the empty
    string and the first [update] starts without a cursor movement; after
    a first successful [update], [complete] writes [count] line
    terminators and every further [update] starts with the cursor-up
    sequence for [count] lines. *)
Theorem multi_lifecycle py ct th n style w clock m now1 i1 p1 l1 :
  init py ct n style w clock = ok m ->
  themes_ok th -> style_ok style -> width_ok w ->
  valid p1 = true -> 0 <= i1 < n ->
  complete m = [[]] /\
  exists m1 rest1,
    update th m now1 i1 p1 l1
    = ok (m1, repeat [NL] (Z.to_nat i1) ++ prefix_of l1 i1 :: rest1) /\
    complete m1 = [PyStr.mul [NL] n] /\
    forall now2 i2 p2 l2, valid p2 = true -> 0 <= i2 < n ->
      exists m2 rest2,
        update th m1 now2 i2 p2 l2
        = ok (m2, cursor_up n :: repeat [NL] (Z.to_nat i2)
                    ++ prefix_of l2 i2 :: rest2) /\
        complete m2 = [PyStr.mul [NL] n].
Proof.
  intros Hi Hth Hst Hw Hv1 Hi1.
  destruct (init_ok py ct th n style w clock m Hi Hth Hst Hw)
    as (Hok & Hc & Hl).
  split; [unfold complete; rewrite Hl; reflexivity|].
  rewrite <- Hc in Hi1.
  destruct (update_run th m now1 i1 p1 l1 Hok Hv1 Hi1)
    as (d & st & fp & ep & i' & Hidx & Hdf & Hu).
  rewrite Hl in Hu. cbn [Z.eqb app] in Hu.
  eexists. eexists. split; [rewrite Hu; reflexivity|].
  split; [unfold complete; cbn [lines_written]; now rewrite Hc|].
  intros now2 i2 p2 l2 Hv2 Hi2.
  match type of Hu with _ = ok (?x, _) => set (m1 := x) in * end.
  assert (Hok1 : multi_ok th m1)
    by exact (update_keeps th m now1 i1 p1 l1 Hok Hv1 Hi1 _ _ Hu).
  assert (Hi2' : 0 <= i2 < count m1) by (cbn [count m1]; lia).
  destruct (update_run th m1 now2 i2 p2 l2 Hok1 Hv2 Hi2')
    as (d2 & st2 & fp2 & ep2 & i2' & Hidx2 & Hdf2 & Hu2).
  cbn [lines_written count m1] in Hu2.
  destruct (Z.eqb_spec (count m) 0) as [H0 | _]; [lia|].
  rewrite Hc in Hu2. cbn [app] in Hu2.
  eexists. eexists. split; [rewrite Hu2; reflexivity|].
  unfold complete. subst m1. cbn [lines_written count]. reflexivity.
Qed.

Lemma multi_lifecycle_witness :
  three_bars = ok three_rows /\ themes_ok sample_themes /\
  style_ok (StyleName (lit "block")) /\ width_ok 30 /\
  valid (dec 1 2) = true /\ 0 <= 1 < 3 /\
  complete three_rows = [[]] /\
  exists m1 rest1,
    update sample_themes three_rows (small 0) 1 (dec 1 2) []
    = ok (m1, [NL] :: lit "Bar 2: " :: rest1) /\
    complete m1 = [PyStr.mul [NL] 3] /\
    exists m2 rest2,
      update sample_themes m1 (small 1) 0 (small 1) []
      = ok (m2, cursor_up 3 :: lit "Bar 1: " :: rest2).
Proof.
  assert (Ht : themes_ok sample_themes) by (repeat split).
  assert (Hw : width_ok 30) by (split; reflexivity).
  assert (Hi : 0 <= 1 < 3) by lia.
  refine (conj three_bars_rows (conj Ht (conj I (conj Hw (conj eq_refl
            (conj Hi _)))))).
  destruct (multi_lifecycle sample_py sample_colors sample_themes 3
              (StyleName (lit "block")) 30 (fun _ => small 0) three_rows
              (small 0) 1 (dec 1 2) [] three_bars_rows Ht I Hw eq_refl Hi)
    as (Hc & m1 & rest1 & Hu & Hc1 & Hnext).
  split; [exact Hc|]. exists m1, rest1. split; [exact Hu|].
  split; [exact Hc1|].
  destruct (Hnext (small 1) 0 (small 1) [] eq_refl ltac:(lia))
    as (m2 & rest2 & Hu2 & _).
  exists m2, rest2. exact Hu2.
Defined.

End MultiRuns.

(** ** The top of a band *)

Module BandEdges.
Import F64 F64Spec F64Facts Progress ProgressSpec ProgressRuns.
Import StrFacts NumFacts DrawFacts DrawCall MultiFacts MoreFacts.

Lemma compare_scale a b c : 0 < c -> (a * c ?= b * c) = (a ?= b).
Proof.
  intros Hc. destruct (Z.compare_spec a b) as [-> | H | H].
  - apply Z.compare_refl.
  - apply Z.compare_lt_iff. nia.
  - apply Z.compare_gt_iff. nia.
Qed.

(** Comparing an integer with a float, on the units of the float. *)
Lemma Zcompare_units z f u : units f = Some u ->
  Zcompare z f = Some (z * 2 ^ 1074 ?= u).
Proof.
  pose proof (pow2_pos 1074 ltac:(lia)) as HP.
  destruct f as [s | s | | s m e]; cbn [units]; try discriminate.
  - intros [= <-]. unfold Zcompare. f_equal.
    rewrite <- (compare_scale z 0 (2 ^ 1074) HP). reflexivity.
  - destruct s; [discriminate|].
    destruct (Z.leb_spec (-1074) e) as [He |]; [|discriminate].
    intros Hu. assert (u = Zpos m * 2 ^ (e + 1074)) by congruence. subst u.
    clear Hu. unfold Zcompare. cbn [cond_Zopp].
    destruct (Z.leb_spec 0 e) as [Hpos | Hneg]; f_equal.
    + rewrite Z.pow_add_r, Z.mul_assoc by lia.
      symmetry. apply compare_scale. assumption.
    + rewrite <- (compare_scale (z * 2 ^ (- e)) (Zpos m) (2 ^ (e + 1074)))
        by (apply pow2_pos; lia).
      rewrite <- Z.mul_assoc, <- Z.pow_add_r by lia.
      replace (- e + (e + 1074)) with 1074 by lia. reflexivity.
Qed.

(** The tenths shown for a float of [u] units: [10 u / 2^1074], rounded to
    the nearest integer, ties to even. *)
Lemma tenths_units m e : -1074 <= e ->
  Fmt.tenths m e = rne (Zpos m * 2 ^ (e + 1074) * 10) 1074.
Proof.
  intros He. unfold Fmt.tenths.
  destruct (Z.leb_spec 0 e) as [Hpos | Hneg].
  - rewrite Z.pow_add_r by lia.
    replace (Zpos m * (2 ^ e * 2 ^ 1074) * 10)
      with (Zpos m * 2 ^ e * 10 * 2 ^ 1074) by ring.
    now rewrite rne_multiple by lia.
  - fold (rne (Zpos m * 10) (- e)).
    replace (Zpos m * 2 ^ (e + 1074) * 10)
      with (Zpos m * 10 * 2 ^ (e + 1074)) by ring.
    replace 1074 with (e + 1074 + - e) at 2 by lia.
    now rewrite rne_scale by lia.
Qed.

(** A float between two bounds, the lower one a positive float and the
    upper one an integer, shows the tenths both bounds show. *)
Lemma f1_between lo f hi ulo t :
  valid lo = true -> valid f = true ->
  units lo = Some ulo -> 0 < ulo ->
  Num.leb (PyFloat lo) (PyFloat f) = true ->
  Num.ltb (PyFloat f) (PyInt hi) = true ->
  rne (ulo * 10) 1074 = t -> rne (hi * 2 ^ 1074 * 10) 1074 = t ->
  Fmt.f1 f = Fmt.fixed1 t /\ Num.gtb (PyFloat f) (PyInt 0) = true.
Proof.
  intros Hvlo Hvf Hulo Hpos Hle Hlt Hlo Hhi.
  assert (Hlof : exists ml el, lo = S754_finite false ml el).
  { destruct lo as [sl | sl | | sl ml el]; cbn [units] in Hulo;
      try discriminate.
    - injection Hulo as <-. lia.
    - destruct sl; [discriminate | eauto]. }
  destruct Hlof as (ml & el & ->).
  assert (Hu : exists u, units f = Some u /\
                         Fmt.f1 f = Fmt.fixed1 (rne (u * 10) 1074)).
  { destruct f as [s | s | | s m e].
    - exfalso. compute in Hle. discriminate.
    - exfalso. destruct s; [compute in Hle | compute in Hlt]; discriminate.
    - exfalso. compute in Hle. discriminate.
    - destruct (valid_exponent s m e Hvf) as [He _].
      assert (He' : -1074 <= e) by (rewrite He; unfold fexp64; lia).
      destruct s; [exfalso; compute in Hle; discriminate|].
      exists (Zpos m * 2 ^ (e + 1074)). split.
      + cbn [units]. destruct (Z.leb_spec (-1074) e); [reflexivity | lia].
      + cbn [Fmt.f1 Fmt.sign_str app]. now rewrite tenths_units. }
  destruct Hu as (u & Hu & Hf1).
  pose proof (leb_units _ f ulo u Hvlo Hvf Hulo Hu Hle) as Hlow.
  assert (Hup : u < hi * 2 ^ 1074).
  { unfold Num.ltb in Hlt. cbn [Num.compare] in Hlt.
    rewrite (Zcompare_units hi f u Hu) in Hlt. cbn [option_map] in Hlt.
    destruct (Z.compare_spec (hi * 2 ^ 1074) u); cbn [CompOpp] in Hlt;
      try discriminate. assumption. }
  split.
  - rewrite Hf1. f_equal. apply Z.le_antisymm.
    + rewrite <- Hhi. apply rne_mono; lia.
    + rewrite <- Hlo. apply rne_mono; lia.
  - unfold Num.gtb, Num.ltb. cbn [Num.compare].
    rewrite (Zcompare_units 0 f u Hu).
    destruct (Z.compare_spec (0 * 2 ^ 1074) u); [lia | reflexivity | lia].
Qed.

(** X21: the bands of the suffix test the value and the text rounds it:
    an ETA from 59.96875 up to, but not including, 60 seconds reads
    ["ETA 60.0s"], and a speed from 999.96875 up to, but not including,
    1000 reads ["1000.0/s"]. *)
Theorem band_top_texts :
  (forall eta, valid eta = true ->
     Num.leb (PyFloat (dec 1919 32)) (PyFloat eta) = true ->
     Num.ltb (PyFloat eta) (PyInt 60) = true ->
     eta_part true (Some eta) = ok [lit "ETA 60.0s"])
  /\
  (forall v cs, valid v = true ->
     Num.leb (PyFloat (dec 31999 32)) (PyFloat v) = true ->
     Num.ltb (PyFloat v) (PyInt 1000) = true ->
     speed_part true (Some v) cs = ok [lit "1000.0/s"]).
Proof.
  split.
  - intros eta Hv Hle Hlt.
    destruct (f1_between (dec 1919 32) eta 60 (1919 * 2 ^ 1069) 600
                eq_refl Hv ltac:(vm_compute; reflexivity)
                ltac:(vm_compute; reflexivity) Hle Hlt
                ltac:(vm_compute; reflexivity) ltac:(vm_compute; reflexivity))
      as [Hf Hg].
    unfold eta_part, float_lt_int. rewrite Hg, Hlt, Hf. reflexivity.
  - intros v cs Hv Hle Hlt.
    destruct (f1_between (dec 31999 32) v 1000 (31999 * 2 ^ 1069) 10000
                eq_refl Hv ltac:(vm_compute; reflexivity)
                ltac:(vm_compute; reflexivity) Hle Hlt
                ltac:(vm_compute; reflexivity) ltac:(vm_compute; reflexivity))
      as [Hf _].
    unfold speed_part, float_lt_int. rewrite Hlt, Hf. reflexivity.
Qed.

Lemma band_top_texts_witness :
  valid (dec 5999 100) = true /\
  Num.leb (PyFloat (dec 1919 32)) (PyFloat (dec 5999 100)) = true /\
  Num.ltb (PyFloat (dec 5999 100)) (PyInt 60) = true /\
  eta_part true (Some (dec 5999 100)) = ok [lit "ETA 60.0s"] /\
  valid (dec 99999 100) = true /\
  Num.leb (PyFloat (dec 31999 32)) (PyFloat (dec 99999 100)) = true /\
  Num.ltb (PyFloat (dec 99999 100)) (PyInt 1000) = true /\
  speed_part true (Some (dec 99999 100)) None = ok [lit "1000.0/s"].
Proof.
  refine (conj eq_refl (conj eq_refl (conj eq_refl (conj _
            (conj eq_refl (conj eq_refl (conj eq_refl _))))))).
  - exact (proj1 band_top_texts (dec 5999 100) eq_refl eq_refl eq_refl).
  - exact (proj2 band_top_texts (dec 99999 100) None eq_refl eq_refl eq_refl).
Defined.

End BandEdges.

(** ** The letter case of a style name *)

Module NameCase.
Import F64 F64Spec F64Facts Progress ProgressSpec ProgressRuns.
Import StrFacts NumFacts DrawFacts DrawCall MultiFacts MoreFacts.

(** The style given matters to [select] only in the message of the
    error. *)
Lemma select_by_name py style style' name fc ec chars r :
  select py style name fc ec chars = ok r ->
  select py style' name fc ec chars = ok r.
Proof.
  unfold select.
  repeat match goal with
         | |- context [if ?c then _ else _] => destruct c
         end; try exact (fun H => H); discriminate.
Qed.

(** X22: style names are matched on their lower-case form: when the
    factory returns for a name, it returns the same drawer for every name
    with the same lower-case form. *)
Theorem style_name_case py ct s s' o start r :
  lower py s = lower py s' ->
  get_progress_drawer py ct (StyleName s) o start = ok r ->
  get_progress_drawer py ct (StyleName s') o start = ok r.
Proof.
  intros Hl. unfold get_progress_drawer, resolve_name.
  destruct (custom_chars o) as [[fc ec] |]; [exact (fun H => H)|].
  rewrite <- Hl. cbn [bind ok].
  destruct (select py (StyleName s) (lower py s) [] [] []) as [e | x] eqn:Hs;
    [discriminate|].
  rewrite (select_by_name py _ (StyleName s') _ _ _ _ _ Hs).
  exact (fun H => H).
Qed.

Lemma style_name_case_witness :
  lower sample_py (lit "BrAiLlE") = lower sample_py (lit "braille") /\
  get_progress_drawer sample_py sample_colors (StyleName (lit "braille"))
                      defaults (small 0)
  = get_progress_drawer sample_py sample_colors (StyleName (lit "BrAiLlE"))
                        defaults (small 0).
Proof.
  refine (conj eq_refl _).
  destruct (get_progress_drawer sample_py sample_colors
              (StyleName (lit "BrAiLlE")) defaults (small 0))
    as [e | r] eqn:Hg; [vm_compute in Hg; discriminate|].
  exact (style_name_case sample_py sample_colors (lit "BrAiLlE")
           (lit "braille") defaults (small 0) r eq_refl Hg).
Defined.

End NameCase.
